(** * Dynamic form engine of [VisaApplicationFormComponent]

    A shallow embedding of the form-handling logic of
    [frontend/src/components/Sidebar.tsx]: the phone and currency formatters,
    the multi-checkbox handler, the rule-driven field validator and the
    submit handler with its re-entrancy guard.

    JavaScript strings are modelled as [string] (sequences of 8-bit
    characters).  Every character test of the source ([\d], [\D], [","],
    ["-"], ["_"]) is a test on ASCII characters, and in the UTF-8 reading of
    a [string] no byte of a non-ASCII character is an ASCII character, so the
    functions below classify characters as the source does on UTF-16 code
    units. *)

From Stdlib Require Import Ascii String ZArith Lia DecimalString.
From stdpp Require Import base option list strings gmap.

(** ** String primitives of the host language *)

Module JSString.

(** [\d] without the unicode flag: the ten ASCII digits. *)
Definition is_digit (c : ascii) : bool :=
  let n := N_of_ascii c in ((48 <=? n) && (n <=? 57))%N.

(** [s.replace(/\D/g, '')] and its like: keep the characters satisfying [p]. *)
Fixpoint keep (p : ascii -> bool) (s : string) : string :=
  match s with
  | EmptyString => EmptyString
  | String c s' => if p c then String c (keep p s') else keep p s'
  end.

Fixpoint all (p : ascii -> bool) (s : string) : bool :=
  match s with
  | EmptyString => true
  | String c s' => p c && all p s'
  end.

(** [s.slice(0, n)] and [s.slice(n)] for [n] within or beyond the string. *)
Fixpoint take (n : nat) (s : string) : string :=
  match n, s with
  | S n', String c s' => String c (take n' s')
  | _, _ => EmptyString
  end.

Fixpoint drop (n : nat) (s : string) : string :=
  match n, s with
  | S n', String _ s' => drop n' s'
  | _, _ => s
  end.

(** [s.replace(/a/g, b)] for single characters [a] and [b]. *)
Fixpoint replace_char (a b : ascii) (s : string) : string :=
  match s with
  | EmptyString => EmptyString
  | String c s' =>
      String (if Ascii.eqb c a then b else c) (replace_char a b s')
  end.

(** [s.split(sep)] for a one-character separator: never the empty list. *)
Fixpoint split (sep : ascii) (s : string) : list string :=
  match s with
  | EmptyString => [EmptyString]
  | String c s' =>
      if Ascii.eqb c sep then EmptyString :: split sep s'
      else match split sep s' with
           | h :: t => String c h :: t
           | [] => [String c EmptyString]
           end
  end.

(** [l.join(sep)]. *)
Definition join (sep : string) (l : list string) : string :=
  String.concat sep l.

(** [Boolean(s)] for a string: the empty string is the only falsy one. *)
Definition truthy (s : string) : bool :=
  match s with EmptyString => false | _ => true end.

(** Number of leading characters of [s] satisfying [p], at most [n]. *)
Fixpoint span_count (p : ascii -> bool) (n : nat) (s : string) : nat :=
  match n, s with
  | S n', String c s' => if p c then S (span_count p n' s') else 0
  | _, _ => 0
  end.

End JSString.

(** ** The pattern of [formatPhoneNumber]

    [/^(\d{0,3})(\d{0,3})(\d{0,4})$/] is a sequence of capture groups, each a
    greedy bounded repetition of [\d], between the two anchors.  The matcher
    is the backtracking one of the language: a group first takes as many
    digits as it can and gives them back one at a time while the rest of the
    pattern fails. *)

Module Regex.
Import JSString.

(** One group in front of the rest of the pattern: try [k] digits, then
    [k - 1], ... down to none. *)
Fixpoint backtrack (rest : string -> option (list string)) (s : string)
    (k : nat) : option (list string) :=
  match rest (drop k s) with
  | Some caps => Some (take k s :: caps)
  | None => match k with
            | 0 => None
            | S k' => backtrack rest s k'
            end
  end.

Fixpoint match_groups (bounds : list nat) (s : string) : option (list string) :=
  match bounds with
  | [] => match s with EmptyString => Some [] | _ => None end
  | b :: bs => backtrack (match_groups bs) s (span_count is_digit b s)
  end.

Definition phone_pattern : list nat := [3; 3; 4].

End Regex.

(** ** Formatter library *)

Module Formatters.
Import JSString Regex.

Definition formatPhoneNumber (value : string) : string :=
  let cleaned := keep is_digit value in
  match match_groups phone_pattern cleaned with
  | Some [m1; m2; m3] =>
      if negb (truthy m2) then m1
      else if negb (truthy m3) then "(" +:+ m1 +:+ ") " +:+ m2
      else "(" +:+ m1 +:+ ") " +:+ m2 +:+ "-" +:+ m3
  | _ => value
  end.

End Formatters.

(** ** Numbers of the host language

    A Number is a binary64 value: not-a-number, an infinity, or a finite
    value [(-1)^neg * m * 2^e].  Conversions from decimal text round to
    nearest, ties to even, as the language prescribes. *)

Module JSNumber.
Import JSString.
Local Open Scope Z_scope.

Inductive t : Type :=
  | NaN
  | Inf (neg : bool)
  | Fin (neg : bool) (m : N) (e : Z).

Definition is_nan (x : t) : bool :=
  match x with NaN => true | _ => false end.

Definition is_zero (x : t) : bool :=
  match x with Fin _ 0%N _ => true | _ => false end.

Definition eqb (x y : t) : bool :=
  match x, y with
  | NaN, NaN => true
  | Inf a, Inf b => Bool.eqb a b
  | Fin a m e, Fin b m' e' => Bool.eqb a b && (m =? m')%N && (e =? e')
  | _, _ => false
  end.

(** The Number nearest to the rational [num / den] ([0 <= num], [0 < den]),
    with the sign [neg]. *)
Definition round_binary64 (neg : bool) (num den : Z) : t :=
  if num =? 0 then Fin neg 0 0
  else
    let scaled (e : Z) : Z * Z :=
      if 0 <=? e then (num, den * 2 ^ e) else (num * 2 ^ (- e), den) in
    let e0 := Z.log2 num - Z.log2 den - 52 in
    let q0 := let '(n, d) := scaled e0 in n / d in
    let e1 := if q0 <? 2 ^ 52 then e0 - 1 else e0 in
    let e2 := Z.max e1 (-1074) in
    let '(n, d) := scaled e2 in
    let q := n / d in
    let r := n mod d in
    let q' :=
      if d <? 2 * r then q + 1
      else if 2 * r =? d then (if Z.odd q then q + 1 else q)
      else q in
    let '(m, e) := if q' =? 2 ^ 53 then (2 ^ 52, e2 + 1) else (q', e2) in
    if 971 <? e then Inf neg else Fin neg (Z.to_N m) e.

(** *** [parseFloat] *)

(** Leading [StrWhiteSpaceChar]s: the ASCII ones, and in their UTF-8
    spelling U+00A0, U+1680, U+2000..U+200A, U+2028, U+2029, U+202F, U+205F,
    U+3000 and U+FEFF. *)
Fixpoint trim_start (s : string) : string :=
  match s with
  | String c r =>
      let n := N_of_ascii c in
      if ((9 <=? n) && (n <=? 13) || (n =? 32))%N then trim_start r
      else
        match s with
        | String "194" (String "160" r2) => trim_start r2
        | String "225" (String "154" (String "128" r3)) => trim_start r3
        | String "226" (String "128" (String c3 r3)) =>
            let n3 := N_of_ascii c3 in
            if ((128 <=? n3) && (n3 <=? 138) || (n3 =? 168) || (n3 =? 169)
                || (n3 =? 175))%N
            then trim_start r3 else s
        | String "226" (String "129" (String "159" r3)) => trim_start r3
        | String "227" (String "128" (String "128" r3)) => trim_start r3
        | String "239" (String "187" (String "191" r3)) => trim_start r3
        | _ => s
        end
  | EmptyString => EmptyString
  end.

(** The longest prefix of digits, and what follows it. *)
Fixpoint span_digits (s : string) : string * string :=
  match s with
  | String c r =>
      if is_digit c then let '(d, r') := span_digits r in (String c d, r')
      else (EmptyString, s)
  | EmptyString => (EmptyString, EmptyString)
  end.

(** The value of a string of digits, most significant first. *)
Fixpoint digits_value (acc : Z) (s : string) : Z :=
  match s with
  | String c r => digits_value (10 * acc + (Z.of_N (N_of_ascii c) - 48)) r
  | EmptyString => acc
  end.

Definition split_sign (s : string) : bool * string :=
  match s with
  | String "-" r => (true, r)
  | String "+" r => (false, r)
  | _ => (false, s)
  end.

(** [ExponentPart], when one is there: [e] or [E], an optional sign and at
    least one digit. *)
Definition exponent_part (s : string) : Z :=
  match s with
  | String c r =>
      if (Ascii.eqb c "e" || Ascii.eqb c "E")%bool then
        let '(neg, r1) := split_sign r in
        let '(ds, _) := span_digits r1 in
        match ds with
        | EmptyString => 0
        | _ => if neg then - digits_value 0 ds else digits_value 0 ds
        end
      else 0
  | EmptyString => 0
  end.

Definition parseFloat (input : string) : t :=
  let '(neg, s1) := split_sign (trim_start input) in
  if String.prefix "Infinity" s1 then Inf neg
  else
    let '(ip, s2) := span_digits s1 in
    let '(fp, s3) :=
      match s2 with
      | String "." r => span_digits r
      | _ => (EmptyString, s2)
      end in
    match ip +:+ fp with
    | EmptyString => NaN
    | ds =>
        let ex := exponent_part s3 - Z.of_nat (String.length fp) in
        if 0 <=? ex then round_binary64 neg (digits_value 0 ds * 10 ^ ex) 1
        else round_binary64 neg (digits_value 0 ds) (10 ^ (- ex))
    end.

(** *** [Number.prototype.toString] and [toFixed] *)

Definition decimal (n : Z) : string :=
  DecimalString.NilZero.string_of_uint (N.to_uint (Z.to_N n)).

(** Number of decimal digits of [n > 0]. *)
Definition decimal_length (n : Z) : Z :=
  Z.of_nat (String.length (decimal n)).

(** The shortest digit string [s] of [k] digits and the exponent [n] with
    [s * 10^(n-k)] converting back to the integer Number [x]; of two
    candidates of the same length the one nearer to [x], the even one when
    they are as near. *)
Fixpoint shortest_digits (fuel : nat) (k : Z) (x : Z) (nd : Z) : Z * Z * Z :=
  let p := 10 ^ (nd - k) in
  let lo := x / p in
  let hi := lo + 1 in
  let back (s : Z) := round_binary64 false (s * p) 1 in
  let target := round_binary64 false x 1 in
  let ok_lo := eqb (back lo) target in
  let ok_hi := eqb (back hi) target in
  let pick_hi :=
    if hi =? 10 ^ k then (10 ^ (k - 1), k, nd + 1) else (hi, k, nd) in
  match fuel with
  | O => (lo, k, nd)
  | S fuel' =>
      if ok_lo && ok_hi then
        (if x - lo * p <? hi * p - x then (lo, k, nd)
         else if hi * p - x <? x - lo * p then pick_hi
         else if Z.even lo then (lo, k, nd) else pick_hi)
      else if ok_lo then (lo, k, nd)
      else if ok_hi then pick_hi
      else shortest_digits fuel' (k + 1) x nd
  end.

(** [Number::toString] of a finite integer Number [x >= 10^21]: always in
    exponent form. *)
Definition to_string_exponent (x : Z) : string :=
  let '(s, k, n) := shortest_digits 17 1 x (decimal_length x) in
  let ds := decimal s in
  let ex := "e+" +:+ decimal (n - 1) in
  if k =? 1 then ds +:+ ex
  else take 1 ds +:+ "." +:+ drop 1 ds +:+ ex.

(** The magnitude [m * 2^e] as a fraction of integers. *)
Definition ratio (m : N) (e : Z) : Z * Z :=
  if 0 <=? e then (Z.of_N m * 2 ^ e, 1) else (Z.of_N m, 2 ^ (- e)).

(** [x.toFixed(2)]. *)
Definition toFixed2 (x : t) : string :=
  match x with
  | NaN => "NaN"
  | Inf neg => if neg then "-Infinity" else "Infinity"
  | Fin neg m e =>
      let s := if neg && negb (m =? 0)%N then "-" else "" in
      let '(num, den) := ratio m e in
      if 10 ^ 21 * den <=? num then s +:+ to_string_exponent (num / den)
      else
        let n := (100 * num) / den
                 + (if den <=? 2 * ((100 * num) mod den) then 1 else 0) in
        let m0 := decimal n in
        let k := String.length m0 in
        let m1 := if (k <=? 2)%nat
                  then String.concat "" (replicate (3 - k) "0") +:+ m0
                  else m0 in
        let k1 := String.length m1 in
        s +:+ take (k1 - 2) m1 +:+ "." +:+ drop (k1 - 2) m1
  end.

End JSNumber.

(** ** Values, completions and the console *)

(** The values a rule snippet can return or throw, and that [onSubmit] can
    reject with.  [VError] is an instance of [Error] with its message;
    [VObject] is any other object. *)
Inductive JSValue : Type :=
  | VUndefined
  | VNull
  | VBool (b : bool)
  | VNumber (n : JSNumber.t)
  | VString (s : string)
  | VError (message : string)
  | VObject.

(** [ToBoolean]. *)
Definition to_boolean (v : JSValue) : bool :=
  match v with
  | VUndefined | VNull => false
  | VBool b => b
  | VNumber n => negb (JSNumber.is_zero n || JSNumber.is_nan n)
  | VString s => JSString.truthy s
  | VError _ | VObject => true
  end.

Inductive completion (A : Type) : Type :=
  | Normal (a : A)
  | Throw (e : JSValue).
Arguments Normal {A} a.
Arguments Throw {A} e.

Inductive LogEntry : Type :=
  | ConsoleLog (text : string)
  | ConsoleError (text : string) (e : JSValue).

(** The entries written by the [catch] around a rule snippet. *)
Definition is_execution_error (l : LogEntry) : bool :=
  match l with
  | ConsoleError text _ => String.eqb text "Validation execution error:"
  | ConsoleLog _ => false
  end.

(** Code that may throw and writes to the console. *)
Module Log.

Definition t (A : Type) : Type := completion A * list LogEntry.

Definition ret {A} (a : A) : t A := (Normal a, []).
Definition throw {A} (e : JSValue) : t A := (Throw e, []).

Definition bind {A B} (m : t A) (k : A -> t B) : t B :=
  match m with
  | (Normal a, l) => let '(r, l') := k a in (r, l ++ l')
  | (Throw e, l) => (Throw e, l)
  end.

(** [try { m } catch (e) { h e }]. *)
Definition try_catch {A} (m : t A) (h : JSValue -> t A) : t A :=
  match m with
  | (Normal a, l) => (Normal a, l)
  | (Throw e, l) => let '(r, l') := h e in (r, l ++ l')
  end.

Definition console_error (text : string) (e : JSValue) : t unit :=
  (Normal tt, [ConsoleError text e]).

End Log.

Declare Scope log_scope.
Delimit Scope log_scope with log.
Notation "'let*' x := m 'in' k" := (Log.bind m (fun x => k))
  (at level 10, x pattern, m at level 100, k at level 200) : log_scope.

(** ** Data model of the component *)

Inductive StatusType : Type :=
  | StatusSuccess
  | StatusError
  | StatusInfo
  | StatusNone.

Record FormStatus : Type := { type : StatusType; message : string }.

Record ValidationRule : Type := {
  field_id : string;
  generated_code : string;
  prompt : option string;
  description : option string
}.

(** [formData]: a plain object with string values, as the list of its own
    properties in the order [Object.entries] gives them: the keys that are
    array indices in ascending order, then the other keys in the order they
    were created. *)
Module Obj.

Definition t : Type := list (string * string).

(** The own property [k] of [o], if it has one. *)
Fixpoint get (k : string) (o : t) : option string :=
  match o with
  | [] => None
  | (k', v) :: o' => if String.eqb k' k then Some v else get k o'
  end.

(** The members of [Object.prototype], which a plain object inherits. *)
Definition prototype_members : list string :=
  ["constructor"; "hasOwnProperty"; "isPrototypeOf"; "propertyIsEnumerable";
   "toLocaleString"; "toString"; "valueOf"; "__proto__";
   "__defineGetter__"; "__defineSetter__";
   "__lookupGetter__"; "__lookupSetter__"].

Definition inherited (k : string) : bool :=
  existsb (String.eqb k) prototype_members.

(** [o[k]]: the own property; else the member of [Object.prototype] of that
    name, a function (the prototype itself for [__proto__]); else
    [undefined]. *)
Definition lookup (k : string) (o : t) : JSValue :=
  match get k o with
  | Some v => VString v
  | None => if inherited k then VObject else VUndefined
  end.

Fixpoint digits_value (acc : N) (s : string) : N :=
  match s with
  | EmptyString => acc
  | String c r => digits_value (10 * acc + (N_of_ascii c - 48))%N r
  end.

(** [k] as an array index: the decimal text, without leading zeros, of an
    integer below [2^32 - 1]. *)
Definition array_index (k : string) : option N :=
  match k with
  | EmptyString => None
  | String c r =>
      if JSString.all JSString.is_digit k
         && (negb (Ascii.eqb c "0") || negb (JSString.truthy r))
         && (digits_value 0 k <? 4294967295)%N
      then Some (digits_value 0 k)
      else None
  end.

(** A new array index [n] goes in front of the first key that is a larger
    index or no index. *)
Fixpoint insert_index (n : N) (k v : string) (o : t) : t :=
  match o with
  | [] => [(k, v)]
  | (k', v') :: o' =>
      match array_index k' with
      | Some n' =>
          if (n' <? n)%N then (k', v') :: insert_index n k v o'
          else (k, v) :: o
      | None => (k, v) :: o
      end
  end.

(** A new value for the key [k] of [o], at its place. *)
Fixpoint replace (k v : string) (o : t) : t :=
  match o with
  | [] => []
  | (k', v') :: o' =>
      if String.eqb k' k then (k, v) :: o' else (k', v') :: replace k v o'
  end.

(** [{ ...o, [k]: v }]: an existing key keeps its place, a new one goes
    where the order of the properties puts it. *)
Definition set (k v : string) (o : t) : t :=
  match get k o with
  | Some _ => replace k v o
  | None =>
      match array_index k with
      | Some n => insert_index n k v o
      | None => o ++ [(k, v)]
      end
  end.

End Obj.

(** The state of one rendered component: the [useState] slots the handlers
    below read or write ([submissionId], [workflowStatus] and [filePreview]
    are touched by none of them). *)
Record State : Type := {
  formData : Obj.t;
  errors : gmap string string;
  status : FormStatus;
  isSubmitting : bool
}.

(** What a timer does when it fires: the callback of [handleSubmit]
    ([setFormData({})]) or the callback of the effect on [status]
    ([setStatus({ type: '', message: '' })]). *)
Inductive TimerAction : Type :=
  | ResetFormData
  | ClearStatus.

(** The state together with what lives outside it: the
    [submissionInProgress] ref, the console, the calls made to [onSubmit]
    and the pending timers, oldest first.  [status_changed] tells that
    [setStatus] was called since the effect on [status] last ran: every call
    passes a new object, so the dependency of the effect has changed. *)
Record World : Type := {
  state : State;
  submissionInProgress : bool;
  console : list LogEntry;
  submitted : list Obj.t;
  timers : list (TimerAction * Z);
  status_changed : bool
}.

(** Handlers: code that reads and writes the world and may throw. *)
Module Eff.

Definition t (A : Type) : Type := World -> completion A * World.

Definition ret {A} (a : A) : t A := fun w => (Normal a, w).

Definition throw {A} (e : JSValue) : t A := fun w => (Throw e, w).

Definition bind {A B} (m : t A) (k : A -> t B) : t B :=
  fun w => match m w with
           | (Normal a, w') => k a w'
           | (Throw e, w') => (Throw e, w')
           end.

Definition get : t World := fun w => (Normal w, w).

Definition modify (f : World -> World) : t unit := fun w => (Normal tt, f w).

(** Console output of [m] goes to the console of the world. *)
Definition lift {A} (m : Log.t A) : t A :=
  fun w => (m.1, {| state := state w;
                    submissionInProgress := submissionInProgress w;
                    console := console w ++ m.2;
                    submitted := submitted w;
                    timers := timers w;
                    status_changed := status_changed w |}).

Definition with_state (f : State -> State) : t unit :=
  modify (fun w => {| state := f (state w);
                      submissionInProgress := submissionInProgress w;
                      console := console w;
                      submitted := submitted w;
                      timers := timers w;
                      status_changed := status_changed w |}).

Definition setFormData (f : Obj.t -> Obj.t) : t unit :=
  with_state (fun s => {| formData := f (formData s); errors := errors s;
                          status := status s;
                          isSubmitting := isSubmitting s |}).

Definition setErrors (f : gmap string string -> gmap string string) : t unit :=
  with_state (fun s => {| formData := formData s; errors := f (errors s);
                          status := status s;
                          isSubmitting := isSubmitting s |}).

(** [setStatus({ ... })]: the new status is a new object. *)
Definition setStatus (v : FormStatus) : t unit :=
  modify (fun w => {| state := {| formData := formData (state w);
                                  errors := errors (state w);
                                  status := v;
                                  isSubmitting := isSubmitting (state w) |};
                      submissionInProgress := submissionInProgress w;
                      console := console w;
                      submitted := submitted w;
                      timers := timers w;
                      status_changed := true |}).

Definition setIsSubmitting (b : bool) : t unit :=
  with_state (fun s => {| formData := formData s; errors := errors s;
                          status := status s; isSubmitting := b |}).

(** [submissionInProgress.current = b]. *)
Definition set_submissionInProgress (b : bool) : t unit :=
  modify (fun w => {| state := state w;
                      submissionInProgress := b;
                      console := console w;
                      submitted := submitted w;
                      timers := timers w;
                      status_changed := status_changed w |}).

Definition console_log (text : string) : t unit :=
  lift (Normal tt, [ConsoleLog text]).

Definition setTimeout (a : TimerAction) (ms : Z) : t unit :=
  modify (fun w => {| state := state w;
                      submissionInProgress := submissionInProgress w;
                      console := console w;
                      submitted := submitted w;
                      timers := timers w ++ [(a, ms)];
                      status_changed := status_changed w |}).

End Eff.

Declare Scope eff_scope.
Delimit Scope eff_scope with eff.
Notation "'let*' x := m 'in' k" := (Eff.bind m (fun x => k))
  (at level 10, x pattern, m at level 100, k at level 200) : eff_scope.

(** ** The component *)

Module Form.
Section Component.
Import JSString.

(** The rule set the component was generated with. *)
Variable validationRules : list ValidationRule.

(** The script engine on a rule snippet: [js_syntax_error code] is what
    [new Function] throws when the wrapped [code] does not parse, and
    [js_call code value] is the completion of
    [(function(value) { code })(value)].  Snippets are taken to terminate
    and to touch nothing of the component. *)
Variable js_syntax_error : string -> option JSValue.
Variable js_call : string -> string -> completion JSValue.

(** The [onSubmit] prop: [onSubmit_throws data] is what the call throws
    before returning, if it does; otherwise the call returns and the
    awaited value settles later. *)
Variable onSubmit_throws : Obj.t -> option JSValue.

(** *** Validation engine *)

Definition new_Function (code : string) : Log.t unit :=
  match js_syntax_error code with
  | Some e => Log.throw e
  | None => Log.ret tt
  end.

(** The function built by [new Function]: the snippet inside its own
    [try]/[catch]. *)
Definition validationFn (code value : string) : Log.t JSValue :=
  Log.try_catch
    (js_call code value, [])
    (fun e => let* _ := Log.console_error "Validation execution error:" e in
              Log.ret (VBool true))%log.

(** [rule.prompt || rule.description || 'Invalid input']. *)
Definition or_else (a : option string) (b : string) : string :=
  match a with
  | Some s => if truthy s then s else b
  | None => b
  end.

Definition rule_message (rule : ValidationRule) : string :=
  or_else (prompt rule) (or_else (description rule) "Invalid input").

(** The body of [for (const rule of fieldRules)]: [Some msg] is the
    [return] inside the loop. *)
Definition apply_rule (rule : ValidationRule) (value : string)
  : Log.t (option string) :=
  Log.try_catch
    (let* _ := new_Function (generated_code rule) in
     let* isValid := validationFn (generated_code rule) value in
     if negb (to_boolean isValid) then Log.ret (Some (rule_message rule))
     else Log.ret None)%log
    (fun e => let* _ := Log.console_error "Validation creation error:" e in
              Log.ret None)%log.

Fixpoint apply_rules (fieldRules : list ValidationRule) (value : string)
  : Log.t string :=
  match fieldRules with
  | [] => Log.ret ""
  | rule :: rest =>
      (let* r := apply_rule rule value in
       match r with
       | Some msg => Log.ret msg
       | None => apply_rules rest value
       end)%log
  end.

Definition validateField (value fieldId : string) (fieldType : option string)
  : Log.t string :=
  let fieldRules :=
    filter (fun rule => field_id rule = fieldId) validationRules in
  if (length fieldRules =? 0)%nat then Log.ret ""
  else apply_rules fieldRules value.

(** The loop of [handleSubmit] over [Object.entries(formData)], with its
    two accumulators [newErrors] and [hasErrors]. *)
Fixpoint validateForm (entries : Obj.t) (newErrors : gmap string string)
    (hasErrors : bool) : Log.t (gmap string string * bool) :=
  match entries with
  | [] => Log.ret (newErrors, hasErrors)
  | (fieldKey, value) :: rest =>
      let fieldId := replace_char "_" "-" fieldKey in
      (let* error := validateField value fieldId None in
       if truthy error
       then validateForm rest (<[fieldId := error]> newErrors) true
       else validateForm rest newErrors hasErrors)%log
  end.

(** *** Field handlers *)

(** [if (error) setErrors(...) else setErrors(... delete ...)]. *)
Definition report_error (name error : string) : Eff.t unit :=
  if truthy error then Eff.setErrors (fun prev => <[name := error]> prev)
  else Eff.setErrors (fun prev => delete name prev).

Definition handleChange (name value inputType : string) : Eff.t unit :=
  let fieldKey := replace_char "-" "_" name in
  (let* error := Eff.lift (validateField value name (Some inputType)) in
   let* _ := Eff.setFormData (Obj.set fieldKey value) in
   report_error name error)%eff.

(** [checked.toString()]. *)
Definition bool_toString (b : bool) : string :=
  if b then "true" else "false".

Definition handleSingleCheckboxChange (name : string) (checked : bool)
  : Eff.t unit :=
  let fieldKey := replace_char "-" "_" name in
  let value := bool_toString checked in
  (let* error := Eff.lift (validateField value name (Some "checkbox")) in
   let* _ := Eff.setFormData (Obj.set fieldKey value) in
   report_error name error)%eff.

(** The [TypeError] of a call of [split] on a value that has no such method
    (the text of the message is the engine's). *)
Definition split_is_not_a_function : JSValue :=
  VError "split is not a function".

(** [x.split(',')] for the values that reach it, a string or an object:
    only the string has the method. *)
Definition split_comma (x : JSValue) : Eff.t (list string) :=
  match x with
  | VString s => Eff.ret (split "," s)
  | _ => Eff.throw split_is_not_a_function
  end.

(** [setFormData(prev => ...)]: the updater works on the latest form data;
    it runs when the handler does, and what it throws leaves the handler. *)
Definition handleMultiCheckboxChange (name value : string) (checked : bool)
  : Eff.t unit :=
  let fieldKey := replace_char "-" "_" name in
  (let* w := Eff.get in
   let prev := formData (state w) in
   let found := Obj.lookup fieldKey prev in
   let* pieces :=
     split_comma (if to_boolean found then found else VString "") in
   let currentValues := List.filter truthy pieces in
   let newValues :=
     if checked then currentValues ++ [value]
     else List.filter (fun v => negb (String.eqb v value)) currentValues in
   let newValue := join "," newValues in
   let* error := Eff.lift (validateField newValue name (Some "multiple")) in
   let* _ := report_error name error in
   Eff.setFormData (fun _ => Obj.set fieldKey newValue prev))%eff.

(** [reader.onloadend] of the reader [handleFileChange] started for the
    field [name], when the read gave the text [base64String] (what
    [handleFileChange] does to the preview and what a failed read leaves
    are in [Files] below). *)
Definition onloadend (name base64String : string) : Eff.t unit :=
  let fieldKey := replace_char "-" "_" name in
  Eff.setFormData (Obj.set fieldKey base64String).

(** [content] is [e.currentTarget.innerHTML]. *)
Definition handleRichTextChange (content fieldId : string) : Eff.t unit :=
  let fieldKey := replace_char "-" "_" fieldId in
  Eff.setFormData (Obj.set fieldKey content).

Definition handlePhoneChange (name value : string) : Eff.t unit :=
  let fieldKey := replace_char "-" "_" name in
  let formatted := Formatters.formatPhoneNumber value in
  Eff.setFormData (Obj.set fieldKey formatted).

Definition handleCurrencyChange (name value : string) : Eff.t unit :=
  let fieldKey := replace_char "-" "_" name in
  let formatted := JSNumber.toFixed2 (JSNumber.parseFloat value) in
  Eff.setFormData (Obj.set fieldKey formatted).

(** *** Submission *)

(** Where a call of [handleSubmit] stands when it gives control back. *)
Inductive Suspension : Type :=
  | Finished
  | AwaitingSubmit.

Definition call_onSubmit (data : Obj.t) : Eff.t unit :=
  fun w =>
    ((match onSubmit_throws data with
      | Some e => Throw e
      | None => Normal tt
      end),
     {| state := state w;
        submissionInProgress := submissionInProgress w;
        console := console w;
        submitted := submitted w ++ [data];
        timers := timers w;
        status_changed := status_changed w |}).

Definition catch_block (error : JSValue) : Eff.t unit :=
  Eff.setStatus {| type := StatusError;
                   message := match error with
                              | VError m => m
                              | _ => "Failed to submit form"
                              end |}.

Definition finally_block : Eff.t unit :=
  (let* _ := Eff.setIsSubmitting false in
   Eff.set_submissionInProgress false)%eff.

(** The [try] block up to the [await]. *)
Definition try_block (data : Obj.t) : Eff.t Suspension :=
  (let* (newErrors, hasErrors) := Eff.lift (validateForm data ∅ false) in
   if (hasErrors : bool) then
     let* _ := Eff.setErrors (fun _ => newErrors) in
     let* _ := Eff.setStatus
                 {| type := StatusError;
                    message := "Please correct the form errors" |} in
     Eff.ret Finished
   else
     let* _ := call_onSubmit data in
     Eff.ret AwaitingSubmit)%eff.

(** [handleSubmit] as the closure of a render: [rendered] is the state that
    render saw, the world is the current one.  It runs until it returns or
    reaches the [await]. *)
Definition handleSubmit (rendered : State) : Eff.t Suspension :=
  fun w =>
    if submissionInProgress w || isSubmitting rendered then
      (let* _ := Eff.console_log "Submission already in progress" in
       Eff.ret Finished)%eff w
    else
      (let* _ := Eff.setIsSubmitting true in
       let* _ := Eff.set_submissionInProgress true in
       let* _ := Eff.setStatus {| type := StatusNone; message := "" |} in
       fun w1 =>
         match try_block (formData rendered) w1 with
         | (Normal AwaitingSubmit, w2) => (Normal AwaitingSubmit, w2)
         | (Normal Finished, w2) =>
             (let* _ := finally_block in Eff.ret Finished) w2
         | (Throw e, w2) =>
             (let* _ := catch_block e in
              let* _ := finally_block in
              Eff.ret Finished) w2
         end)%eff w.

(** The rest of [handleSubmit], which runs when the awaited value settles:
    [Normal tt] when it is fulfilled, [Throw e] when it is rejected. *)
Definition handleSubmit_resume (settled : completion unit) : Eff.t unit :=
  match settled with
  | Normal _ =>
      (let* _ := Eff.setStatus
                  {| type := StatusSuccess;
                     message := "Form submitted successfully!" |} in
       let* _ := Eff.setErrors (fun _ => ∅) in
       let* _ := Eff.setTimeout ResetFormData 5000 in
       finally_block)%eff
  | Throw e =>
      (let* _ := catch_block e in finally_block)%eff
  end.

(** *** The effect on [status]

    React runs the effect after the commit of a render in which [status] is
    a new object: first the cleanup its last run returned, which clears the
    timer of that run if it set one, then the effect, which sets a timer
    when the status tells a success.  So at most one such timer is pending,
    and the cleanup is the removal of it. *)

Definition is_clear_status (timer : TimerAction * Z) : bool :=
  match timer.1 with
  | ClearStatus => true
  | ResetFormData => false
  end.

Definition is_success (s : FormStatus) : bool :=
  match type s with
  | StatusSuccess => true
  | _ => false
  end.

Definition status_effect : Eff.t unit :=
  fun w =>
    if status_changed w then
      let kept := List.filter (fun t => negb (is_clear_status t)) (timers w) in
      (Normal tt,
       {| state := state w;
          submissionInProgress := submissionInProgress w;
          console := console w;
          submitted := submitted w;
          timers := if is_success (status (state w))
                    then kept ++ [(ClearStatus, 5000%Z)]
                    else kept;
          status_changed := false |})
    else (Normal tt, w).

(** *** A form session

    What can happen to a mounted component, one event at a time.  A submit
    event is handled by the [handleSubmit] of some render, which need not be
    the latest one; [awaiting] counts the calls of [handleSubmit] suspended
    at their [await].  [Commit] is the commit of a render, with the effect
    on [status]; [TimerFired] is the oldest pending timer firing (all timers
    of the component wait 5000 ms).  An event whose handler throws leaves
    the world as the handler left it; React then takes the component down,
    so the runs of the component are among the runs below.  The session is
    the life of the component up to its unmount. *)

Inductive Event : Type :=
  | SubmitEvent (rendered : State)
  | SubmitSettled (settled : completion unit)
  | ChangeEvent (name value inputType : string)
  | SingleCheckboxEvent (name : string) (checked : bool)
  | MultiCheckboxEvent (name value : string) (checked : bool)
  | RichTextEvent (content fieldId : string)
  | PhoneEvent (name value : string)
  | CurrencyEvent (name value : string)
  | FileReadEvent (name base64String : string)
  | Commit
  | TimerFired.

Record Session : Type := { world : World; awaiting : nat }.

(** The callback of the oldest timer. *)
Definition fire_timer : Eff.t unit :=
  fun w =>
    match timers w with
    | [] => (Normal tt, w)
    | (action, _) :: rest =>
        let w' := {| state := state w;
                     submissionInProgress := submissionInProgress w;
                     console := console w;
                     submitted := submitted w;
                     timers := rest;
                     status_changed := status_changed w |} in
        match action with
        | ResetFormData => Eff.setFormData (fun _ => []) w'
        | ClearStatus =>
            Eff.setStatus {| type := StatusNone; message := "" |} w'
        end
    end.

Definition step (s : Session) (ev : Event) : Session :=
  match ev with
  | SubmitEvent rendered =>
      let '(r, w) := handleSubmit rendered (world s) in
      {| world := w;
         awaiting := match r with
                     | Normal AwaitingSubmit => S (awaiting s)
                     | _ => awaiting s
                     end |}
  | SubmitSettled settled =>
      match awaiting s with
      | 0 => s
      | S n => {| world := (handleSubmit_resume settled (world s)).2;
                  awaiting := n |}
      end
  | ChangeEvent name value inputType =>
      {| world := (handleChange name value inputType (world s)).2;
         awaiting := awaiting s |}
  | SingleCheckboxEvent name checked =>
      {| world := (handleSingleCheckboxChange name checked (world s)).2;
         awaiting := awaiting s |}
  | MultiCheckboxEvent name value checked =>
      {| world := (handleMultiCheckboxChange name value checked (world s)).2;
         awaiting := awaiting s |}
  | RichTextEvent content fieldId =>
      {| world := (handleRichTextChange content fieldId (world s)).2;
         awaiting := awaiting s |}
  | PhoneEvent name value =>
      {| world := (handlePhoneChange name value (world s)).2;
         awaiting := awaiting s |}
  | CurrencyEvent name value =>
      {| world := (handleCurrencyChange name value (world s)).2;
         awaiting := awaiting s |}
  | FileReadEvent name base64String =>
      {| world := (onloadend name base64String (world s)).2;
         awaiting := awaiting s |}
  | Commit =>
      {| world := (status_effect (world s)).2; awaiting := awaiting s |}
  | TimerFired =>
      {| world := (fire_timer (world s)).2; awaiting := awaiting s |}
  end.

Definition run (s : Session) (events : list Event) : Session :=
  fold_left step events s.

(** A freshly mounted component: the first render is committed, its effect
    on [status] found no success to clear. *)
Definition mount (initialData : Obj.t) : Session :=
  {| world := {| state := {| formData := initialData;
                             errors := ∅;
                             status := {| type := StatusNone; message := "" |};
                             isSubmitting := false |};
                 submissionInProgress := false;
                 console := [];
                 submitted := [];
                 timers := [];
                 status_changed := false |};
     awaiting := 0 |}.

(** *** A checkbox group

    The change events of the boxes of one multi-checkbox field, each with
    the option of the box and its new state, handled one after the other up
    to the first that throws. *)

Fixpoint changes (name : string) (events : list (string * bool))
  : Eff.t unit :=
  match events with
  | [] => Eff.ret tt
  | (value, checked) :: rest =>
      (let* _ := handleMultiCheckboxChange name value checked in
       changes name rest)%eff
  end.

(** The value stored for a field, [''] when there is none. *)
Definition stored (name : string) (w : World) : string :=
  or_else (Obj.get (replace_char "-" "_" name) (formData (state w))) "".

(** *** What one rule does on a value *)

(** The rule parses and its predicate returns a falsy value. *)
Definition rule_rejects (rule : ValidationRule) (value : string) : bool :=
  match js_syntax_error (generated_code rule) with
  | Some _ => false
  | None =>
      match js_call (generated_code rule) value with
      | Normal v => negb (to_boolean v)
      | Throw _ => false
      end
  end.

(** The rule parses and its predicate throws. *)
Definition rule_throws (rule : ValidationRule) (value : string) : bool :=
  match js_syntax_error (generated_code rule) with
  | Some _ => false
  | None =>
      match js_call (generated_code rule) value with
      | Normal _ => false
      | Throw _ => true
      end
  end.

(** What evaluating the rule writes to the console. *)
Definition rule_console (rule : ValidationRule) (value : string)
  : list LogEntry :=
  match js_syntax_error (generated_code rule) with
  | Some e => [ConsoleError "Validation creation error:" e]
  | None =>
      match js_call (generated_code rule) value with
      | Normal _ => []
      | Throw e => [ConsoleError "Validation execution error:" e]
      end
  end.

(** *** The outcome of validation, without the console *)

(** The message [validateField] returns for a value of a field (no
    exception leaves [validateField], see [validateField_normal]). *)
Definition field_error (value fieldId : string) : string :=
  match (validateField value fieldId None).1 with
  | Normal msg => msg
  | Throw _ => ""
  end.

(** The same for an entry of [formData], whose key is turned back into the
    field id. *)
Definition entry_error (entry : string * string) : string :=
  field_error entry.2 (replace_char "_" "-" entry.1).

Definition entry_console (entry : string * string) : list LogEntry :=
  (validateField entry.2 (replace_char "_" "-" entry.1) None).2.

(** The error map the loop of [handleSubmit] builds: every entry with a
    message, under its field id, a later one replacing an earlier one. *)
Definition collect_errors (entries : Obj.t) (acc : gmap string string)
  : gmap string string :=
  fold_left
    (fun m entry =>
       if truthy (entry_error entry)
       then <[replace_char "_" "-" entry.1 := entry_error entry]> m
       else m)
    entries acc.

End Component.

(** The rule set of this repository: [const validationRules = []]. *)
Definition validationRules_generated : list ValidationRule := [].

End Form.

(** ** Sample rule sets

    A script engine that knows a few snippets, enough to run the validator
    on concrete rules: one that does not parse, two predicates and one that
    throws. *)

Module Sample.

Definition js_syntax_error (code : string) : option JSValue :=
  if String.eqb code "return (" then Some (VError "Unexpected token '}'")
  else None.

Definition js_call (code value : string) : completion JSValue :=
  if String.eqb code "return value.length > 0;"
  then Normal (VBool (JSString.truthy value))
  else if String.eqb code "return value.length <= 3;"
  then Normal (VBool (String.length value <=? 3))
  else if String.eqb code "throw new Error('boom');"
  then Throw (VError "boom")
  else Normal VUndefined.

Definition required_rule (fieldId : string) : ValidationRule :=
  {| field_id := fieldId; generated_code := "return value.length > 0;";
     prompt := Some "This field is required"; description := None |}.

Definition short_rule (fieldId : string) : ValidationRule :=
  {| field_id := fieldId; generated_code := "return value.length <= 3;";
     prompt := None; description := None |}.

Definition described_rule (fieldId : string) : ValidationRule :=
  {| field_id := fieldId; generated_code := "return value.length <= 3;";
     prompt := None; description := Some "At most three characters" |}.

Definition throwing_rule (fieldId : string) : ValidationRule :=
  {| field_id := fieldId; generated_code := "throw new Error('boom');";
     prompt := Some "never shown"; description := None |}.

Definition onSubmit_throws (data : Obj.t) : option JSValue := None.

End Sample.

(** ** The boxes of a checkbox group

    What the specification takes the ticked options of a multi-checkbox
    field to be: a set kept in the order of ticking.  A change event is the
    option of a box with the new state of the box. *)

Module Boxes.

Definition is_ticked (option : string) (boxes : list string) : bool :=
  existsb (String.eqb option) boxes.

(** Ticking adds the option (at the end, once), unticking removes it. *)
Definition change (boxes : list string) (ev : string * bool) : list string :=
  if ev.2 then
    if is_ticked ev.1 boxes then boxes else boxes ++ [ev.1]
  else List.filter (fun o => negb (String.eqb o ev.1)) boxes.

Definition ticked (events : list (string * bool)) : list string :=
  fold_left change events [].

(** Events as boxes fire them: "ticked" from a box that was not ticked,
    "unticked" from a box that was. *)
Fixpoint fired_by_boxes (boxes : list string) (events : list (string * bool))
  : bool :=
  match events with
  | [] => true
  | ev :: rest =>
      Bool.eqb ev.2 (negb (is_ticked ev.1 boxes))
      && fired_by_boxes (change boxes ev) rest
  end.

End Boxes.

(** ** Schema and scenarios *)

Module Schema.

Record FieldDescriptor : Type := {
  id : string;
  type : string;
  label : string;
  caption : option string;
  options : list string;
  required : bool;
  placeholder : option string
}.

End Schema.

Module Scenario.
Import Schema.

(** Two required fields, no rules. *)
Definition schema : list FieldDescriptor :=
  [ {| id := "full-name"; type := "text"; label := "Full Name";
       caption := None; options := []; required := true;
       placeholder := None |};
    {| id := "email"; type := "email"; label := "Email Address";
       caption := None; options := []; required := true;
       placeholder := None |} ].

Definition values_A : Obj.t := [("full_name", ""); ("email", "a@b.com")].

Definition values_B : Obj.t :=
  [("full_name", "Jane Doe"); ("email", "a@b.com")].

(** A submit of a freshly mounted form holding [data], by the handler of
    its first render. *)
Definition submit (rules : list ValidationRule) (data : Obj.t)
  : completion Form.Suspension * World :=
  Form.handleSubmit rules Sample.js_syntax_error Sample.js_call
    Sample.onSubmit_throws
    (state (Form.world (Form.mount data))) (Form.world (Form.mount data)).

(** The reading of the specification in which an empty required field
    stops a submit although no rule names the field. *)
Definition empty_required_blocks_submit (fields : list FieldDescriptor)
    (data : Obj.t) : Prop :=
  forall fd,
    fd ∈ fields -> required fd = true ->
    Obj.get (JSString.replace_char "-" "_" (id fd)) data = Some "" ->
    let after := submit Form.validationRules_generated data in
    after.1 = Normal Form.Finished /\
    (exists msg, errors (state after.2) !! id fd = Some msg /\ msg <> "") /\
    submitted after.2 = [].

(** The reading of the specification in which a field that has a rule
    whose predicate throws is valid, whatever its other rules say. *)
Definition throwing_rule_makes_valid (rules : list ValidationRule)
    (fieldId : string) : Prop :=
  forall rule value,
    rule ∈ rules -> field_id rule = fieldId ->
    Form.rule_throws Sample.js_syntax_error Sample.js_call rule value = true ->
    (Form.validateField rules Sample.js_syntax_error Sample.js_call
       value fieldId None).1 = Normal "".

(** The reading of the specification in which every input is stripped of
    its non-digit characters before it is laid out: the result is that of
    the digits alone. *)
Definition strips_non_digits : Prop :=
  forall value,
    Formatters.formatPhoneNumber value =
      Formatters.formatPhoneNumber (JSString.keep JSString.is_digit value).

(** Change events of the boxes of a group of a freshly mounted, empty
    form. *)
Definition tick (name : string) (events : list (string * bool))
  : completion unit * World :=
  Form.changes Form.validationRules_generated Sample.js_syntax_error
    Sample.js_call name events (Form.world (Form.mount [])).

(** The reading of the specification in which the stored value is the join
    of the ticked options whatever the option strings are. *)
Definition stored_is_join_of_ticked (name : string) (options : list string)
  : Prop :=
  forall events,
    Forall (fun ev => ev.1 ∈ options) events ->
    Boxes.fired_by_boxes [] events = true ->
    Form.stored name (tick name events).2 =
      JSString.join "," (Boxes.ticked events).

End Scenario.

(** ** Option strings *)

Definition comma_free (s : string) : bool :=
  JSString.all (fun c => negb (Ascii.eqb c ",")) s.

(** An option the comma-joined value can hold: not empty, no comma in it. *)
Definition plain_option (s : string) : bool :=
  JSString.truthy s && comma_free s.

(** ** Worlds named in the statements *)

(** The world with more on its console and nothing else changed. *)
Definition logged (entries : list LogEntry) (w : World) : World :=
  {| state := state w;
     submissionInProgress := submissionInProgress w;
     console := console w ++ entries;
     submitted := submitted w;
     timers := timers w;
     status_changed := status_changed w |}.

(** The world at the [await] of [handleSubmit]: both guards up, the status
    blank, [data] handed to [onSubmit]. *)
Definition at_await (entries : list LogEntry) (data : Obj.t) (w : World)
  : World :=
  {| state := {| formData := formData (state w);
                 errors := errors (state w);
                 status := {| type := StatusNone; message := "" |};
                 isSubmitting := true |};
     submissionInProgress := true;
     console := console w ++ entries;
     submitted := submitted w ++ [data];
     timers := timers w;
     status_changed := true |}.

(** The world after a submit that validation turned down. *)
Definition turned_down (entries : list LogEntry)
    (newErrors : gmap string string) (w : World) : World :=
  {| state := {| formData := formData (state w);
                 errors := newErrors;
                 status := {| type := StatusError;
                              message := "Please correct the form errors" |};
                 isSubmitting := false |};
     submissionInProgress := false;
     console := console w ++ entries;
     submitted := submitted w;
     timers := timers w;
     status_changed := true |}.

(** The world after a field handler stored [value] under [key], left
    [errs] as the error map and [entries] on the console. *)
Definition edited (key value : string) (errs : gmap string string)
    (entries : list LogEntry) (w : World) : World :=
  {| state := {| formData := Obj.set key value (formData (state w));
                 errors := errs;
                 status := status (state w);
                 isSubmitting := isSubmitting (state w) |};
     submissionInProgress := submissionInProgress w;
     console := console w ++ entries;
     submitted := submitted w;
     timers := timers w;
     status_changed := status_changed w |}.

(** The error map after [msg] came back for the field [name]. *)
Definition reported (name msg : string) (errs : gmap string string)
  : gmap string string :=
  if JSString.truthy msg then <[name := msg]> errs else delete name errs.

(** Reading the entry of the field [name] in the form data finds a member
    of [Object.prototype]: the key is the name of one, and the form data
    has no property of its own under it. *)
Definition reads_prototype (name : string) (w : World) : bool :=
  match Obj.get (JSString.replace_char "-" "_" name) (formData (state w)) with
  | Some _ => false
  | None => Obj.inherited (JSString.replace_char "-" "_" name)
  end.

(** ** Reference descriptions used by the statements *)

Module Layout.
Import JSString.

(** What a pattern of greedy groups captures when every group can take its
    fill: group after group, each up to its bound. *)
Fixpoint greedy (bounds : list nat) (s : string) : list string :=
  match bounds with
  | [] => []
  | b :: bs => take b s :: greedy bs (drop b s)
  end.

(** The grouping of a string of digits by its length: up to three digits
    as they are, up to six as [(AAA) BBB], beyond as [(AAA) BBB-CCCC]. *)
Definition phone_layout (d : string) : string :=
  if String.length d <=? 3 then d
  else if String.length d <=? 6 then "(" +:+ take 3 d +:+ ") " +:+ drop 3 d
  else "(" +:+ take 3 d +:+ ") " +:+ take 3 (drop 3 d) +:+ "-" +:+ drop 6 d.

End Layout.

(** ** File fields

    [handleFileChange] works on three things: the entry of the field in
    [formData], the [filePreview] state and the object URLs of the page.  An
    object URL is a number here, a fresh one for every call of
    [URL.createObjectURL]; a file is what matters of it to the handler, its
    MIME type and what its [FileReader] ends with ([None] is the [null] of a
    failed read). *)

Module Files.

Record File : Type := { file_type : string; read_result : option string }.

Record World : Type := {
  fileData : list (string * option string);
  filePreview : list (string * nat);
  live_urls : list nat;
  next_url : nat;
  reading : list (string * File)
}.

(** The own property [k] of [o], for the two objects of this module. *)
Fixpoint get {V : Type} (k : string) (o : list (string * V)) : option V :=
  match o with
  | [] => None
  | (k', v) :: o' => if String.eqb k' k then Some v else get k o'
  end.

Fixpoint insert_index {V : Type} (n : N) (k : string) (v : V)
    (o : list (string * V)) : list (string * V) :=
  match o with
  | [] => [(k, v)]
  | (k', v') :: o' =>
      match Obj.array_index k' with
      | Some n' =>
          if (n' <? n)%N then (k', v') :: insert_index n k v o'
          else (k, v) :: o
      | None => (k, v) :: o
      end
  end.

Fixpoint replace {V : Type} (k : string) (v : V) (o : list (string * V))
  : list (string * V) :=
  match o with
  | [] => []
  | (k', v') :: o' =>
      if String.eqb k' k then (k, v) :: o' else (k', v') :: replace k v o'
  end.

(** [{ ...o, [k]: v }], as [Obj.set]. *)
Definition set {V : Type} (k : string) (v : V) (o : list (string * V))
  : list (string * V) :=
  match get k o with
  | Some _ => replace k v o
  | None =>
      match Obj.array_index k with
      | Some n => insert_index n k v o
      | None => o ++ [(k, v)]
      end
  end.

(** [handleFileChange] up to [reader.readAsDataURL(file)]; [files] is the
    [FileList] of the input. *)
Definition handleFileChange (name : string) (files : list File) (w : World)
  : World :=
  let fieldKey := JSString.replace_char "-" "_" name in
  match files with
  | [] => w
  | file :: _ =>
      let w1 :=
        if String.prefix "image/" (file_type file) then
          let previewUrl := next_url w in
          {| fileData := fileData w;
             filePreview := set fieldKey previewUrl (filePreview w);
             live_urls := live_urls w ++ [previewUrl];
             next_url := S (next_url w);
             reading := reading w |}
        else w in
      {| fileData := fileData w1;
         filePreview := filePreview w1;
         live_urls := live_urls w1;
         next_url := next_url w1;
         reading := reading w1 ++ [(fieldKey, file)] |}
  end.

(** [reader.onloadend] of the [i]-th reader still at work. *)
Definition onloadend (i : nat) (w : World) : World :=
  match reading w !! i with
  | None => w
  | Some (fieldKey, file) =>
      {| fileData := set fieldKey (read_result file) (fileData w);
         filePreview := filePreview w;
         live_urls := live_urls w;
         next_url := next_url w;
         reading := take i (reading w) ++ drop (S i) (reading w) |}
  end.

(** [URL.revokeObjectURL(url)]. *)
Definition revokeObjectURL (url : nat) (w : World) : World :=
  {| fileData := fileData w;
     filePreview := filePreview w;
     live_urls := List.filter (fun u => negb (Nat.eqb u url)) (live_urls w);
     next_url := next_url w;
     reading := reading w |}.

(** The cleanup of the effect with no dependencies: it runs at unmount and
    goes through the [filePreview] its render saw. *)
Definition cleanup (rendered : list (string * nat)) (w : World) : World :=
  fold_left (fun w' entry => revokeObjectURL entry.2 w') rendered w.

(** [useState({})]: the component mounts with no preview. *)
Definition mount (initialData : list (string * option string)) : World :=
  {| fileData := initialData; filePreview := []; live_urls := [];
     next_url := 0; reading := [] |}.

(** The effect is set up by the first render, so its cleanup closes over
    the [filePreview] of [mount]. *)
Definition unmount (w : World) : World :=
  cleanup (filePreview (mount [])) w.

Inductive Event : Type :=
  | FileChange (name : string) (files : list File)
  | LoadEnd (i : nat).

Definition step (w : World) (ev : Event) : World :=
  match ev with
  | FileChange name files => handleFileChange name files w
  | LoadEnd i => onloadend i w
  end.

Definition run (w : World) (events : list Event) : World :=
  fold_left step events w.

(** The number of image files chosen in a run of events. *)
Definition images_chosen (events : list Event) : nat :=
  length (List.filter
            (fun ev => match ev with
                       | FileChange _ (file :: _) =>
                           String.prefix "image/" (file_type file)
                       | _ => false
                       end) events).

End Files.

(** ** The top navigation *)

Module TopNav.

(** [isDarkMode] and the class list of [document.documentElement]. *)
Record World : Type := { isDarkMode : bool; classList : list string }.

(** [classList.toggle(token)]. *)
Definition toggle (token : string) (l : list string) : list string :=
  if existsb (String.eqb token) l
  then List.filter (fun c => negb (String.eqb c token)) l
  else l ++ [token].

(** [toggleDarkMode] as the closure of a render that saw [rendered] as
    [isDarkMode]. *)
Definition toggleDarkMode (rendered : bool) (w : World) : World :=
  {| isDarkMode := negb rendered; classList := toggle "dark" (classList w) |}.

(** A click handled by the latest render. *)
Definition click (w : World) : World := toggleDarkMode (isDarkMode w) w.

End TopNav.

(** ** More names for the statements *)

(** The entries written by the [catch] around [new Function]. *)
Definition is_creation_error (l : LogEntry) : bool :=
  match l with
  | ConsoleError text _ => String.eqb text "Validation creation error:"
  | ConsoleLog _ => false
  end.

(** The events of a session that come from editing a field. *)
Definition is_edit (ev : Form.Event) : bool :=
  match ev with
  | Form.ChangeEvent _ _ _ | Form.SingleCheckboxEvent _ _
  | Form.MultiCheckboxEvent _ _ _ | Form.RichTextEvent _ _
  | Form.PhoneEvent _ _ | Form.CurrencyEvent _ _
  | Form.FileReadEvent _ _ => true
  | _ => false
  end.

(** An edit, or the commit of a render. *)
Definition is_edit_or_commit (ev : Form.Event) : bool :=
  match ev with
  | Form.Commit => true
  | _ => is_edit ev
  end.

(** An input [parseFloat] finds a number in: after leading white space and
    an optional sign comes [Infinity], a digit, or a point and a digit. *)
Definition has_numeric_prefix (input : string) : bool :=
  let s1 := (JSNumber.split_sign (JSNumber.trim_start input)).2 in
  String.prefix "Infinity" s1
  || match s1 with
     | String c r =>
         JSString.is_digit c
         || (Ascii.eqb c "."
             && match r with
                | String d _ => JSString.is_digit d
                | EmptyString => false
                end)
     | EmptyString => false
     end.

(** The first character of a text is a digit or a minus sign. *)
Definition starts_like_number (t : string) : bool :=
  match t with
  | String c _ => JSString.is_digit c || Ascii.eqb c "-"
  | EmptyString => false
  end.

(** The characters of a formatted phone number. *)
Definition is_phone_char (c : ascii) : bool :=
  JSString.is_digit c || Ascii.eqb c "(" || Ascii.eqb c ")"
  || Ascii.eqb c " " || Ascii.eqb c "-".

(** The message [handleSubmit] shows for what it caught. *)
Definition caught_message (error : JSValue) : string :=
  match error with
  | VError m => m
  | _ => "Failed to submit form"
  end.

(** The world after a submit whose [onSubmit] threw or was rejected with
    [error]: the status tells it, both guards are down. *)
Definition after_failure (entries : list LogEntry) (newly : list Obj.t)
    (error : JSValue) (w : World) : World :=
  {| state := {| formData := formData (state w);
                 errors := errors (state w);
                 status := {| type := StatusError;
                              message := caught_message error |};
                 isSubmitting := false |};
     submissionInProgress := false;
     console := console w ++ entries;
     submitted := submitted w ++ newly;
     timers := timers w;
     status_changed := true |}.

(** What a field handler leaves alone: the status (also as an object),
    both guards, the calls of [onSubmit] and the timers. *)
Definition same_frame (w w' : World) : Prop :=
  status (state w') = status (state w) /\
  isSubmitting (state w') = isSubmitting (state w) /\
  submissionInProgress w' = submissionInProgress w /\
  submitted w' = submitted w /\
  timers w' = timers w /\
  status_changed w' = status_changed w.

(** The world after the awaited [onSubmit] is fulfilled. *)
Definition after_success (w : World) : World :=
  {| state := {| formData := formData (state w);
                 errors := ∅;
                 status := {| type := StatusSuccess;
                              message := "Form submitted successfully!" |};
                 isSubmitting := false |};
     submissionInProgress := false;
     console := console w;
     submitted := submitted w;
     timers := timers w ++ [(ResetFormData, 5000%Z)];
     status_changed := true |}.

Module SampleMore.

(** An [onSubmit] that throws before it returns. *)
Definition onSubmit_offline (data : Obj.t) : option JSValue :=
  Some (VError "offline").

Definition unparsable_rule (fieldId : string) : ValidationRule :=
  {| field_id := fieldId; generated_code := "return (";
     prompt := Some "never shown"; description := None |}.

Definition photo : Files.File :=
  {| Files.file_type := "image/png";
     Files.read_result := Some "data:image/png;base64,iVBORw0KGgo=" |}.

Definition scan : Files.File :=
  {| Files.file_type := "image/jpeg";
     Files.read_result := Some "data:image/jpeg;base64,/9j/4AAQ" |}.

Definition letter : Files.File :=
  {| Files.file_type := "application/pdf";
     Files.read_result := Some "data:application/pdf;base64,JVBERi0=" |}.

End SampleMore.

(** * Properties *)

(** ** Strings *)

Module JSStringFacts.
Import JSString.

Lemma append_cons (c : ascii) (s t : string) :
  String c s +:+ t = String c (s +:+ t).
Proof. reflexivity. Qed.

Lemma append_nil_l (s : string) : "" +:+ s = s.
Proof. reflexivity. Qed.

Lemma append_nil_r (s : string) : s +:+ "" = s.
Proof.
  induction s as [|c s IH]; [done|]. by rewrite append_cons, IH.
Qed.

Lemma append_assoc (a b c : string) : (a +:+ b) +:+ c = a +:+ (b +:+ c).
Proof.
  induction a as [|x a IH]; [done|]. by rewrite !append_cons, IH.
Qed.

Lemma length_append (a b : string) :
  String.length (a +:+ b) = String.length a + String.length b.
Proof.
  induction a as [|x a IH]; [done|]. rewrite append_cons. simpl. by rewrite IH.
Qed.

Lemma keep_append p (a b : string) : keep p (a +:+ b) = keep p a +:+ keep p b.
Proof.
  induction a as [|x a IH]; [done|]. rewrite append_cons. simpl.
  destruct (p x); by rewrite ?append_cons, IH.
Qed.

Lemma all_keep p (s : string) : all p (keep p s) = true.
Proof.
  induction s as [|c s IH]; simpl; [done|].
  destruct (p c) eqn:E; simpl; [by rewrite E|done].
Qed.

Lemma keep_all p (s : string) : all p s = true -> keep p s = s.
Proof.
  induction s as [|c s IH]; simpl; [done|].
  intros [-> Hs]%andb_true_iff. by rewrite IH.
Qed.

Lemma all_append p (a b : string) :
  all p (a +:+ b) = all p a && all p b.
Proof.
  induction a as [|x a IH]; [done|]. rewrite append_cons. simpl.
  by rewrite IH, andb_assoc.
Qed.

Lemma take_drop (n : nat) (s : string) : take n s +:+ drop n s = s.
Proof.
  revert s; induction n as [|n IH]; intros [|c s]; simpl; try done.
  by rewrite append_cons, IH.
Qed.

Lemma length_take (n : nat) (s : string) :
  String.length (take n s) = n `min` String.length s.
Proof.
  revert s; induction n as [|n IH]; intros [|c s]; simpl; try done.
  by rewrite IH.
Qed.

Lemma length_drop (n : nat) (s : string) :
  String.length (drop n s) = String.length s - n.
Proof.
  revert s; induction n as [|n IH]; intros [|c s]; simpl; try done.
Qed.

Lemma take_ge (n : nat) (s : string) : String.length s <= n -> take n s = s.
Proof.
  revert s; induction n as [|n IH]; intros [|c s]; simpl; try done; try lia.
  intros H. rewrite IH; [done|lia].
Qed.

Lemma take_min (n : nat) (s : string) :
  take (n `min` String.length s) s = take n s.
Proof.
  revert s; induction n as [|n IH]; intros [|c s]; simpl; try done.
  by rewrite IH.
Qed.

Lemma all_take p (n : nat) (s : string) :
  all p s = true -> all p (take n s) = true.
Proof.
  revert s; induction n as [|n IH]; intros [|c s]; simpl; try done.
  intros [-> Hs]%andb_true_iff. by apply IH.
Qed.

Lemma all_drop p (n : nat) (s : string) :
  all p s = true -> all p (drop n s) = true.
Proof.
  revert s; induction n as [|n IH]; intros [|c s]; simpl; try done.
  intros [_ Hs]%andb_true_iff. by apply IH.
Qed.

Lemma span_count_all p (n : nat) (s : string) :
  all p s = true -> span_count p n s = n `min` String.length s.
Proof.
  revert s; induction n as [|n IH]; intros [|c s]; simpl; try done.
  intros [-> Hs]%andb_true_iff. by rewrite IH.
Qed.

Lemma length_zero (s : string) : String.length s = 0 -> s = "".
Proof. by destruct s. Qed.

Lemma truthy_length (s : string) : truthy s = negb (String.length s =? 0).
Proof. by destruct s. Qed.

End JSStringFacts.

(** ** The phone pattern and [formatPhoneNumber] *)

Module PhoneFacts.
Import JSString JSStringFacts Regex Layout Formatters.

Lemma drop_drop (a b : nat) (s : string) : drop a (drop b s) = drop (b + a) s.
Proof.
  revert s; induction b as [|b IH]; intros s; [done|].
  destruct s as [|c s]; simpl; [by destruct a|apply IH].
Qed.

Lemma drop_min (n : nat) (s : string) :
  drop (n `min` String.length s) s = drop n s.
Proof.
  revert s; induction n as [|n IH]; intros [|c s]; simpl; try done.
Qed.

Lemma backtrack_some rest (s : string) (k : nat) caps :
  rest (drop k s) = Some caps -> backtrack rest s k = Some (take k s :: caps).
Proof. intros H. destruct k; cbn [backtrack]; by rewrite H. Qed.

Lemma backtrack_none rest (s : string) (k : nat) :
  (forall j, j <= k -> rest (drop j s) = None) -> backtrack rest s k = None.
Proof.
  induction k as [|k IH]; intros H; cbn [backtrack].
  - by rewrite (H 0).
  - rewrite (H (S k)) by lia. apply IH. intros j Hj. apply H. lia.
Qed.

(** On a string of digits the backtracking matcher succeeds exactly when
    the string fits into the groups, and then captures greedily. *)
Lemma match_groups_digits (bs : list nat) (s : string) :
  all is_digit s = true ->
  match_groups bs s =
    if String.length s <=? sum_list bs then Some (greedy bs s) else None.
Proof.
  revert s; induction bs as [|b bs IH]; intros s Hs.
  - by destruct s.
  - cbn [match_groups greedy].
    change (sum_list (b :: bs)) with (b + sum_list bs).
    rewrite span_count_all by done.
    destruct (Nat.leb_spec (String.length s) (b + sum_list bs)) as [Hle|Hgt].
    + rewrite (backtrack_some _ _ _ (greedy bs (drop b s))).
      * by rewrite take_min.
      * rewrite drop_min, IH by (by apply all_drop).
        rewrite length_drop.
        destruct (Nat.leb_spec (String.length s - b) (sum_list bs)); [done|lia].
    + apply backtrack_none. intros j Hj.
      rewrite IH by (by apply all_drop). rewrite length_drop.
      destruct (Nat.leb_spec (String.length s - j) (sum_list bs)); [lia|done].
Qed.

(** [formatPhoneNumber] by the number of digits of its input. *)
Lemma formatPhoneNumber_cases (value : string) :
  formatPhoneNumber value =
    if String.length (keep is_digit value) <=? 10
    then phone_layout (keep is_digit value) else value.
Proof.
  unfold formatPhoneNumber.
  rewrite match_groups_digits by apply all_keep.
  set (d := keep is_digit value).
  change (sum_list phone_pattern) with 10.
  destruct (Nat.leb_spec (String.length d) 10) as [Hle|Hgt]; [|done].
  cbn [phone_pattern greedy]. unfold phone_layout.
  rewrite !drop_drop. change (3 + 3) with 6.
  rewrite !truthy_length, !length_take, !length_drop.
  destruct (Nat.leb_spec (String.length d) 3) as [H3|H3].
  { replace (3 `min` (String.length d - 3) =? 0) with true
      by (symmetry; apply Nat.eqb_eq; lia).
    cbn [negb]. by apply take_ge. }
  replace (3 `min` (String.length d - 3) =? 0) with false
    by (symmetry; apply Nat.eqb_neq; lia).
  destruct (Nat.leb_spec (String.length d) 6) as [H6|H6].
  { replace (4 `min` (String.length d - 6) =? 0) with true
      by (symmetry; apply Nat.eqb_eq; lia).
    cbn [negb]. do 3 f_equal. apply take_ge. rewrite length_drop. lia. }
  replace (4 `min` (String.length d - 6) =? 0) with false
    by (symmetry; apply Nat.eqb_neq; lia).
  cbn [negb]. do 5 f_equal. apply take_ge. rewrite length_drop. lia.
Qed.

End PhoneFacts.

Module PhoneClaims.
Import JSString JSStringFacts Regex Layout Formatters PhoneFacts.

Lemma keep_phone_layout (d : string) :
  all is_digit d = true -> keep is_digit (phone_layout d) = d.
Proof.
  intros Hd. unfold phone_layout.
  destruct (String.length d <=? 3); [by apply keep_all|].
  destruct (String.length d <=? 6).
  - rewrite !keep_append.
    change (keep is_digit "(") with "". change (keep is_digit ") ") with "".
    rewrite !append_nil_l, !keep_all by auto using all_take, all_drop.
    apply take_drop.
  - rewrite !keep_append.
    change (keep is_digit "(") with "". change (keep is_digit ") ") with "".
    change (keep is_digit "-") with "".
    rewrite !append_nil_l, !keep_all by auto using all_take, all_drop.
    change 6 with (3 + 3). rewrite <- drop_drop.
    by rewrite !take_drop.
Qed.

(** The digits of the result are the digits of the input, whatever the
    input. *)
Lemma keep_formatPhoneNumber (value : string) :
  keep is_digit (formatPhoneNumber value) = keep is_digit value.
Proof.
  rewrite formatPhoneNumber_cases.
  destruct (String.length (keep is_digit value) <=? 10); [|done].
  apply keep_phone_layout, all_keep.
Qed.

(** C7 (as amended).  With [d] the digits of the input, in their order:
    an input with at most three digits gives [d]; one with four to six
    digits gives [(AAA) BBB], where [AAA] are the first three digits and
    [BBB] the one to three digits after them; one with seven to ten digits
    gives [(AAA) BBB-CCCC], with [CCCC] the one to four digits that are
    left; and an input with more than ten digits is returned as it is, its
    other characters included.  The function is total: it returns a string
    for every input. *)
Theorem formatPhoneNumber_by_digit_count (value : string) :
  let d := keep is_digit value in
  (String.length d <= 3 -> formatPhoneNumber value = d) /\
  (4 <= String.length d <= 6 ->
   exists a b,
     d = a +:+ b /\ String.length a = 3 /\
     formatPhoneNumber value = "(" +:+ a +:+ ") " +:+ b) /\
  (7 <= String.length d <= 10 ->
   exists a b c,
     d = a +:+ b +:+ c /\ String.length a = 3 /\ String.length b = 3 /\
     formatPhoneNumber value = "(" +:+ a +:+ ") " +:+ b +:+ "-" +:+ c) /\
  (10 < String.length d -> formatPhoneNumber value = value).
Proof.
  intros d.
  rewrite formatPhoneNumber_cases. fold d. unfold phone_layout.
  split; [|split; [|split]]; intros H.
  - destruct (Nat.leb_spec (String.length d) 10); [|lia].
    destruct (Nat.leb_spec (String.length d) 3); [done|lia].
  - destruct (Nat.leb_spec (String.length d) 10); [|lia].
    destruct (Nat.leb_spec (String.length d) 3); [lia|].
    destruct (Nat.leb_spec (String.length d) 6); [|lia].
    exists (take 3 d), (drop 3 d).
    split; [by rewrite take_drop|]. split; [|done].
    rewrite length_take. lia.
  - destruct (Nat.leb_spec (String.length d) 10); [|lia].
    destruct (Nat.leb_spec (String.length d) 3); [lia|].
    destruct (Nat.leb_spec (String.length d) 6); [lia|].
    exists (take 3 d), (take 3 (drop 3 d)), (drop 6 d).
    split; [|split; [|split; [|done]]].
    + change 6 with (3 + 3). rewrite <- drop_drop. by rewrite !take_drop.
    + rewrite length_take. lia.
    + rewrite length_take, length_drop. lia.
  - by destruct (Nat.leb_spec (String.length d) 10); [lia|].
Qed.

Lemma formatPhoneNumber_by_digit_count_witness :
  formatPhoneNumber "12" = "12" /\
  (exists a b,
     "12345" = a +:+ b /\ String.length a = 3 /\
     formatPhoneNumber "(123) 45" = "(" +:+ a +:+ ") " +:+ b) /\
  (exists a b c,
     "1234567890" = a +:+ b +:+ c /\
     String.length a = 3 /\ String.length b = 3 /\
     formatPhoneNumber "123-456-7890"
     = "(" +:+ a +:+ ") " +:+ b +:+ "-" +:+ c) /\
  formatPhoneNumber "1 (234) 567-8901" = "1 (234) 567-8901".
Proof.
  split; [|split; [|split]].
  - apply (proj1 (formatPhoneNumber_by_digit_count "12")).
    simpl. lia.
  - apply (proj1 (proj2 (formatPhoneNumber_by_digit_count "(123) 45"))).
    simpl. lia.
  - apply (proj1 (proj2 (proj2
                    (formatPhoneNumber_by_digit_count "123-456-7890")))).
    simpl. lia.
  - apply (proj2 (proj2 (proj2
                    (formatPhoneNumber_by_digit_count "1 (234) 567-8901")))).
    simpl. lia.
Defined.

(** C8. For every input with at most ten digits, formatting the formatted
    text again changes nothing. *)
Theorem formatPhoneNumber_idempotent (s : string) :
  String.length (keep is_digit s) <= 10 ->
  formatPhoneNumber (formatPhoneNumber s) = formatPhoneNumber s.
Proof.
  intros Hlen.
  rewrite (formatPhoneNumber_cases (formatPhoneNumber s)).
  rewrite keep_formatPhoneNumber.
  destruct (Nat.leb_spec (String.length (keep is_digit s)) 10); [|lia].
  rewrite (formatPhoneNumber_cases s).
  by destruct (Nat.leb_spec (String.length (keep is_digit s)) 10); [|lia].
Qed.

Lemma formatPhoneNumber_idempotent_witness :
  formatPhoneNumber (formatPhoneNumber "123 4567")
  = formatPhoneNumber "123 4567".
Proof. apply formatPhoneNumber_idempotent. simpl. lia. Defined.

(** C10. An input with more than ten digits is returned as it is: nothing
    is stripped from it and no grouping is applied. *)
Theorem formatPhoneNumber_more_than_ten_digits (value : string) :
  10 < String.length (keep is_digit value) ->
  formatPhoneNumber value = value.
Proof.
  intros Hlen. rewrite formatPhoneNumber_cases.
  by destruct (Nat.leb_spec (String.length (keep is_digit value)) 10); [lia|].
Qed.

Lemma formatPhoneNumber_more_than_ten_digits_witness :
  formatPhoneNumber "+1 (234) 567-8901 x" = "+1 (234) 567-8901 x".
Proof. apply formatPhoneNumber_more_than_ten_digits. simpl. lia. Defined.

End PhoneClaims.

(** ** Validation engine *)

Section ValidationFacts.
Import JSString.

Variable rules : list ValidationRule.
Variable js_syntax_error : string -> option JSValue.
Variable js_call : string -> string -> completion JSValue.

Local Abbreviation validateField :=
  (Form.validateField rules js_syntax_error js_call).
Local Abbreviation apply_rules := (Form.apply_rules js_syntax_error js_call).
Local Abbreviation apply_rule := (Form.apply_rule js_syntax_error js_call).
Local Abbreviation rule_rejects := (Form.rule_rejects js_syntax_error js_call).
Local Abbreviation rule_throws := (Form.rule_throws js_syntax_error js_call).
Local Abbreviation rule_console := (Form.rule_console js_syntax_error js_call).

Lemma apply_rule_cases (rule : ValidationRule) (value : string) :
  apply_rule rule value =
    (Normal (if rule_rejects rule value then Some (Form.rule_message rule)
             else None),
     rule_console rule value).
Proof.
  unfold Form.apply_rule, Form.rule_rejects,
    Form.rule_console, Form.new_Function, Form.validationFn.
  destruct (js_syntax_error (generated_code rule)) as [e|]; [done|].
  destruct (js_call (generated_code rule) value) as [v|e]; simpl.
  - by destruct (to_boolean v).
  - done.
Qed.

(** The loop stops at the first rule that rejects the value: the rules
    after it contribute nothing, neither to the result nor to the
    console. *)
Lemma apply_rules_first_reject (pre post : list ValidationRule)
    (rule : ValidationRule) (value : string) :
  Forall (fun r => rule_rejects r value = false) pre ->
  rule_rejects rule value = true ->
  apply_rules (pre ++ rule :: post) value =
    (Normal (Form.rule_message rule),
     flat_map (fun r => rule_console r value) pre).
Proof.
  intros Hpre Hrule. induction Hpre as [|r pre Hr _ IH]; simpl.
  - rewrite apply_rule_cases, Hrule. simpl.
    assert (rule_console rule value = []) as ->; [|done].
    revert Hrule. unfold Form.rule_rejects, Form.rule_console.
    destruct (js_syntax_error _); [done|]. by destruct (js_call _ _).
  - rewrite apply_rule_cases, Hr. simpl. by rewrite IH.
Qed.

Lemma apply_rules_no_reject (fieldRules : list ValidationRule)
    (value : string) :
  Forall (fun r => rule_rejects r value = false) fieldRules ->
  apply_rules fieldRules value =
    (Normal "", flat_map (fun r => rule_console r value) fieldRules).
Proof.
  intros H. induction H as [|r l Hr _ IH]; simpl; [done|].
  rewrite apply_rule_cases, Hr. simpl. by rewrite IH.
Qed.

(** No exception leaves the rule loop. *)
Lemma apply_rules_normal (fieldRules : list ValidationRule) (value : string) :
  exists msg log, apply_rules fieldRules value = (Normal msg, log).
Proof.
  induction fieldRules as [|r l (msg & log & IH)]; simpl; [by eexists _, _|].
  rewrite apply_rule_cases. destruct (rule_rejects r value); simpl.
  - by eexists _, _.
  - rewrite IH. by eexists _, _.
Qed.

Lemma validateField_apply_rules (value fieldId : string) fieldType :
  validateField value fieldId fieldType =
    apply_rules (filter (fun r => field_id r = fieldId) rules) value.
Proof.
  unfold Form.validateField.
  by destruct (filter _ rules).
Qed.

Lemma validateField_normal (value fieldId : string) fieldType :
  exists msg log, validateField value fieldId fieldType = (Normal msg, log).
Proof. rewrite validateField_apply_rules. apply apply_rules_normal. Qed.

Lemma count_execution_errors (l : list ValidationRule) (value : string) :
  length (List.filter is_execution_error
            (flat_map (fun r => rule_console r value) l)) =
  length (List.filter (fun r => rule_throws r value) l).
Proof.
  induction l as [|r l IH]; [done|].
  cbn [flat_map List.filter]. rewrite List.filter_app, length_app, IH.
  unfold Form.rule_console, Form.rule_throws.
  destruct (js_syntax_error _); [done|].
  by destruct (js_call _ _).
Qed.

Lemma filter_field_id_comm (f : ValidationRule -> bool) (fieldId : string)
    (l : list ValidationRule) :
  filter (fun r => field_id r = fieldId) (List.filter f l) =
    List.filter f (filter (fun r => field_id r = fieldId) l).
Proof.
  induction l as [|r l IH]; [done|].
  cbn [List.filter]. rewrite filter_cons.
  destruct (f r) eqn:Hf; [rewrite filter_cons|];
    destruct (decide (field_id r = fieldId)); cbn [List.filter];
    rewrite ?Hf, IH; done.
Qed.

(** The rules that throw on a value can be left out of the loop: the
    message is the same. *)
Lemma apply_rules_drop_throwing (l : list ValidationRule) (value : string) :
  (apply_rules l value).1 =
    (apply_rules (List.filter (fun r => negb (rule_throws r value)) l) value).1.
Proof.
  induction l as [|r l IH]; [done|].
  cbn [Form.apply_rules List.filter].
  destruct (rule_throws r value) eqn:Ht; cbn [negb].
  - rewrite apply_rule_cases.
    assert (rule_rejects r value = false) as ->.
    { revert Ht. unfold Form.rule_throws, Form.rule_rejects.
      destruct (js_syntax_error _); [done|]. by destruct (js_call _ _). }
    cbn [Log.bind]. rewrite <- IH.
    by destruct (apply_rules l value).
  - cbn [Form.apply_rules]. rewrite apply_rule_cases.
    destruct (rule_rejects r value); cbn [Log.bind]; [done|].
    destruct (apply_rules l value), (apply_rules (List.filter _ l) value).
    exact IH.
Qed.

(** With an empty rule set every field is free of rules. *)
Lemma validateField_empty_rule_set (value fieldId : string) fieldType :
  rules = [] -> validateField value fieldId fieldType = (Normal "", []).
Proof. by intros ->. Qed.

(** C4. A field that no rule of the rule set names is valid whatever its
    value: [validateField] returns the empty string (and writes nothing to
    the console). *)
Theorem validateField_no_rules (value fieldId : string) fieldType :
  filter (fun r => field_id r = fieldId) rules = [] ->
  validateField value fieldId fieldType = (Normal "", []).
Proof. intros H. unfold Form.validateField. by rewrite H. Qed.

Lemma rule_message_truthy (rule : ValidationRule) :
  truthy (Form.rule_message rule) = true.
Proof.
  unfold Form.rule_message, Form.or_else.
  destruct (prompt rule) as [[|c p]|], (description rule) as [[|c' d]|]; done.
Qed.

(** The message of a rule: its prompt when it has one that is not empty,
    else its description when it has one that is not empty, else the
    generic text. *)
Lemma rule_message_cases (rule : ValidationRule) :
  (forall p, prompt rule = Some p -> p <> "" -> Form.rule_message rule = p) /\
  (forall d,
      prompt rule = None \/ prompt rule = Some "" ->
      description rule = Some d -> d <> "" ->
      Form.rule_message rule = d) /\
  (prompt rule = None \/ prompt rule = Some "" ->
   description rule = None \/ description rule = Some "" ->
   Form.rule_message rule = "Invalid input").
Proof.
  unfold Form.rule_message, Form.or_else.
  split; [|split].
  - intros p -> Hp. by destruct p.
  - intros d [-> | ->] -> Hd; by destruct d.
  - by intros [-> | ->] [-> | ->].
Qed.

(** C5. The rules of a field are tried in the order of the rule set.  The
    first rule whose predicate returns a falsy value ends validation: the
    result is its prompt when it has one (not the empty text), else its
    description when it has one, else ["Invalid input"], and neither the
    result nor the console depends on the rules after it (they are not
    evaluated: a rule after it that would throw leaves no entry).  When no
    rule rejects the value the result is the empty string. *)
Theorem validateField_rules_in_order (value fieldId : string) fieldType :
  let fieldRules := filter (fun r => field_id r = fieldId) rules in
  (forall pre rule post,
      fieldRules = pre ++ rule :: post ->
      Forall (fun r => rule_rejects r value = false) pre ->
      rule_rejects rule value = true ->
      exists msg,
        validateField value fieldId fieldType =
          (Normal msg, flat_map (fun r => rule_console r value) pre) /\
        (forall p, prompt rule = Some p -> p <> "" -> msg = p) /\
        (forall d,
            prompt rule = None \/ prompt rule = Some "" ->
            description rule = Some d -> d <> "" ->
            msg = d) /\
        (prompt rule = None \/ prompt rule = Some "" ->
         description rule = None \/ description rule = Some "" ->
         msg = "Invalid input")) /\
  (Forall (fun r => rule_rejects r value = false) fieldRules ->
   validateField value fieldId fieldType =
     (Normal "", flat_map (fun r => rule_console r value) fieldRules)).
Proof.
  intros fieldRules. split.
  - intros pre rule post Heq Hpre Hrule.
    exists (Form.rule_message rule). split; [|apply rule_message_cases].
    rewrite validateField_apply_rules. fold fieldRules. rewrite Heq.
    by apply apply_rules_first_reject.
  - intros H. rewrite validateField_apply_rules.
    by apply apply_rules_no_reject.
Qed.

(** C6 (as amended).  A rule whose predicate throws counts as satisfied, it
    does not make the field valid.  [validateField] never throws; its
    message is the one it gives with the throwing rules taken out of the
    rule set.  So when no rule of the field rejects the value the result is
    the empty string, with one "Validation execution error" entry for each
    rule that threw; in particular, when every rule of the field throws,
    the field is valid and there is one entry per rule.  And when a rule of
    the field rejects the value, the result is a message although rules
    before it threw, with one entry for each of those: the rules after the
    rejecting one are not evaluated and leave none. *)
Theorem validateField_fail_open (value fieldId : string) fieldType :
  let fieldRules := filter (fun r => field_id r = fieldId) rules in
  (exists msg log, validateField value fieldId fieldType = (Normal msg, log)) /\
  (validateField value fieldId fieldType).1 =
    (Form.validateField
       (List.filter (fun r => negb (rule_throws r value)) rules)
       js_syntax_error js_call value fieldId fieldType).1 /\
  (Forall (fun r => rule_rejects r value = false) fieldRules ->
   exists log,
     validateField value fieldId fieldType = (Normal "", log) /\
     length (List.filter is_execution_error log) =
       length (List.filter (fun r => rule_throws r value) fieldRules)) /\
  (Forall (fun r => rule_throws r value = true) fieldRules ->
   exists log,
     validateField value fieldId fieldType = (Normal "", log) /\
     Forall (fun l => is_execution_error l = true) log /\
     length log = length fieldRules) /\
  (forall pre rule post,
      fieldRules = pre ++ rule :: post ->
      Forall (fun r => rule_rejects r value = false) pre ->
      rule_rejects rule value = true ->
      exists msg log,
        validateField value fieldId fieldType = (Normal msg, log) /\
        msg <> "" /\
        length (List.filter is_execution_error log) =
          length (List.filter (fun r => rule_throws r value) pre)).
Proof.
  intros fieldRules. split; [apply validateField_normal|].
  split; [|split; [|split]].
  - rewrite validateField_apply_rules.
    unfold Form.validateField. rewrite filter_field_id_comm.
    rewrite apply_rules_drop_throwing.
    by destruct (List.filter _ (filter _ rules)).
  - intros H. eexists. split.
    + rewrite validateField_apply_rules. by apply apply_rules_no_reject.
    + apply count_execution_errors.
  - intros H. eexists. split; [|split].
    + rewrite validateField_apply_rules. apply apply_rules_no_reject.
      eapply Forall_impl; [exact H|]. intros r.
      unfold Form.rule_throws, Form.rule_rejects.
      destruct (js_syntax_error _); [done|]. by destruct (js_call _ _).
    + fold fieldRules. clear -H. induction H as [|r l Hr _ IH]; simpl.
      * constructor.
      * apply Forall_app. split; [|done].
        revert Hr. unfold Form.rule_throws, Form.rule_console.
        destruct (js_syntax_error _); [done|].
        destruct (js_call _ _); [done|]. by repeat constructor.
    + fold fieldRules. clear -H. induction H as [|r l Hr _ IH]; simpl; [done|].
      rewrite length_app, IH.
      revert Hr. unfold Form.rule_throws, Form.rule_console.
      destruct (js_syntax_error _); [done|]. by destruct (js_call _ _).
  - intros pre rule post Heq Hpre Hrule. eexists _, _. split; [|split].
    + rewrite validateField_apply_rules. fold fieldRules. rewrite Heq.
      by apply apply_rules_first_reject.
    + pose proof (rule_message_truthy rule) as Ht.
      by destruct (Form.rule_message rule).
    + apply count_execution_errors.
Qed.

End ValidationFacts.

(** ** Full-form validation *)

Section FormFacts.
Import JSString.

Variable rules : list ValidationRule.
Variable js_syntax_error : string -> option JSValue.
Variable js_call : string -> string -> completion JSValue.

Local Abbreviation validateField :=
  (Form.validateField rules js_syntax_error js_call).
Local Abbreviation validateForm :=
  (Form.validateForm rules js_syntax_error js_call).
Local Abbreviation entry_error :=
  (Form.entry_error rules js_syntax_error js_call).
Local Abbreviation entry_console :=
  (Form.entry_console rules js_syntax_error js_call).
Local Abbreviation collect_errors :=
  (Form.collect_errors rules js_syntax_error js_call).

Lemma validateField_entry (entry : string * string) :
  validateField entry.2 (replace_char "_" "-" entry.1) None =
    (Normal (entry_error entry), entry_console entry).
Proof.
  unfold Form.entry_error, Form.field_error, Form.entry_console.
  destruct (validateField_normal rules js_syntax_error js_call entry.2
              (replace_char "_" "-" entry.1) None) as (msg & log & ->).
  done.
Qed.

Lemma validateForm_spec (entries : Obj.t) (acc : gmap string string)
    (hasErrors : bool) :
  validateForm entries acc hasErrors =
    (Normal (collect_errors entries acc,
             hasErrors || existsb (fun e => truthy (entry_error e)) entries),
     flat_map entry_console entries).
Proof.
  revert acc hasErrors.
  induction entries as [|[k v] entries IH]; intros acc hasErrors.
  - simpl. by rewrite orb_false_r.
  - cbn [Form.validateForm].
    pose proof (validateField_entry (k, v)) as E. cbn [fst snd] in E.
    rewrite E. unfold Form.collect_errors.
    cbn [Log.bind fold_left existsb flat_map fst snd].
    destruct (truthy (entry_error (k, v))); rewrite IH.
    + by rewrite orb_true_r.
    + done.
Qed.

(** Every entry with a message is in the collected map, with a non-empty
    message. *)
Lemma collect_errors_keeps (entries : Obj.t) (acc : gmap string string)
    (fieldId : string) :
  (exists msg, acc !! fieldId = Some msg /\ truthy msg = true) ->
  exists msg, collect_errors entries acc !! fieldId = Some msg /\
              truthy msg = true.
Proof.
  revert acc. induction entries as [|e entries IH]; intros acc H; [done|].
  unfold Form.collect_errors. cbn [fold_left]. apply IH.
  destruct (truthy (entry_error e)) eqn:He; [|done].
  destruct (decide (replace_char "_" "-" e.1 = fieldId)) as [<-|Hne].
  - rewrite lookup_insert_eq. eauto.
  - by rewrite lookup_insert_ne.
Qed.

Lemma collect_errors_contains (entries : Obj.t) (acc : gmap string string)
    (entry : string * string) :
  entry ∈ entries ->
  truthy (entry_error entry) = true ->
  exists msg, collect_errors entries acc !! replace_char "_" "-" entry.1
              = Some msg /\ truthy msg = true.
Proof.
  revert acc. induction entries as [|e entries IH]; intros acc Hin He.
  - by apply elem_of_nil in Hin.
  - apply elem_of_cons in Hin as [<-|Hin].
    + unfold Form.collect_errors. cbn [fold_left]. rewrite He.
      apply collect_errors_keeps. rewrite lookup_insert_eq. eauto.
    + unfold Form.collect_errors. cbn [fold_left]. by apply IH.
Qed.

Lemma collect_errors_none (entries : Obj.t) (acc : gmap string string) :
  existsb (fun e => truthy (entry_error e)) entries = false ->
  collect_errors entries acc = acc.
Proof.
  revert acc. induction entries as [|e entries IH]; intros acc H; [done|].
  cbn [existsb] in H. apply orb_false_iff in H as [He H].
  unfold Form.collect_errors. cbn [fold_left]. rewrite He. by apply IH.
Qed.

End FormFacts.

(** ** The field handlers *)

Section HandlerFacts.
Import JSString.

Variable rules : list ValidationRule.
Variable js_syntax_error : string -> option JSValue.
Variable js_call : string -> string -> completion JSValue.

Local Abbreviation validateField :=
  (Form.validateField rules js_syntax_error js_call).

Lemma handleChange_cases (name value inputType : string) (w : World) :
  exists msg log,
    validateField value name (Some inputType) = (Normal msg, log) /\
    Form.handleChange rules js_syntax_error js_call name value inputType w =
      (Normal tt,
       edited (replace_char "-" "_" name) value
         (reported name msg (errors (state w))) log w).
Proof.
  destruct (validateField_normal rules js_syntax_error js_call value name
              (Some inputType)) as (msg & log & Hv).
  exists msg, log. split; [done|].
  unfold Form.handleChange, Eff.bind, Eff.lift. rewrite Hv. cbn [fst snd].
  unfold Form.report_error, reported. by destruct (truthy msg).
Qed.

Lemma handleSingleCheckboxChange_cases (name : string) (checked : bool)
    (w : World) :
  exists msg log,
    validateField (Form.bool_toString checked) name (Some "checkbox")
      = (Normal msg, log) /\
    Form.handleSingleCheckboxChange rules js_syntax_error js_call
      name checked w =
      (Normal tt,
       edited (replace_char "-" "_" name) (Form.bool_toString checked)
         (reported name msg (errors (state w))) log w).
Proof.
  destruct (validateField_normal rules js_syntax_error js_call
              (Form.bool_toString checked) name (Some "checkbox"))
    as (msg & log & Hv).
  exists msg, log. split; [done|].
  unfold Form.handleSingleCheckboxChange, Eff.bind, Eff.lift.
  rewrite Hv. cbn [fst snd].
  unfold Form.report_error, reported. by destruct (truthy msg).
Qed.

(** The two ways of the multi-checkbox handler: it throws when reading the
    entry finds a member of [Object.prototype]; otherwise it splits the
    stored value, adds or removes the option, joins the rest and stores
    that. *)
Lemma handleMultiCheckboxChange_cases (name value : string) (checked : bool)
    (w : World) :
  let currentValues := List.filter truthy (split "," (Form.stored name w)) in
  let newValue :=
    join ","
      (if checked then currentValues ++ [value]
       else List.filter (fun v => negb (String.eqb v value)) currentValues) in
  exists msg log,
    validateField newValue name (Some "multiple") = (Normal msg, log) /\
    Form.handleMultiCheckboxChange rules js_syntax_error js_call
      name value checked w =
      if reads_prototype name w
      then (Throw Form.split_is_not_a_function, w)
      else (Normal tt,
            edited (replace_char "-" "_" name) newValue
              (reported name msg (errors (state w))) log w).
Proof.
  intros currentValues newValue.
  destruct (validateField_normal rules js_syntax_error js_call newValue name
              (Some "multiple")) as (msg & log & Hv).
  exists msg, log. split; [done|].
  subst newValue currentValues.
  unfold Form.handleMultiCheckboxChange, Eff.bind, Form.stored,
    reads_prototype, Obj.lookup in *.
  cbn [Eff.get].
  destruct (Obj.get (replace_char "-" "_" name) (formData (state w)))
    as [v|].
  - assert ((if to_boolean (VString v) then VString v else VString "")
            = VString (Form.or_else (Some v) "")) as -> by (by destruct v).
    cbn [Form.split_comma Eff.ret]. unfold Eff.lift. rewrite Hv.
    cbn [fst snd]. unfold Form.report_error, reported.
    by destruct (truthy msg).
  - destruct (Obj.inherited (replace_char "-" "_" name)); [done|].
    cbn [to_boolean Form.split_comma Eff.ret]. cbn [Form.or_else] in Hv.
    unfold Eff.lift. rewrite Hv.
    cbn [fst snd]. unfold Form.report_error, reported.
    by destruct (truthy msg).
Qed.

(** Every field handler leaves the frame alone. *)
Lemma edited_frame (key value : string) (errs : gmap string string)
    (entries : list LogEntry) (w : World) :
  same_frame w (edited key value errs entries w).
Proof. by unfold same_frame. Qed.

Lemma handleMultiCheckboxChange_frame (name value : string) (checked : bool)
    (w : World) :
  same_frame w
    (Form.handleMultiCheckboxChange rules js_syntax_error js_call
       name value checked w).2.
Proof.
  destruct (handleMultiCheckboxChange_cases name value checked w)
    as (msg & log & _ & ->).
  destruct (reads_prototype name w); [by unfold same_frame|].
  apply edited_frame.
Qed.

End HandlerFacts.

(** ** The submit handler *)

Section SubmitFacts.
Import JSString.

Variable rules : list ValidationRule.
Variable js_syntax_error : string -> option JSValue.
Variable js_call : string -> string -> completion JSValue.
Variable onSubmit_throws : Obj.t -> option JSValue.

Local Abbreviation handleSubmit :=
  (Form.handleSubmit rules js_syntax_error js_call onSubmit_throws).
Local Abbreviation entry_error :=
  (Form.entry_error rules js_syntax_error js_call).
Local Abbreviation entry_console :=
  (Form.entry_console rules js_syntax_error js_call).
Local Abbreviation collect_errors :=
  (Form.collect_errors rules js_syntax_error js_call).

Lemma handleSubmit_rejected (rendered : State) (w : World) :
  submissionInProgress w || isSubmitting rendered = true ->
  handleSubmit rendered w =
    (Normal Form.Finished,
     logged [ConsoleLog "Submission already in progress"] w).
Proof. intros H. unfold Form.handleSubmit. by rewrite H. Qed.

Lemma handleSubmit_invalid (rendered : State) (w : World) :
  submissionInProgress w || isSubmitting rendered = false ->
  existsb (fun e => truthy (entry_error e)) (formData rendered) = true ->
  handleSubmit rendered w =
    (Normal Form.Finished,
     turned_down (flat_map entry_console (formData rendered))
       (collect_errors (formData rendered) ∅) w).
Proof.
  intros Hg He. unfold Form.handleSubmit. rewrite Hg.
  unfold Eff.bind, Form.try_block, Eff.lift, Eff.bind. simpl.
  rewrite validateForm_spec. simpl. rewrite He. done.
Qed.

Lemma handleSubmit_valid (rendered : State) (w : World) :
  submissionInProgress w || isSubmitting rendered = false ->
  existsb (fun e => truthy (entry_error e)) (formData rendered) = false ->
  onSubmit_throws (formData rendered) = None ->
  handleSubmit rendered w =
    (Normal Form.AwaitingSubmit,
     at_await (flat_map entry_console (formData rendered))
       (formData rendered) w).
Proof.
  intros Hg He Ht. unfold Form.handleSubmit. rewrite Hg.
  unfold Eff.bind, Form.try_block, Eff.lift, Eff.bind. simpl.
  rewrite validateForm_spec. simpl. rewrite He. simpl.
  unfold Form.call_onSubmit. rewrite Ht. done.
Qed.

(** Whatever [handleSubmit] does, it ends at the [await] only with the
    guard up and [data] handed over once. *)
Lemma handleSubmit_awaiting (rendered : State) (w w' : World) :
  handleSubmit rendered w = (Normal Form.AwaitingSubmit, w') ->
  submissionInProgress w = false /\
  w' = at_await (flat_map entry_console (formData rendered))
         (formData rendered) w.
Proof.
  unfold Form.handleSubmit.
  destruct (submissionInProgress w || isSubmitting rendered) eqn:Hg; [done|].
  apply orb_false_iff in Hg as [Hw Hr]. intros H. split; [done|].
  revert H.
  unfold Eff.bind, Form.try_block, Eff.lift, Eff.bind. simpl.
  rewrite validateForm_spec. simpl.
  destruct (existsb _ _); simpl; [done|].
  unfold Form.call_onSubmit. destruct (onSubmit_throws _); simpl; [done|].
  by intros [= <-].
Qed.

(** A call that does not end at the [await] leaves the guard as it found
    it. *)
Lemma handleSubmit_finished (rendered : State) (w w' : World) r :
  handleSubmit rendered w = (r, w') ->
  r <> Normal Form.AwaitingSubmit ->
  r = Normal Form.Finished /\
  submissionInProgress w' = submissionInProgress w.
Proof.
  unfold Form.handleSubmit.
  destruct (submissionInProgress w || isSubmitting rendered) eqn:Hg.
  { by intros [= <- <-] _. }
  apply orb_false_iff in Hg as [Hw Hr]. rewrite Hw.
  unfold Eff.bind, Form.try_block, Eff.lift, Eff.bind. simpl.
  rewrite validateForm_spec. simpl.
  destruct (existsb _ _); simpl.
  { by intros [= <- <-] _. }
  unfold Form.call_onSubmit. destruct (onSubmit_throws _); simpl.
  - by intros [= <- <-] _.
  - by intros [= <- <-] ?.
Qed.

Local Abbreviation handleSubmit_resume := Form.handleSubmit_resume.
Local Abbreviation step :=
  (Form.step rules js_syntax_error js_call onSubmit_throws).
Local Abbreviation run :=
  (Form.run rules js_syntax_error js_call onSubmit_throws).

Lemma handleSubmit_resume_guard settled (w : World) :
  submissionInProgress (handleSubmit_resume settled w).2 = false /\
  submitted (handleSubmit_resume settled w).2 = submitted w.
Proof. by destruct settled. Qed.

(** The field handlers, the commits and the timers leave the guard
    alone. *)
Lemma edits_keep_guard (s : Form.Session) (ev : Form.Event) :
  (forall rendered, ev <> Form.SubmitEvent rendered) ->
  (forall settled, ev <> Form.SubmitSettled settled) ->
  submissionInProgress (Form.world (step s ev)) =
    submissionInProgress (Form.world s) /\
  Form.awaiting (step s ev) = Form.awaiting s.
Proof.
  intros H1 H2.
  destruct ev as [r|o|n v t|n c|n v c|c f|n v|n v|n b| |]; simpl.
  - by destruct (H1 r).
  - by destruct (H2 o).
  - split; [|done].
    destruct (handleChange_cases rules js_syntax_error js_call n v t
                (Form.world s)) as (msg & log & _ & ->).
    done.
  - split; [|done].
    destruct (handleSingleCheckboxChange_cases rules js_syntax_error js_call
                n c (Form.world s)) as (msg & log & _ & ->).
    done.
  - split; [|done].
    by destruct (handleMultiCheckboxChange_frame rules js_syntax_error
                   js_call n v c (Form.world s)) as (_ & _ & -> & _).
  - done.
  - done.
  - done.
  - done.
  - split; [|done]. unfold Form.status_effect.
    by destruct (status_changed (Form.world s)).
  - split; [|done]. unfold Form.fire_timer.
    destruct (timers (Form.world s)) as [|[[] ms] rest]; done.
Qed.

(** In a session the number of calls at their [await] is one when the guard
    is up and none otherwise. *)
Lemma step_invariant (s : Form.Session) (ev : Form.Event) :
  Form.awaiting s = (if submissionInProgress (Form.world s) then 1 else 0) ->
  Form.awaiting (step s ev) =
    (if submissionInProgress (Form.world (step s ev)) then 1 else 0).
Proof.
  intros I.
  destruct ev as [r|o|n v t|n c|n v c|c f|n v|n v|n b| |];
    try (match goal with
         | |- context [step s ?e] =>
             destruct (edits_keep_guard s e) as [Hg Ha];
             [done|done|rewrite Hg, Ha; exact I]
         end).
  - simpl. destruct (handleSubmit r (Form.world s)) as [res w'] eqn:Hs.
    destruct res as [[|]|e].
    + destruct (handleSubmit_finished _ _ _ _ Hs) as [_ Hg]; [done|].
      simpl. by rewrite Hg.
    + apply handleSubmit_awaiting in Hs as [Hw ->]. simpl.
      rewrite I, Hw. done.
    + by destruct (handleSubmit_finished _ _ _ _ Hs).
  - simpl. destruct (Form.awaiting s) as [|n] eqn:Ha; [by rewrite Ha|].
    simpl. rewrite (proj1 (handleSubmit_resume_guard o (Form.world s))).
    destruct (submissionInProgress (Form.world s)); by simplify_eq.
Qed.

Lemma run_invariant (s : Form.Session) (events : list Form.Event) :
  Form.awaiting s = (if submissionInProgress (Form.world s) then 1 else 0) ->
  Form.awaiting (run s events) =
    (if submissionInProgress (Form.world (run s events)) then 1 else 0).
Proof.
  revert s. induction events as [|ev events IH]; intros s I; [done|].
  simpl. apply IH. by apply step_invariant.
Qed.

Local Abbreviation validateForm :=
  (Form.validateForm rules js_syntax_error js_call).

Lemma existsb_entry_error_false (data : Obj.t) :
  Forall (fun e => entry_error e = "") data ->
  existsb (fun e => truthy (entry_error e)) data = false.
Proof.
  intros H. induction H as [|e l He _ IH]; [done|].
  simpl. by rewrite He, IH.
Qed.

Lemma existsb_entry_error_true (data : Obj.t) (entry : string * string) :
  entry ∈ data -> entry_error entry <> "" ->
  existsb (fun e => truthy (entry_error e)) data = true.
Proof.
  intros Hin He. apply existsb_exists. exists entry. split.
  - by apply list_elem_of_In.
  - by destruct (entry_error entry).
Qed.

Lemma entry_error_no_rules (entry : string * string) :
  rules = [] -> entry_error entry = "".
Proof.
  intros H. unfold Form.entry_error, Form.field_error.
  by rewrite validateField_empty_rule_set.
Qed.

(** Submitting from idle hands the data to [onSubmit] whenever no entry has
    a message. *)
Lemma handleSubmit_calls_onSubmit (rendered : State) (w : World) :
  submissionInProgress w || isSubmitting rendered = false ->
  existsb (fun e => truthy (entry_error e)) (formData rendered) = false ->
  exists r w', handleSubmit rendered w = (r, w') /\
               submitted w' = submitted w ++ [formData rendered].
Proof.
  intros Hg He. unfold Form.handleSubmit. rewrite Hg.
  unfold Eff.bind, Form.try_block, Eff.lift, Eff.bind. simpl.
  rewrite validateForm_spec. simpl. rewrite He. simpl.
  unfold Form.call_onSubmit.
  destruct (onSubmit_throws _); simpl; by eexists _, _.
Qed.

(** C1. A submit request that finds the guard up (the ref set, or
    [isSubmitting] true in the render that handles it) is dropped: the
    world is unchanged but for one line on the console, [onSubmit] is not
    called.  Of two calls of [handleSubmit] back to back, the second made
    while the first is at its [await], exactly the first reaches
    [onSubmit], however the awaited value settles.  In every session at most
    one call of [handleSubmit] is at its [await], and while one is, every
    further submit request is dropped. *)
Theorem handleSubmit_single_flight :
  (forall rendered w,
      submissionInProgress w = true \/ isSubmitting rendered = true ->
      handleSubmit rendered w =
        (Normal Form.Finished,
         logged [ConsoleLog "Submission already in progress"] w)) /\
  (forall first second w0 w1 settled,
      handleSubmit first w0 = (Normal Form.AwaitingSubmit, w1) ->
      let w2 := logged [ConsoleLog "Submission already in progress"] w1 in
      handleSubmit second w1 = (Normal Form.Finished, w2) /\
      submitted w2 = submitted w0 ++ [formData first] /\
      submitted (handleSubmit_resume settled w2).2 =
        submitted w0 ++ [formData first]) /\
  (forall initialData events,
      let s := run (Form.mount initialData) events in
      Form.awaiting s <= 1 /\
      (Form.awaiting s = 1 ->
       forall rendered,
         handleSubmit rendered (Form.world s) =
           (Normal Form.Finished,
            logged [ConsoleLog "Submission already in progress"]
              (Form.world s)))).
Proof.
  split; [|split].
  - intros rendered w H. apply handleSubmit_rejected.
    destruct H as [-> | ->]; [done|apply orb_true_r].
  - intros first second w0 w1 settled H w2.
    apply handleSubmit_awaiting in H as [H0 ->].
    split; [by apply handleSubmit_rejected|]. split; [done|].
    by rewrite (proj2 (handleSubmit_resume_guard settled w2)).
  - intros initialData events s.
    assert (Form.awaiting s =
              if submissionInProgress (Form.world s) then 1 else 0) as I
      by (by apply run_invariant).
    split.
    + rewrite I. destruct (submissionInProgress (Form.world s)); lia.
    + intros H1 rendered. apply handleSubmit_rejected.
      rewrite I in H1. by destruct (submissionInProgress (Form.world s)).
Qed.

(** C3 (as amended).  The validator knows rules only, not which fields are
    required.  With an empty rule set full-form validation returns an empty
    error map whatever the form data, also when a required field is the
    empty string, and a submit from idle hands the data to [onSubmit].
    Whatever the rule set, form data in which no entry has a message gives
    an empty error map; and when an entry has a message, a submit from idle
    ends idle again with a non-empty error map that has the field id of that
    entry, the status asking to correct the form, and [onSubmit] not
    called. *)
Theorem validateForm_by_rules_only (rendered : State) (w : World) :
  submissionInProgress w || isSubmitting rendered = false ->
  let data := formData rendered in
  (rules = [] ->
   validateForm data ∅ false = (Normal (∅, false), []) /\
   exists r w', handleSubmit rendered w = (r, w') /\
                submitted w' = submitted w ++ [data]) /\
  (Forall (fun e => entry_error e = "") data ->
   exists log, validateForm data ∅ false = (Normal (∅, false), log)) /\
  (forall entry,
      entry ∈ data -> entry_error entry <> "" ->
      exists w',
        handleSubmit rendered w = (Normal Form.Finished, w') /\
        isSubmitting (state w') = false /\
        submissionInProgress w' = false /\
        status (state w') =
          {| type := StatusError;
             message := "Please correct the form errors" |} /\
        (exists msg, errors (state w') !! replace_char "_" "-" entry.1
                     = Some msg /\ msg <> "") /\
        submitted w' = submitted w).
Proof.
  intros Hg data. split; [|split].
  - intros Hrules.
    assert (existsb (fun e => truthy (entry_error e)) data = false) as He.
    { apply existsb_entry_error_false, Forall_forall.
      intros e _. by apply entry_error_no_rules. }
    split; [|by apply handleSubmit_calls_onSubmit].
    rewrite validateForm_spec, He, collect_errors_none by done.
    do 2 f_equal. subst rules. clear. induction data as [|e l IH]; [done|].
    simpl. by rewrite IH.
  - intros H. eexists.
    rewrite validateForm_spec, existsb_entry_error_false, collect_errors_none;
      auto using existsb_entry_error_false.
  - intros entry Hin He. eexists. split.
    { apply handleSubmit_invalid; [done|].
      by eapply existsb_entry_error_true. }
    simpl. repeat (split; [done|]). split; [|done].
    destruct (collect_errors_contains rules js_syntax_error js_call
                data ∅ entry) as (msg & Hm & Ht);
      [done|by destruct (entry_error entry)|].
    exists msg. split; [done|]. by destruct msg.
Qed.

End SubmitFacts.

(** ** Splitting and joining *)

Module SplitJoinFacts.
Import JSString JSStringFacts.

Lemma split_comma_free (a : string) :
  comma_free a = true -> split "," a = [a].
Proof.
  unfold comma_free. induction a as [|c a IH]; [done|].
  cbn [all split]. intros [Hc Ha]%andb_true_iff.
  destruct (Ascii.eqb c ","); [done|]. by rewrite IH.
Qed.

Lemma split_append_comma (a rest : string) :
  comma_free a = true ->
  split "," (a +:+ String "," rest) = a :: split "," rest.
Proof.
  unfold comma_free. induction a as [|c a IH]; [done|].
  rewrite append_cons. cbn [all split]. intros [Hc Ha]%andb_true_iff.
  destruct (Ascii.eqb c ","); [done|]. by rewrite IH.
Qed.

Lemma join_cons_cons (a b : string) (l : list string) :
  join "," (a :: b :: l) = a +:+ String "," (join "," (b :: l)).
Proof. reflexivity. Qed.

(** Splitting the joined text gives the options back. *)
Lemma filter_split_join (l : list string) :
  Forall (fun o => plain_option o = true) l ->
  List.filter truthy (split "," (join "," l)) = l.
Proof.
  induction 1 as [|a l Ha Hl IH]; [done|].
  apply andb_true_iff in Ha as [Hne Hcf].
  destruct l as [|b l].
  - change (join "," [a]) with a. rewrite split_comma_free by done.
    cbn [List.filter]. by rewrite Hne.
  - rewrite join_cons_cons, split_append_comma by done.
    cbn [List.filter]. by rewrite Hne, IH.
Qed.

Lemma get_replace (k k' v : string) (o : Obj.t) :
  Obj.get k' (Obj.replace k v o) =
    if String.eqb k k' then option_map (fun _ => v) (Obj.get k o)
    else Obj.get k' o.
Proof.
  induction o as [|[k0 v0] o IH]; simpl.
  - by destruct (String.eqb k k').
  - destruct (String.eqb_spec k0 k) as [->|Hk0]; simpl.
    + by destruct (String.eqb k k').
    + rewrite IH. destruct (String.eqb_spec k k') as [<-|Hk]; [|done].
      by destruct (String.eqb_spec k0 k).
Qed.

Lemma get_insert_index (n : N) (k k' v : string) (o : Obj.t) :
  Obj.get k o = None ->
  Obj.get k' (Obj.insert_index n k v o) =
    if String.eqb k k' then Some v else Obj.get k' o.
Proof.
  induction o as [|[k0 v0] o IH]; intros Hk; [done|].
  cbn [Obj.get] in Hk. destruct (String.eqb_spec k0 k) as [->|Hk0]; [done|].
  cbn [Obj.insert_index].
  destruct (Obj.array_index k0) as [n0|]; [destruct (n0 <? n)%N|]; try done.
  cbn [Obj.get]. rewrite IH by done.
  destruct (String.eqb_spec k k') as [<-|Hne]; [|done].
  by destruct (String.eqb_spec k0 k).
Qed.

Lemma get_app_new (k k' v : string) (o : Obj.t) :
  Obj.get k o = None ->
  Obj.get k' (o ++ [(k, v)]) =
    if String.eqb k k' then Some v else Obj.get k' o.
Proof.
  induction o as [|[k0 v0] o IH]; intros Hk; [done|].
  cbn [Obj.get] in Hk. destruct (String.eqb_spec k0 k) as [->|Hk0]; [done|].
  cbn [app Obj.get]. rewrite IH by done.
  destruct (String.eqb_spec k k') as [<-|Hne]; [|done].
  by destruct (String.eqb_spec k0 k).
Qed.

(** The own properties after [{ ...o, [k]: v }]. *)
Lemma get_set_cases (k k' v : string) (o : Obj.t) :
  Obj.get k' (Obj.set k v o) =
    if String.eqb k k' then Some v else Obj.get k' o.
Proof.
  unfold Obj.set. destruct (Obj.get k o) as [v0|] eqn:Hk.
  - rewrite get_replace, Hk. done.
  - destruct (Obj.array_index k) as [n|].
    + by apply get_insert_index.
    + by apply get_app_new.
Qed.

Lemma get_set (k v : string) (o : Obj.t) : Obj.get k (Obj.set k v o) = Some v.
Proof. by rewrite get_set_cases, String.eqb_refl. Qed.

Lemma get_set_ne (k k' v : string) (o : Obj.t) :
  k' <> k -> Obj.get k' (Obj.set k v o) = Obj.get k' o.
Proof.
  intros Hne. rewrite get_set_cases.
  by destruct (String.eqb_spec k k') as [->|_].
Qed.

Lemma or_else_some (s : string) : Form.or_else (Some s) "" = s.
Proof. by destruct s. Qed.

End SplitJoinFacts.

(** ** The multi-checkbox handler *)

Section CheckboxFacts.
Import JSString JSStringFacts SplitJoinFacts.

Variable rules : list ValidationRule.
Variable js_syntax_error : string -> option JSValue.
Variable js_call : string -> string -> completion JSValue.

Local Abbreviation handleMultiCheckboxChange :=
  (Form.handleMultiCheckboxChange rules js_syntax_error js_call).
Local Abbreviation changes := (Form.changes rules js_syntax_error js_call).

Lemma reads_prototype_own (name : string) (w : World) :
  Obj.inherited (replace_char "-" "_" name) = false ->
  reads_prototype name w = false.
Proof.
  intros H. unfold reads_prototype. rewrite H.
  by destruct (Obj.get _ _).
Qed.

Lemma stored_edited (name value : string) (errs : gmap string string)
    (entries : list LogEntry) (w : World) :
  Form.stored name (edited (replace_char "-" "_" name) value errs entries w)
  = value.
Proof.
  unfold Form.stored, edited. cbn [state formData].
  by rewrite get_set, or_else_some.
Qed.

(** The value the handler stores: the old value split, the option added or
    removed, the rest joined again. *)
Lemma handleMultiCheckboxChange_stored (name value : string) (checked : bool)
    (w : World) :
  reads_prototype name w = false ->
  let currentValues := List.filter truthy (split "," (Form.stored name w)) in
  (handleMultiCheckboxChange name value checked w).1 = Normal tt /\
  Form.stored name (handleMultiCheckboxChange name value checked w).2 =
    join ","
      (if checked then currentValues ++ [value]
       else List.filter (fun v => negb (String.eqb v value)) currentValues).
Proof.
  intros Hown currentValues.
  destruct (handleMultiCheckboxChange_cases rules js_syntax_error js_call
              name value checked w) as (msg & log & _ & ->).
  rewrite Hown. cbn [fst snd]. split; [done|]. apply stored_edited.
Qed.

Lemma handleMultiCheckboxChange_throws (name value : string) (checked : bool)
    (w : World) :
  reads_prototype name w = true ->
  handleMultiCheckboxChange name value checked w =
    (Throw Form.split_is_not_a_function, w).
Proof.
  intros H.
  destruct (handleMultiCheckboxChange_cases rules js_syntax_error js_call
              name value checked w) as (msg & log & _ & ->).
  by rewrite H.
Qed.

Lemma existsb_eqb_false (x : string) (l : list string) :
  existsb (String.eqb x) l = false -> x ∉ l.
Proof.
  intros H Hin. apply list_elem_of_In in Hin.
  assert (existsb (String.eqb x) l = true) as Ht; [|congruence].
  apply existsb_exists. exists x. by rewrite String.eqb_refl.
Qed.

Lemma NoDup_filter_bool {A} (f : A -> bool) (l : list A) :
  NoDup l -> NoDup (List.filter f l).
Proof.
  induction 1 as [|x l Hx Hl IH]; simpl; [constructor|].
  destruct (f x); [|done]. constructor; [|done].
  intros Hin. apply Hx. apply list_elem_of_In in Hin.
  apply List.filter_In in Hin as [Hin _]. by apply list_elem_of_In.
Qed.

Lemma Forall_filter_bool {A} (P : A -> Prop) (f : A -> bool) (l : list A) :
  Forall P l -> Forall P (List.filter f l).
Proof.
  induction 1 as [|x l Hx Hl IH]; simpl; [constructor|].
  destruct (f x); [by constructor|done].
Qed.

(** One change event fired by the boxes keeps the stored value in step
    with them. *)
Lemma change_invariant (name : string) (ev : string * bool)
    (boxes : list string) (w : World) :
  Obj.inherited (replace_char "-" "_" name) = false ->
  plain_option ev.1 = true ->
  ev.2 = negb (Boxes.is_ticked ev.1 boxes) ->
  Form.stored name w = join "," boxes ->
  NoDup boxes ->
  Forall (fun o => plain_option o = true) boxes ->
  let after := handleMultiCheckboxChange name ev.1 ev.2 w in
  after.1 = Normal tt /\
  Form.stored name after.2 = join "," (Boxes.change boxes ev) /\
  NoDup (Boxes.change boxes ev) /\
  Forall (fun o => plain_option o = true) (Boxes.change boxes ev).
Proof.
  intros Hkey Hopt Hfired Hst Hnd Hpl after.
  destruct (handleMultiCheckboxChange_stored name ev.1 ev.2 w)
    as [Hn Hs]; [by apply reads_prototype_own|].
  split; [done|]. subst after. rewrite Hs.
  rewrite Hst, filter_split_join by done.
  unfold Boxes.change. rewrite Hfired. unfold Boxes.is_ticked in *.
  destruct (existsb (String.eqb ev.1) boxes) eqn:E; cbn [negb].
  - split; [done|]. split; [by apply NoDup_filter_bool|].
    by apply Forall_filter_bool.
  - split; [done|]. split.
    + apply NoDup_app. split; [done|]. split; [|apply NoDup_singleton].
      intros x Hx ->%list_elem_of_singleton.
      by apply (existsb_eqb_false ev.1 boxes).
    + apply Forall_app. split; [done|]. by constructor.
Qed.

Lemma changes_invariant (name : string) (events : list (string * bool))
    (boxes : list string) (w : World) :
  Obj.inherited (replace_char "-" "_" name) = false ->
  Forall (fun ev => plain_option ev.1 = true) events ->
  Boxes.fired_by_boxes boxes events = true ->
  Form.stored name w = join "," boxes ->
  NoDup boxes ->
  Forall (fun o => plain_option o = true) boxes ->
  (changes name events w).1 = Normal tt /\
  Form.stored name (changes name events w).2
    = join "," (fold_left Boxes.change events boxes) /\
  NoDup (fold_left Boxes.change events boxes) /\
  Forall (fun o => plain_option o = true) (fold_left Boxes.change events boxes).
Proof.
  intros Hkey Hevents. revert boxes w.
  induction Hevents as [|[value checked] events Hev _ IH];
    intros boxes w Hfired Hst Hnd Hpl.
  - done.
  - cbn [Boxes.fired_by_boxes] in Hfired.
    apply andb_true_iff in Hfired as [Hc Hrest].
    apply Bool.eqb_prop in Hc.
    destruct (change_invariant name (value, checked) boxes w
                Hkey Hev Hc Hst Hnd Hpl) as (H1 & H2 & H3 & H4).
    cbn [fst snd] in H1, H2.
    cbn [Form.changes fold_left]. unfold Eff.bind.
    destruct (handleMultiCheckboxChange name value checked w) as [r w'].
    cbn [fst snd] in H1, H2. subst r. by apply IH.
Qed.

(** C9 (as amended).  For a checkbox group whose option strings are not
    empty and hold no comma, whose field key is not the name of a member of
    [Object.prototype], whose stored value starts empty and whose change
    events come as boxes fire them (ticked from a box that was not,
    unticked from one that was): no event throws, the stored value is the
    comma-joined sequence of the ticked options, in the order they were
    ticked, it splits into these options again and no option is in it
    twice.  The handler itself does not look whether an option is stored:
    two "ticked" events for one option in a row store it twice.  And when
    reading the entry of the field finds a member of [Object.prototype],
    the first change event throws and stores nothing. *)
Theorem changes_stored_value (name : string) (w : World) :
  (forall events,
      Obj.inherited (replace_char "-" "_" name) = false ->
      Form.stored name w = "" ->
      Forall (fun ev => plain_option ev.1 = true) events ->
      Boxes.fired_by_boxes [] events = true ->
      let after := changes name events w in
      let pieces := List.filter truthy (split "," (Form.stored name after.2)) in
      after.1 = Normal tt /\
      Form.stored name after.2 = join "," (Boxes.ticked events) /\
      pieces = Boxes.ticked events /\
      NoDup pieces) /\
  (forall option,
      Obj.inherited (replace_char "-" "_" name) = false ->
      Form.stored name w = "" ->
      plain_option option = true ->
      Form.stored name (changes name [(option, true); (option, true)] w).2
      = option +:+ "," +:+ option) /\
  (forall option checked rest,
      reads_prototype name w = true ->
      changes name ((option, checked) :: rest) w
      = (Throw Form.split_is_not_a_function, w)).
Proof.
  split; [|split].
  - intros events Hkey Hst Hevents Hfired after pieces.
    destruct (changes_invariant name events [] w Hkey Hevents Hfired Hst
                (NoDup_nil_2) (Forall_nil_2 _)) as (H1 & H2 & H3 & H4).
    split; [done|]. split; [done|]. subst pieces after.
    rewrite H2, filter_split_join by done. done.
  - intros option Hkey Hst Hopt. cbn [Form.changes]. unfold Eff.bind.
    destruct (handleMultiCheckboxChange_stored name option true w)
      as [Hn Hs]; [by apply reads_prototype_own|].
    destruct (handleMultiCheckboxChange name option true w) as [r w1].
    cbn [fst snd] in Hn, Hs. subst r.
    destruct (handleMultiCheckboxChange_stored name option true w1)
      as [Hn1 Hs1]; [by apply reads_prototype_own|].
    destruct (handleMultiCheckboxChange name option true w1) as [r1 w2].
    cbn [fst snd] in Hn1, Hs1. subst r1. cbn [Eff.ret snd].
    rewrite Hs1, Hs, Hst.
    change (List.filter truthy (split "," "")) with (@nil string).
    cbn [app]. change (join "," [option]) with option.
    assert (Forall (fun o => plain_option o = true) [option]) as Hl
      by (by constructor).
    pose proof (filter_split_join [option] Hl) as Hf.
    change (join "," [option]) with option in Hf. rewrite Hf.
    reflexivity.
  - intros option checked rest Hr. cbn [Form.changes]. unfold Eff.bind.
    by rewrite handleMultiCheckboxChange_throws.
Qed.

End CheckboxFacts.

(** ** The currency handler *)

Lemma length_zeros (n : nat) :
  String.length (String.concat "" (replicate n "0")) = n.
Proof.
  induction n as [|n IH]; [done|].
  destruct n as [|n]; [done|].
  change (String.concat "" (replicate (S (S n)) "0"))
    with ("0" +:+ "" +:+ String.concat "" (replicate (S n) "0")).
  rewrite !JSStringFacts.length_append, IH. done.
Qed.

(** A finite number below [10^21] is printed with a point and two characters
    after it. *)
Lemma toFixed2_two_decimals (neg : bool) (m : N) (e : Z) :
  ((JSNumber.ratio m e).1 < 10 ^ 21 * (JSNumber.ratio m e).2)%Z ->
  exists a b,
    JSNumber.toFixed2 (JSNumber.Fin neg m e) = a +:+ "." +:+ b /\
    String.length b = 2.
Proof.
  intros H. unfold JSNumber.toFixed2.
  destruct (JSNumber.ratio m e) as [num den]. cbn [fst snd] in H.
  destruct (Z.leb_spec (10 ^ 21 * den) num) as [Hle|_]; [lia|].
  set (m0 := JSNumber.decimal _).
  set (m1 := if String.length m0 <=? 2 then _ else _).
  assert (3 <= String.length m1) as Hlen.
  { subst m1. destruct (Nat.leb_spec (String.length m0) 2) as [Hk|Hk]; [|lia].
    rewrite JSStringFacts.length_append, length_zeros. lia. }
  eexists (_ +:+ _), _. split.
  - by rewrite JSStringFacts.append_assoc.
  - rewrite JSStringFacts.length_drop. lia.
Qed.

(** Input without a leading number is stored as the text of not-a-number. *)
Lemma handleCurrencyChange_NaN (name value : string) (w : World) :
  JSNumber.parseFloat value = JSNumber.NaN ->
  Obj.get (JSString.replace_char "-" "_" name)
    (formData (state (Form.handleCurrencyChange name value w).2))
    = Some "NaN" /\
  errors (state (Form.handleCurrencyChange name value w).2)
    = errors (state w).
Proof.
  intros H. unfold Form.handleCurrencyChange. rewrite H. simpl.
  by rewrite SplitJoinFacts.get_set.
Qed.

(** C2 (the code departs from the claim).  Raw input that is not a number
    is not turned down: for the empty input and for ["abc"] the handler
    stores the text ["NaN"] under the field key, and for ["12.3.4"] it
    stores ["12.30"], the formatted leading number; the error map is left as
    it was in all three cases. *)
Theorem handleCurrencyChange_not_numeric (name : string) (w : World) :
  let key := JSString.replace_char "-" "_" name in
  let after value := (Form.handleCurrencyChange name value w).2 in
  (Obj.get key (formData (state (after ""))) = Some "NaN" /\
   errors (state (after "")) = errors (state w)) /\
  (Obj.get key (formData (state (after "abc"))) = Some "NaN" /\
   errors (state (after "abc")) = errors (state w)) /\
  (Obj.get key (formData (state (after "12.3.4"))) = Some "12.30" /\
   errors (state (after "12.3.4")) = errors (state w)).
Proof.
  intros key after. split; [|split].
  - by apply handleCurrencyChange_NaN.
  - by apply handleCurrencyChange_NaN.
  - subst key after. cbv beta. unfold Form.handleCurrencyChange.
    assert (JSNumber.toFixed2 (JSNumber.parseFloat "12.3.4") = "12.30") as ->
      by (vm_compute; reflexivity).
    simpl. by rewrite SplitJoinFacts.get_set.
Qed.

(** ** Scenarios *)

Module ScenarioFacts.
Import JSString Scenario.

Lemma handleSubmit_single_flight_witness :
  let w0 := Form.world (Form.mount values_B) in
  let w1 := at_await [] values_B w0 in
  let w2 := logged [ConsoleLog "Submission already in progress"] w1 in
  submit Form.validationRules_generated values_B
    = (Normal Form.AwaitingSubmit, w1) /\
  Form.handleSubmit Form.validationRules_generated Sample.js_syntax_error
    Sample.js_call Sample.onSubmit_throws (state w0) w1
    = (Normal Form.Finished, w2) /\
  submitted (Form.handleSubmit_resume (Normal tt) w2).2 = [values_B] /\
  Form.handleSubmit Form.validationRules_generated Sample.js_syntax_error
    Sample.js_call Sample.onSubmit_throws (state w1) w0
    = (Normal Form.Finished,
       logged [ConsoleLog "Submission already in progress"] w0) /\
  let s := Form.run Form.validationRules_generated Sample.js_syntax_error
             Sample.js_call Sample.onSubmit_throws (Form.mount values_B)
             [Form.SubmitEvent (state w0); Form.SubmitEvent (state w0);
              Form.ChangeEvent "email" "j@d.org" "email";
              Form.SubmitEvent (state w0)] in
  Form.awaiting s <= 1 /\ submitted (Form.world s) = [values_B].
Proof.
  intros w0 w1 w2.
  assert (submit Form.validationRules_generated values_B
          = (Normal Form.AwaitingSubmit, w1)) as H by reflexivity.
  split; [exact H|].
  destruct (handleSubmit_single_flight Form.validationRules_generated
              Sample.js_syntax_error Sample.js_call Sample.onSubmit_throws)
    as (Hguard & Htwo & Hsession).
  destruct (Htwo (state w0) (state w0) w0 w1 (Normal tt) H) as (H1 & _ & H3).
  split; [exact H1|]. split; [exact H3|]. split.
  - apply Hguard. right. reflexivity.
  - intros s. split; [|reflexivity].
    exact (proj1 (Hsession values_B _)).
Defined.

(** Scenario A on the code: the empty required field goes through, the
    error map stays empty and [onSubmit] gets the data. *)
Lemma empty_required_field_is_submitted :
  ~ empty_required_blocks_submit schema values_A.
Proof.
  intros H.
  destruct (H {| Schema.id := "full-name"; Schema.type := "text";
                 Schema.label := "Full Name"; Schema.caption := None;
                 Schema.options := []; Schema.required := true;
                 Schema.placeholder := None |}) as (Hr & _).
  - apply list_elem_of_here.
  - reflexivity.
  - reflexivity.
  - discriminate Hr.
Qed.

Lemma validateForm_by_rules_only_witness :
  (exists r w',
      submit Form.validationRules_generated values_A = (r, w') /\
      submitted w' = [values_A]) /\
  (exists w',
      submit [Sample.required_rule "full-name"] values_A
        = (Normal Form.Finished, w') /\
      isSubmitting (state w') = false /\
      (exists msg, errors (state w') !! "full-name" = Some msg /\ msg <> "") /\
      submitted w' = []).
Proof.
  split.
  - destruct (validateForm_by_rules_only Form.validationRules_generated
                Sample.js_syntax_error Sample.js_call Sample.onSubmit_throws
                (state (Form.world (Form.mount values_A)))
                (Form.world (Form.mount values_A)) eq_refl)
      as (H & _).
    destruct (H eq_refl) as (_ & r & w' & Hs & Hsub).
    exists r, w'. split; [exact Hs|exact Hsub].
  - destruct (validateForm_by_rules_only [Sample.required_rule "full-name"]
                Sample.js_syntax_error Sample.js_call Sample.onSubmit_throws
                (state (Form.world (Form.mount values_A)))
                (Form.world (Form.mount values_A)) eq_refl)
      as (_ & _ & H).
    destruct (H ("full_name", "")) as (w' & Hs & Hi & _ & _ & He & Hsub).
    + apply list_elem_of_here.
    + discriminate.
    + exists w'. split; [exact Hs|]. split; [exact Hi|].
      split; [exact He|exact Hsub].
Defined.

Lemma validateField_no_rules_witness :
  Form.validateField [Sample.required_rule "passport-number"]
    Sample.js_syntax_error Sample.js_call "" "applicant-email" None
  = (Normal "", []).
Proof. apply validateField_no_rules. reflexivity. Defined.

Lemma validateField_rules_in_order_witness :
  Form.validateField
    [Sample.required_rule "nationality"; Sample.short_rule "visa-type";
     Sample.short_rule "nationality"; Sample.throwing_rule "nationality"]
    Sample.js_syntax_error Sample.js_call "Portugal" "nationality" None
  = (Normal "Invalid input", []) /\
  Form.validateField
    [Sample.throwing_rule "nationality"; Sample.required_rule "nationality";
     Sample.short_rule "nationality"]
    Sample.js_syntax_error Sample.js_call "" "nationality" None
  = (Normal "This field is required",
     [ConsoleError "Validation execution error:" (VError "boom")]) /\
  Form.validateField
    [Sample.required_rule "nationality"; Sample.described_rule "nationality"]
    Sample.js_syntax_error Sample.js_call "Portugal" "nationality" None
  = (Normal "At most three characters", []) /\
  Form.validateField
    [Sample.required_rule "nationality"; Sample.throwing_rule "nationality"]
    Sample.js_syntax_error Sample.js_call "Portugal" "nationality" None
  = (Normal "", [ConsoleError "Validation execution error:" (VError "boom")]).
Proof.
  split; [|split; [|split]].
  - destruct (proj1 (validateField_rules_in_order
                       [Sample.required_rule "nationality";
                        Sample.short_rule "visa-type";
                        Sample.short_rule "nationality";
                        Sample.throwing_rule "nationality"]
                       Sample.js_syntax_error Sample.js_call
                       "Portugal" "nationality" None)
                [Sample.required_rule "nationality"]
                (Sample.short_rule "nationality")
                [Sample.throwing_rule "nationality"])
      as (msg & Heq & _ & _ & Hgeneric).
    + reflexivity.
    + repeat constructor.
    + reflexivity.
    + rewrite (Hgeneric (or_introl eq_refl) (or_introl eq_refl)) in Heq.
      exact Heq.
  - destruct (proj1 (validateField_rules_in_order
                       [Sample.throwing_rule "nationality";
                        Sample.required_rule "nationality";
                        Sample.short_rule "nationality"]
                       Sample.js_syntax_error Sample.js_call
                       "" "nationality" None)
                [Sample.throwing_rule "nationality"]
                (Sample.required_rule "nationality")
                [Sample.short_rule "nationality"])
      as (msg & Heq & Hprompt & _ & _).
    + reflexivity.
    + repeat constructor.
    + reflexivity.
    + rewrite (Hprompt "This field is required" eq_refl) in Heq.
      * exact Heq.
      * discriminate.
  - destruct (proj1 (validateField_rules_in_order
                       [Sample.required_rule "nationality";
                        Sample.described_rule "nationality"]
                       Sample.js_syntax_error Sample.js_call
                       "Portugal" "nationality" None)
                [Sample.required_rule "nationality"]
                (Sample.described_rule "nationality")
                [])
      as (msg & Heq & _ & Hdescription & _).
    + reflexivity.
    + repeat constructor.
    + reflexivity.
    + rewrite (Hdescription "At most three characters" (or_introl eq_refl)
                 eq_refl) in Heq.
      * exact Heq.
      * discriminate.
  - apply (proj2 (validateField_rules_in_order
                    [Sample.required_rule "nationality";
                     Sample.throwing_rule "nationality"]
                    Sample.js_syntax_error Sample.js_call
                    "Portugal" "nationality" None)).
    repeat constructor.
Defined.

(** A field with a throwing rule is not thereby valid: the rule after the
    throwing one turns the value down. *)
Lemma throwing_rule_then_rejecting_rule :
  ~ throwing_rule_makes_valid
      [Sample.throwing_rule "passport-number";
       Sample.short_rule "passport-number"]
      "passport-number".
Proof.
  intros H.
  assert ((Form.validateField
             [Sample.throwing_rule "passport-number";
              Sample.short_rule "passport-number"]
             Sample.js_syntax_error Sample.js_call
             "X1234567" "passport-number" None).1 = Normal "") as Hv.
  { apply (H (Sample.throwing_rule "passport-number")).
    - apply list_elem_of_here.
    - reflexivity.
    - reflexivity. }
  discriminate Hv.
Qed.

(** Scenario E, the only rule of [passport-number] throwing on every
    value; and the same rule in front of one that rejects the value. *)
Lemma validateField_fail_open_witness :
  (exists log,
     Form.validateField [Sample.throwing_rule "passport-number"]
       Sample.js_syntax_error Sample.js_call "X1234567" "passport-number" None
     = (Normal "", log) /\
     Forall (fun l => is_execution_error l = true) log /\
     length log = 1) /\
  (exists msg log,
     Form.validateField
       [Sample.throwing_rule "passport-number";
        Sample.short_rule "passport-number"]
       Sample.js_syntax_error Sample.js_call "X1234567" "passport-number" None
     = (Normal msg, log) /\
     msg <> "" /\
     length (List.filter is_execution_error log) = 1).
Proof.
  split.
  - apply (proj1 (proj2 (proj2 (proj2
             (validateField_fail_open
                [Sample.throwing_rule "passport-number"]
                Sample.js_syntax_error Sample.js_call
                "X1234567" "passport-number" None))))).
    repeat constructor.
  - apply (proj2 (proj2 (proj2 (proj2
             (validateField_fail_open
                [Sample.throwing_rule "passport-number";
                 Sample.short_rule "passport-number"]
                Sample.js_syntax_error Sample.js_call
                "X1234567" "passport-number" None))))
             [Sample.throwing_rule "passport-number"]
             (Sample.short_rule "passport-number") []).
    + reflexivity.
    + repeat constructor.
    + reflexivity.
Defined.

(** An input with eleven digits keeps its other characters. *)
Lemma formatPhoneNumber_keeps_non_digits : ~ strips_non_digits.
Proof.
  intros H. specialize (H "+1 (234) 567-8901 x").
  vm_compute in H. discriminate H.
Qed.

(** Options ["A,B"] and ["C"]: tick the first, tick the second, untick the
    first.  The stored value is then ["A,B,C"], the ticked options are
    [["C"]]. *)
Lemma stored_value_with_comma_option :
  ~ stored_is_join_of_ticked "travel-purposes" ["A,B"; "C"].
Proof.
  intros H.
  specialize (H [("A,B", true); ("C", true); ("A,B", false)]).
  assert (Form.stored "travel-purposes"
            (tick "travel-purposes"
               [("A,B", true); ("C", true); ("A,B", false)]).2 = "A,B,C")
    as Hst by reflexivity.
  assert (join "," (Boxes.ticked [("A,B", true); ("C", true); ("A,B", false)])
          = "C") as Hj by reflexivity.
  rewrite Hst, Hj in H.
  assert ("A,B,C" = "C") as Habs; [|discriminate Habs].
  apply H; [|reflexivity].
  repeat constructor.
Qed.

(** Scenario D: options ["A"], ["B"], ["C"]; tick A, tick C, untick A.
    Before the last event the stored value is ["A,C"].  Two "ticked" events
    for A store it twice.  And a group named [constructor]: its first event
    throws. *)
Lemma changes_stored_value_witness :
  (tick "travel-purposes" [("A", true); ("C", true); ("A", false)]).1
    = Normal tt /\
  Form.stored "travel-purposes"
    (tick "travel-purposes" [("A", true); ("C", true); ("A", false)]).2
    = "C" /\
  Form.stored "travel-purposes"
    (tick "travel-purposes" [("A", true); ("C", true)]).2 = "A,C" /\
  Form.stored "travel-purposes"
    (tick "travel-purposes" [("A", true); ("A", true)]).2 = "A,A" /\
  tick "constructor" [("A", true)]
    = (Throw Form.split_is_not_a_function, Form.world (Form.mount [])).
Proof.
  destruct (changes_stored_value Form.validationRules_generated
              Sample.js_syntax_error Sample.js_call
              "travel-purposes" (Form.world (Form.mount [])))
    as (Hboxes & Htwice & _).
  destruct (changes_stored_value Form.validationRules_generated
              Sample.js_syntax_error Sample.js_call
              "constructor" (Form.world (Form.mount [])))
    as (_ & _ & Hthrows).
  destruct (Hboxes [("A", true); ("C", true); ("A", false)])
    as (Hn & Hst & _ & _).
  - reflexivity.
  - reflexivity.
  - repeat constructor.
  - reflexivity.
  - destruct (Hboxes [("A", true); ("C", true)]) as (_ & Hst2 & _ & _).
    + reflexivity.
    + reflexivity.
    + repeat constructor.
    + reflexivity.
    + split; [exact Hn|]. split; [exact Hst|]. split; [exact Hst2|]. split.
      * apply (Htwice "A"); reflexivity.
      * apply (Hthrows "A" true []). reflexivity.
Defined.

End ScenarioFacts.

(** * Further properties *)

(** ** The validator *)

Section ValidationMore.
Import JSString.

Variable rules : list ValidationRule.
Variable js_syntax_error : string -> option JSValue.
Variable js_call : string -> string -> completion JSValue.

Local Abbreviation validateField :=
  (Form.validateField rules js_syntax_error js_call).
Local Abbreviation apply_rules := (Form.apply_rules js_syntax_error js_call).
Local Abbreviation rule_rejects := (Form.rule_rejects js_syntax_error js_call).
Local Abbreviation rule_console := (Form.rule_console js_syntax_error js_call).

Lemma apply_rules_message (l : list ValidationRule) (value : string) :
  exists msg log,
    apply_rules l value = (Normal msg, log) /\
    truthy msg = existsb (fun r => rule_rejects r value) l /\
    (msg <> "" ->
     exists rule, rule ∈ l /\ rule_rejects rule value = true /\
                  msg = Form.rule_message rule) /\
    length log + (if truthy msg then 1 else 0) <= length l /\
    Forall (fun e => is_creation_error e || is_execution_error e = true) log.
Proof.
  induction l as [|r l (msg & log & IH & Ht & Hr & Hlen & Hlog)].
  - exists "", []. split; [done|]. split; [done|]. split; [done|].
    split; [simpl; lia|constructor].
  - cbn [Form.apply_rules existsb length]. rewrite apply_rule_cases.
    destruct (rule_rejects r value) eqn:Hrej; cbn [Log.bind orb].
    + exists (Form.rule_message r), (rule_console r value ++ []).
      split; [done|]. split; [apply rule_message_truthy|]. split.
      { intros _. exists r. split; [apply list_elem_of_here|done]. }
      rewrite rule_message_truthy, app_nil_r.
      assert (rule_console r value = []) as ->.
      { revert Hrej. unfold Form.rule_rejects, Form.rule_console.
        destruct (js_syntax_error _); [done|]. by destruct (js_call _ _). }
      split; [simpl; lia|constructor].
    + rewrite IH. exists msg, (rule_console r value ++ log).
      split; [done|]. split; [done|]. split.
      { intros Hne. destruct (Hr Hne) as (rule & Hin & Hrule).
        exists rule. split; [by apply list_elem_of_further|done]. }
      assert (length (rule_console r value) <= 1 /\
              Forall
                (fun e => is_creation_error e || is_execution_error e = true)
                (rule_console r value)) as [Hc1 Hc2].
      { unfold Form.rule_console. destruct (js_syntax_error _).
        - split; [simpl; lia|by repeat constructor].
        - destruct (js_call _ _); (split; [simpl; lia|by repeat constructor]). }
      split; [rewrite length_app; simpl; lia|].
      apply Forall_app. by split.
Qed.

(** X1. [validateField] returns a message exactly when some rule of the
    field rejects the value; the message is then the message of a rule of
    the field that rejects it, never the empty string even when that rule
    has an empty prompt and description. *)
Theorem validateField_message_iff_rejected (value fieldId : string) fieldType :
  exists msg log,
    validateField value fieldId fieldType = (Normal msg, log) /\
    truthy msg =
      existsb (fun r => rule_rejects r value)
        (filter (fun r => field_id r = fieldId) rules) /\
    (msg <> "" ->
     exists rule, rule ∈ rules /\ field_id rule = fieldId /\
                  rule_rejects rule value = true /\
                  msg = Form.rule_message rule).
Proof.
  rewrite validateField_apply_rules.
  destruct (apply_rules_message (filter (fun r => field_id r = fieldId) rules)
              value) as (msg & log & H & Ht & Hr & _).
  exists msg, log. split; [done|]. split; [done|].
  intros Hne. destruct (Hr Hne) as (rule & Hin & Hrej & Hmsg).
  apply list_elem_of_filter in Hin as [Hid Hin]. by exists rule.
Qed.

(** X2. The console of one validation holds at most one entry per rule of
    the field, each of them a creation or an execution error, and when a
    message is returned at most one entry per rule before the rejecting
    one. *)
Theorem validateField_console_bound (value fieldId : string) fieldType :
  exists msg log,
    validateField value fieldId fieldType = (Normal msg, log) /\
    length log + (if truthy msg then 1 else 0)
      <= length (filter (fun r => field_id r = fieldId) rules) /\
    Forall (fun e => is_creation_error e || is_execution_error e = true) log.
Proof.
  rewrite validateField_apply_rules.
  destruct (apply_rules_message (filter (fun r => field_id r = fieldId) rules)
              value) as (msg & log & H & _ & _ & Hlen & Hlog).
  by exists msg, log.
Qed.

Lemma apply_rules_skip_unparsable (pre post : list ValidationRule)
    (rule : ValidationRule) (value : string) (e : JSValue) :
  Forall (fun r => rule_rejects r value = false) pre ->
  js_syntax_error (generated_code rule) = Some e ->
  apply_rules (pre ++ rule :: post) value =
    ((apply_rules post value).1,
     flat_map (fun r => rule_console r value) pre
     ++ ConsoleError "Validation creation error:" e
     :: (apply_rules post value).2).
Proof.
  intros Hpre He. induction Hpre as [|r pre Hr _ IH]; simpl.
  - rewrite apply_rule_cases.
    unfold Form.rule_rejects, Form.rule_console. rewrite He. simpl.
    by destruct (apply_rules post value).
  - rewrite apply_rule_cases, Hr. simpl. rewrite IH. simpl.
    by rewrite <- app_assoc.
Qed.

(** X3. A rule whose code does not parse is passed over: when no earlier
    rule of the field rejects the value, [validateField] writes one
    "Validation creation error" entry for it and goes on with the rules
    after it, whose outcome is the result. *)
Theorem validateField_unparsable_rule (value fieldId : string) fieldType
    (pre post : list ValidationRule) (rule : ValidationRule) (e : JSValue) :
  filter (fun r => field_id r = fieldId) rules = pre ++ rule :: post ->
  Forall (fun r => rule_rejects r value = false) pre ->
  js_syntax_error (generated_code rule) = Some e ->
  validateField value fieldId fieldType =
    ((apply_rules post value).1,
     flat_map (fun r => rule_console r value) pre
     ++ ConsoleError "Validation creation error:" e
     :: (apply_rules post value).2).
Proof.
  intros Heq Hpre He. rewrite validateField_apply_rules, Heq.
  by apply apply_rules_skip_unparsable.
Qed.

End ValidationMore.

(** X4. A rule for one field has no part in the validation of another: put
    anywhere into the rule set, it changes neither the result nor the
    console. *)
Theorem validateField_other_field_rule
    (js_syntax_error : string -> option JSValue)
    (js_call : string -> string -> completion JSValue)
    (pre post : list ValidationRule) (rule : ValidationRule)
    (value fieldId : string) fieldType :
  field_id rule <> fieldId ->
  Form.validateField (pre ++ rule :: post) js_syntax_error js_call
    value fieldId fieldType =
  Form.validateField (pre ++ post) js_syntax_error js_call
    value fieldId fieldType.
Proof.
  intros Hne. unfold Form.validateField.
  by rewrite !filter_app, filter_cons_False.
Qed.

(** ** Full-form validation and the field handlers *)

Section FormMore.
Import JSString.

Variable rules : list ValidationRule.
Variable js_syntax_error : string -> option JSValue.
Variable js_call : string -> string -> completion JSValue.

Local Abbreviation validateField :=
  (Form.validateField rules js_syntax_error js_call).
Local Abbreviation validateForm :=
  (Form.validateForm rules js_syntax_error js_call).
Local Abbreviation entry_error :=
  (Form.entry_error rules js_syntax_error js_call).
Local Abbreviation collect_errors :=
  (Form.collect_errors rules js_syntax_error js_call).
Local Abbreviation handleChange :=
  (Form.handleChange rules js_syntax_error js_call).
Local Abbreviation handleMultiCheckboxChange :=
  (Form.handleMultiCheckboxChange rules js_syntax_error js_call).
Local Abbreviation handleSingleCheckboxChange :=
  (Form.handleSingleCheckboxChange rules js_syntax_error js_call).

Lemma collect_errors_lookup (entries : Obj.t) (acc : gmap string string)
    (fieldId msg : string) :
  collect_errors entries acc !! fieldId = Some msg ->
  acc !! fieldId = Some msg \/
  exists entry, entry ∈ entries /\
                replace_char "_" "-" entry.1 = fieldId /\
                entry_error entry = msg /\ truthy msg = true.
Proof.
  revert acc. induction entries as [|e entries IH]; intros acc H; [by left|].
  unfold Form.collect_errors in H. cbn [fold_left] in H.
  apply IH in H as [H|(entry & Hin & Hk & Hm & Ht)].
  - destruct (truthy (entry_error e)) eqn:He; [|by left].
    destruct (decide (replace_char "_" "-" e.1 = fieldId)) as [Hk|Hk].
    + subst fieldId. rewrite lookup_insert_eq in H. injection H as <-.
      right. exists e. split; [apply list_elem_of_here|done].
    + rewrite lookup_insert_ne in H by done. by left.
  - right. exists entry. split; [by apply list_elem_of_further|done].
Qed.

(** X5. The error map built by a submit holds a field id exactly when some
    entry of the form data with that id has a message; every message in it
    is not empty and is the message of such an entry; and [hasErrors] is
    set exactly when the map is not empty. *)
Theorem validateForm_error_map (data : Obj.t) :
  exists newErrors hasErrors log,
    validateForm data ∅ false = (Normal (newErrors, hasErrors), log) /\
    (hasErrors = true <-> newErrors <> ∅) /\
    (forall fieldId msg,
        newErrors !! fieldId = Some msg ->
        msg <> "" /\
        exists entry, entry ∈ data /\
                      replace_char "_" "-" entry.1 = fieldId /\
                      entry_error entry = msg) /\
    (forall entry,
        entry ∈ data -> entry_error entry <> "" ->
        is_Some (newErrors !! replace_char "_" "-" entry.1)).
Proof.
  eexists _, _, _. split; [apply validateForm_spec|].
  cbn [orb]. split; [|split].
  - split.
    + intros He Hempty. apply existsb_exists in He as (entry & Hin & Ht).
      apply list_elem_of_In in Hin.
      destruct (collect_errors_contains rules js_syntax_error js_call
                  data ∅ entry Hin Ht) as (msg & Hm & _).
      rewrite Hempty in Hm. by rewrite lookup_empty in Hm.
    + intros Hne.
      destruct (existsb (fun e => truthy (entry_error e)) data) eqn:He;
        [done|].
      destruct Hne. by apply collect_errors_none.
  - intros fieldId msg H.
    apply collect_errors_lookup in H as [H|(entry & Hin & Hk & Hm & Ht)].
    + by rewrite lookup_empty in H.
    + split; [by destruct msg|]. by exists entry.
  - intros entry Hin He.
    destruct (collect_errors_contains rules js_syntax_error js_call
                data ∅ entry Hin) as (msg & Hm & _).
    + by destruct (entry_error entry).
    + by exists msg.
Qed.

(** X6. [handleChange] stores the raw value under the key of the field and
    leaves the other entries alone; it records the message of
    [validateField] under the field name when there is one and removes the
    entry of that name otherwise, leaving the errors of other fields
    alone. *)
Theorem handleChange_effect (name value inputType : string) (w : World) :
  exists msg log,
    validateField value name (Some inputType) = (Normal msg, log) /\
    let w' := (handleChange name value inputType w).2 in
    let fieldKey := replace_char "-" "_" name in
    Obj.get fieldKey (formData (state w')) = Some value /\
    (forall k,
        k <> fieldKey ->
        Obj.get k (formData (state w')) = Obj.get k (formData (state w))) /\
    errors (state w') !! name = (if truthy msg then Some msg else None) /\
    (forall n, n <> name -> errors (state w') !! n = errors (state w) !! n) /\
    console w' = console w ++ log.
Proof.
  destruct (validateField_normal rules js_syntax_error js_call value name
              (Some inputType)) as (msg & log & Hv).
  exists msg, log. split; [done|].
  unfold Form.handleChange, Eff.bind, Eff.lift. rewrite Hv. cbn [fst snd].
  unfold Form.report_error. destruct (truthy msg); simpl.
  - split; [apply SplitJoinFacts.get_set|].
    split; [intros k Hk; by apply SplitJoinFacts.get_set_ne|].
    split; [apply lookup_insert_eq|].
    split; [|done]. intros n Hn. by apply lookup_insert_ne.
  - split; [apply SplitJoinFacts.get_set|].
    split; [intros k Hk; by apply SplitJoinFacts.get_set_ne|].
    split; [apply lookup_delete_eq|].
    split; [|done]. intros n Hn. by apply lookup_delete_ne.
Qed.

(** X7. No field handler changes the status, either guard, the calls made
    to [onSubmit] or the timers: editing never submits and never unlocks or
    locks the form; this holds also for the multi-checkbox handler when it
    throws. *)
Theorem field_handlers_frame (name value inputType : string) (checked : bool)
    (w : World) :
  same_frame w (handleChange name value inputType w).2 /\
  same_frame w (handleSingleCheckboxChange name checked w).2 /\
  same_frame w (handleMultiCheckboxChange name value checked w).2 /\
  same_frame w (Form.handlePhoneChange name value w).2 /\
  same_frame w (Form.handleCurrencyChange name value w).2 /\
  same_frame w (Form.handleRichTextChange value name w).2.
Proof.
  split; [|split; [|split; [|split; [|split]]]].
  - destruct (handleChange_cases rules js_syntax_error js_call
                name value inputType w) as (msg & log & _ & ->).
    apply edited_frame.
  - destruct (handleSingleCheckboxChange_cases rules js_syntax_error js_call
                name checked w) as (msg & log & _ & ->).
    apply edited_frame.
  - apply handleMultiCheckboxChange_frame.
  - by unfold same_frame.
  - by unfold same_frame.
  - by unfold same_frame.
Qed.

End FormMore.

(** ** Submission: failure, success and retry *)

Section SubmitMore.
Import JSString.

Variable rules : list ValidationRule.
Variable js_syntax_error : string -> option JSValue.
Variable js_call : string -> string -> completion JSValue.
Variable onSubmit_throws : Obj.t -> option JSValue.

Local Abbreviation handleSubmit :=
  (Form.handleSubmit rules js_syntax_error js_call onSubmit_throws).
Local Abbreviation entry_error :=
  (Form.entry_error rules js_syntax_error js_call).
Local Abbreviation entry_console :=
  (Form.entry_console rules js_syntax_error js_call).
Local Abbreviation collect_errors :=
  (Form.collect_errors rules js_syntax_error js_call).
Local Abbreviation step :=
  (Form.step rules js_syntax_error js_call onSubmit_throws).
Local Abbreviation run :=
  (Form.run rules js_syntax_error js_call onSubmit_throws).

Lemma handleSubmit_thrown (rendered : State) (w : World) (e : JSValue) :
  submissionInProgress w || isSubmitting rendered = false ->
  existsb (fun e => truthy (entry_error e)) (formData rendered) = false ->
  onSubmit_throws (formData rendered) = Some e ->
  handleSubmit rendered w =
    (Normal Form.Finished,
     after_failure (flat_map entry_console (formData rendered))
       [formData rendered] e w).
Proof.
  intros Hg He Ht. unfold Form.handleSubmit. rewrite Hg.
  unfold Eff.bind, Form.try_block, Eff.lift, Eff.bind. simpl.
  rewrite validateForm_spec. simpl. rewrite He. simpl.
  unfold Form.call_onSubmit. rewrite Ht. done.
Qed.

(** The four ways a call of [handleSubmit] can go. *)
Lemma handleSubmit_cases (rendered : State) (w : World) :
  let data := formData rendered in
  let log := flat_map entry_console data in
  handleSubmit rendered w =
    (Normal Form.Finished,
     logged [ConsoleLog "Submission already in progress"] w) \/
  handleSubmit rendered w =
    (Normal Form.Finished, turned_down log (collect_errors data ∅) w) \/
  handleSubmit rendered w = (Normal Form.AwaitingSubmit, at_await log data w) \/
  exists e,
    handleSubmit rendered w
    = (Normal Form.Finished, after_failure log [data] e w).
Proof.
  intros data log.
  destruct (submissionInProgress w || isSubmitting rendered) eqn:Hg.
  { left. by apply handleSubmit_rejected. }
  destruct (existsb (fun e => truthy (entry_error e)) data) eqn:He.
  { right; left. by apply handleSubmit_invalid. }
  destruct (onSubmit_throws data) as [e|] eqn:Ht.
  - right; right; right. exists e. by apply handleSubmit_thrown.
  - right; right; left. by apply handleSubmit_valid.
Qed.

Lemma handleSubmit_resume_fulfilled (w : World) :
  Form.handleSubmit_resume (Normal tt) w = (Normal tt, after_success w).
Proof. reflexivity. Qed.

Lemma handleSubmit_resume_rejected (e : JSValue) (w : World) :
  (Form.handleSubmit_resume (Throw e) w).2 = after_failure [] [] e w.
Proof.
  unfold after_failure. simpl. by rewrite !app_nil_r.
Qed.

(** X8. When [onSubmit] throws before it returns, [handleSubmit] ends at
    once: the status shows the message of the error, or "Failed to submit
    form" for a thrown value that is no [Error]; both guards are down
    again; the form data and the error map are kept; the data went to
    [onSubmit] once. *)
Theorem handleSubmit_onSubmit_throws (rendered : State) (w : World)
    (e : JSValue) :
  submissionInProgress w || isSubmitting rendered = false ->
  (forall entry, entry ∈ formData rendered -> entry_error entry = "") ->
  onSubmit_throws (formData rendered) = Some e ->
  exists w',
    handleSubmit rendered w = (Normal Form.Finished, w') /\
    status (state w') =
      {| type := StatusError;
         message := match e with
                    | VError m => m
                    | _ => "Failed to submit form"
                    end |} /\
    isSubmitting (state w') = false /\
    submissionInProgress w' = false /\
    formData (state w') = formData (state w) /\
    errors (state w') = errors (state w) /\
    submitted w' = submitted w ++ [formData rendered].
Proof.
  intros Hg He Ht. eexists. split.
  - apply handleSubmit_thrown; [done| |done].
    by apply existsb_entry_error_false, Forall_forall.
  - done.
Qed.

(** X9. Submitting never changes the form data: not when the request is
    dropped, not when validation turns it down, not at the [await], and not
    when the awaited call settles, whichever way. *)
Theorem submit_keeps_formData (rendered : State) (w : World)
    (settled : completion unit) :
  formData (state (handleSubmit rendered w).2) = formData (state w) /\
  formData (state (Form.handleSubmit_resume settled w).2) = formData (state w).
Proof.
  split.
  - destruct (handleSubmit_cases rendered w) as [H|[H|[H|[e H]]]];
      by rewrite H.
  - by destruct settled.
Qed.

(** X10. After a rejected submission the user can try again: the status
    shows the failure, the form data and the error map are as they were,
    and a second submit by the next render reaches [onSubmit] with the same
    data. *)
Theorem retry_after_failure (w : World) (e : JSValue) :
  submissionInProgress w || isSubmitting (state w) = false ->
  (forall entry, entry ∈ formData (state w) -> entry_error entry = "") ->
  onSubmit_throws (formData (state w)) = None ->
  let w1 := (handleSubmit (state w) w).2 in
  let w2 := (Form.handleSubmit_resume (Throw e) w1).2 in
  status (state w2) =
    {| type := StatusError; message := caught_message e |} /\
  formData (state w2) = formData (state w) /\
  errors (state w2) = errors (state w) /\
  exists w3,
    handleSubmit (state w2) w2 = (Normal Form.AwaitingSubmit, w3) /\
    submitted w3 =
      submitted w ++ [formData (state w); formData (state w)].
Proof.
  intros Hg He Ht w1 w2.
  assert (existsb (fun e => truthy (entry_error e)) (formData (state w))
          = false) as Hex.
  { by apply existsb_entry_error_false, Forall_forall. }
  subst w2 w1. rewrite (handleSubmit_valid _ _ _ _ _ _ Hg Hex Ht).
  cbn [snd]. rewrite handleSubmit_resume_rejected.
  split; [done|]. split; [done|]. split; [done|].
  eexists. split.
  - by apply handleSubmit_valid.
  - simpl. by rewrite app_nil_r, <- app_assoc.
Qed.

Lemma same_frame_trans (w1 w2 w3 : World) :
  same_frame w1 w2 -> same_frame w2 w3 -> same_frame w1 w3.
Proof.
  unfold same_frame.
  intros (F1 & F2 & F3 & F4 & F5 & F6) (G1 & G2 & G3 & G4 & G5 & G6).
  rewrite G1, G2, G3, G4, G5, G6. done.
Qed.

(** What an edit event does to a session: it keeps the frame. *)
Lemma edit_step (s : Form.Session) (ev : Form.Event) :
  is_edit ev = true ->
  Form.awaiting (step s ev) = Form.awaiting s /\
  same_frame (Form.world s) (Form.world (step s ev)).
Proof.
  intros Hev.
  destruct ev as [r|o|n v t|n c|n v c|c f|n v|n v|n b| |]; try done;
    cbn [Form.step Form.awaiting Form.world]; (split; [done|]).
  - destruct (handleChange_cases rules js_syntax_error js_call n v t
                (Form.world s)) as (msg & log & _ & ->).
    apply edited_frame.
  - destruct (handleSingleCheckboxChange_cases rules js_syntax_error js_call
                n c (Form.world s)) as (msg & log & _ & ->).
    apply edited_frame.
  - apply handleMultiCheckboxChange_frame.
Qed.

(** The commit of a render in which the status is no new object does
    nothing. *)
Lemma quiet_step (s : Form.Session) (ev : Form.Event) :
  is_edit_or_commit ev = true ->
  status_changed (Form.world s) = false ->
  Form.awaiting (step s ev) = Form.awaiting s /\
  same_frame (Form.world s) (Form.world (step s ev)).
Proof.
  intros Hev Hq. destruct (is_edit ev) eqn:He; [by apply edit_step|].
  destruct ev; try done.
  cbn [Form.step Form.awaiting Form.world]. unfold Form.status_effect.
  rewrite Hq. by unfold same_frame.
Qed.

Lemma edits_run (s : Form.Session) (edits : list Form.Event) :
  Forall (fun ev => is_edit ev = true) edits ->
  Form.awaiting (run s edits) = Form.awaiting s /\
  same_frame (Form.world s) (Form.world (run s edits)).
Proof.
  intros H. revert s. induction H as [|ev edits Hev _ IH]; intros s.
  - by unfold same_frame.
  - cbn [Form.run fold_left].
    destruct (edit_step s ev Hev) as (Ha & F).
    destruct (IH (step s ev)) as (Ha' & G).
    unfold Form.run in *. rewrite Ha', Ha. split; [done|].
    by eapply same_frame_trans.
Qed.

Lemma quiet_run (s : Form.Session) (events : list Form.Event) :
  Forall (fun ev => is_edit_or_commit ev = true) events ->
  status_changed (Form.world s) = false ->
  Form.awaiting (run s events) = Form.awaiting s /\
  same_frame (Form.world s) (Form.world (run s events)).
Proof.
  intros H. revert s. induction H as [|ev events Hev _ IH]; intros s Hq.
  - by unfold same_frame.
  - cbn [Form.run fold_left].
    destruct (quiet_step s ev Hev Hq) as (Ha & F).
    destruct (IH (step s ev)) as (Ha' & G).
    { destruct F as (_ & _ & _ & _ & _ & ->). exact Hq. }
    unfold Form.run in *. rewrite Ha', Ha. split; [done|].
    by eapply same_frame_trans.
Qed.

(** X11. After a fulfilled submission the status shows the success, the
    error map is empty and both guards are down, the form data still there,
    and the reset timer is set.  The next commit sets the timer of the
    effect on [status] behind it.  Whatever is edited meanwhile, the reset
    timer then empties the form data, edits included, with the success
    still shown; and the timer of the effect then blanks the status. *)
Theorem success_then_reset (s : Form.Session)
    (before between later : list Form.Event) :
  0 < Form.awaiting s ->
  timers (Form.world s) = [] ->
  Forall (fun ev => is_edit ev = true) before ->
  Forall (fun ev => is_edit_or_commit ev = true) between ->
  Forall (fun ev => is_edit_or_commit ev = true) later ->
  let settled := step s (Form.SubmitSettled (Normal tt)) in
  let committed := run settled (before ++ [Form.Commit]) in
  let reset := run committed (between ++ [Form.TimerFired]) in
  let final := run reset (later ++ [Form.TimerFired]) in
  Form.world settled = after_success (Form.world s) /\
  timers (Form.world committed)
    = [(ResetFormData, 5000%Z); (ClearStatus, 5000%Z)] /\
  (formData (state (Form.world reset)) = [] /\
   status (state (Form.world reset)) =
     {| type := StatusSuccess; message := "Form submitted successfully!" |} /\
   timers (Form.world reset) = [(ClearStatus, 5000%Z)]) /\
  (status (state (Form.world final)) = {| type := StatusNone; message := "" |}
   /\ timers (Form.world final) = []).
Proof.
  intros Ha Ht Hbefore Hbetween Hlater settled committed reset final.
  assert (Form.world settled = after_success (Form.world s)) as Hs.
  { subst settled. simpl. destruct (Form.awaiting s); [lia|done]. }
  split; [done|].
  (* the commit *)
  assert (status (state (Form.world committed)) =
            {| type := StatusSuccess;
               message := "Form submitted successfully!" |} /\
          timers (Form.world committed)
            = [(ResetFormData, 5000%Z); (ClearStatus, 5000%Z)] /\
          status_changed (Form.world committed) = false) as (C1 & C2 & C3).
  { subst committed. unfold Form.run. rewrite fold_left_app. cbn [fold_left].
    destruct (edits_run settled before Hbefore)
      as (_ & F1 & _ & _ & _ & F5 & F6).
    unfold Form.run in F1, F5, F6. rewrite Hs in F1, F5, F6.
    cbn [after_success state status timers status_changed] in F1, F5, F6.
    rewrite Ht in F5. cbn [app] in F5.
    cbn [Form.step Form.world]. unfold Form.status_effect.
    rewrite F6, F5, F1. done. }
  split; [done|].
  (* the reset timer *)
  assert (formData (state (Form.world reset)) = [] /\
          status (state (Form.world reset)) =
            {| type := StatusSuccess;
               message := "Form submitted successfully!" |} /\
          timers (Form.world reset) = [(ClearStatus, 5000%Z)] /\
          status_changed (Form.world reset) = false) as (R1 & R2 & R3 & R4).
  { subst reset. unfold Form.run. rewrite fold_left_app. cbn [fold_left].
    destruct (quiet_run committed between Hbetween C3)
      as (_ & F1 & _ & _ & _ & F5 & F6).
    unfold Form.run in F1, F5, F6. rewrite C1 in F1. rewrite C2 in F5.
    rewrite C3 in F6.
    cbn [Form.step Form.world]. unfold Form.fire_timer.
    rewrite F5. cbn. by rewrite F1, F6. }
  split; [done|].
  (* the timer of the effect *)
  subst final. unfold Form.run. rewrite fold_left_app. cbn [fold_left].
  destruct (quiet_run reset later Hlater R4) as (_ & F1 & _ & _ & _ & F5 & F6).
  unfold Form.run in F1, F5, F6. rewrite R3 in F5.
  cbn [Form.step Form.world]. unfold Form.fire_timer.
  rewrite F5. done.
Qed.

Lemma guards_step (s : Form.Session) (ev : Form.Event) :
  isSubmitting (state (Form.world s)) = submissionInProgress (Form.world s) ->
  isSubmitting (state (Form.world (step s ev)))
    = submissionInProgress (Form.world (step s ev)).
Proof.
  intros J. destruct (is_edit ev) eqn:Hev.
  { destruct (edit_step s ev Hev) as (_ & (_ & -> & -> & _)). exact J. }
  destruct ev as [r|o|n v t|n c|n v c|c f|n v|n v|n b| |]; try done.
  - cbn [Form.step].
    destruct (handleSubmit_cases r (Form.world s)) as [H|[H|[H|[e H]]]];
      rewrite H; simpl; done.
  - cbn [Form.step]. destruct (Form.awaiting s); [done|]. by destruct o.
  - cbn [Form.step Form.world]. unfold Form.status_effect.
    by destruct (status_changed (Form.world s)).
  - cbn [Form.step Form.world]. unfold Form.fire_timer.
    by destruct (timers (Form.world s)) as [|[[] ms] rest].
Qed.

(** X12. Between the events of a session the current value of the
    [isSubmitting] state, the one the next render shows, equals the
    [submissionInProgress] ref, and both are up exactly while a call of
    [handleSubmit] is at its [await]. *)
Theorem guards_agree (initialData : Obj.t) (events : list Form.Event) :
  let s := run (Form.mount initialData) events in
  isSubmitting (state (Form.world s)) = submissionInProgress (Form.world s) /\
  (isSubmitting (state (Form.world s)) = true <-> Form.awaiting s = 1).
Proof.
  intros s.
  assert (isSubmitting (state (Form.world s))
          = submissionInProgress (Form.world s)) as J.
  { subst s. generalize (eq_refl : isSubmitting
                           (state (Form.world (Form.mount initialData)))
                         = submissionInProgress
                             (Form.world (Form.mount initialData))).
    generalize (Form.mount initialData).
    induction events as [|ev events IH]; intros s0 J0; [done|].
    cbn [Form.run fold_left]. apply IH. by apply guards_step. }
  split; [done|]. rewrite J.
  assert (Form.awaiting s
          = if submissionInProgress (Form.world s) then 1 else 0) as ->
    by (by apply run_invariant).
  by destruct (submissionInProgress (Form.world s)).
Qed.

End SubmitMore.

(** ** Field keys *)

Module KeyMore.
Import JSString.

(** X14. Turning a field name into its key and the key back into a field id
    gives the name again exactly when the name has no underscore: for such
    names [handleSubmit] files an error under the id [handleChange] uses,
    for a name with an underscore it files it under another id. *)
Theorem field_key_round_trip (name : string) :
  replace_char "_" "-" (replace_char "-" "_" name) = name <->
  all (fun c => negb (Ascii.eqb c "_")) name = true.
Proof.
  induction name as [|c name IH]; [done|].
  cbn [replace_char all].
  destruct (Ascii.eqb_spec c "-") as [->|Hd].
  - cbn. rewrite <- IH. split; [by intros [= ->]|by intros ->].
  - destruct (Ascii.eqb_spec c "_") as [->|Hu]; cbn.
    + split; [by intros [= ? ?]|done].
    + rewrite <- IH. split; [by intros [= ->]|by intros ->].
Qed.

End KeyMore.

(** ** More on [formatPhoneNumber] *)

Module PhoneMore.
Import JSString JSStringFacts Regex Layout Formatters PhoneFacts.

Lemma digits_of_layout (d : string) :
  all is_digit d = true -> keep is_digit (phone_layout d) = d.
Proof.
  intros Hd. unfold phone_layout.
  destruct (String.length d <=? 3); [by apply keep_all|].
  destruct (String.length d <=? 6).
  - rewrite !keep_append.
    change (keep is_digit "(") with "". change (keep is_digit ") ") with "".
    rewrite !append_nil_l, !keep_all by auto using all_take, all_drop.
    apply take_drop.
  - rewrite !keep_append.
    change (keep is_digit "(") with "". change (keep is_digit ") ") with "".
    change (keep is_digit "-") with "".
    rewrite !append_nil_l, !keep_all by auto using all_take, all_drop.
    change 6 with (3 + 3). rewrite <- drop_drop.
    by rewrite !take_drop.
Qed.

Lemma digits_of_formatted (value : string) :
  keep is_digit (formatPhoneNumber value) = keep is_digit value.
Proof.
  rewrite formatPhoneNumber_cases.
  destruct (String.length (keep is_digit value) <=? 10); [|done].
  apply digits_of_layout, all_keep.
Qed.

Lemma same_digits_same_format (v1 v2 : string) :
  String.length (keep is_digit v1) <= 10 ->
  keep is_digit v1 = keep is_digit v2 ->
  formatPhoneNumber v1 = formatPhoneNumber v2.
Proof.
  intros Hlen Heq. rewrite !formatPhoneNumber_cases, <- Heq.
  by destruct (Nat.leb_spec (String.length (keep is_digit v1)) 10); [|lia].
Qed.

(** X15. [formatPhoneNumber] neither drops nor adds nor reorders a digit,
    whatever the input: the digits of the result are the digits of the
    input. *)
Theorem formatPhoneNumber_keeps_digits (value : string) :
  keep is_digit (formatPhoneNumber value) = keep is_digit value.
Proof. apply digits_of_formatted. Qed.

(** X16. For at most ten digits the result depends on the digits alone:
    two inputs with the same digits are formatted alike, whatever else they
    contain. *)
Theorem formatPhoneNumber_by_digits_alone (v1 v2 : string) :
  String.length (keep is_digit v1) <= 10 ->
  keep is_digit v1 = keep is_digit v2 ->
  formatPhoneNumber v1 = formatPhoneNumber v2.
Proof. apply same_digits_same_format. Qed.

(** X17. Typing goes on where formatting left off: formatting the formatted
    text with more characters typed after it gives what formatting the raw
    text with those characters gives, as long as there are at most ten
    digits in all. *)
Theorem formatPhoneNumber_typing (s typed : string) :
  String.length (keep is_digit (s +:+ typed)) <= 10 ->
  formatPhoneNumber (formatPhoneNumber s +:+ typed) =
    formatPhoneNumber (s +:+ typed).
Proof.
  intros Hlen. symmetry. apply same_digits_same_format; [done|].
  by rewrite !keep_append, digits_of_formatted.
Qed.

Lemma all_impl (p q : ascii -> bool) (s : string) :
  (forall c, p c = true -> q c = true) -> all p s = true -> all q s = true.
Proof.
  intros Hpq. induction s as [|c s IH]; [done|]. cbn [all].
  intros [Hc Hs]%andb_true_iff. by rewrite (Hpq c Hc), IH.
Qed.

Lemma is_digit_phone_char (c : ascii) :
  is_digit c = true -> is_phone_char c = true.
Proof. unfold is_phone_char. by intros ->. Qed.

(** X18. With at most ten digits in the input the result is made of digits,
    parentheses, a space and a hyphen only, and is at most fourteen
    characters long. *)
Theorem formatPhoneNumber_shape (value : string) :
  String.length (keep is_digit value) <= 10 ->
  all is_phone_char (formatPhoneNumber value) = true /\
  String.length (formatPhoneNumber value) <= 14.
Proof.
  intros Hlen. rewrite formatPhoneNumber_cases.
  destruct (Nat.leb_spec (String.length (keep is_digit value)) 10); [|lia].
  set (d := keep is_digit value) in *.
  assert (all is_phone_char d = true) as Hd
    by (apply (all_impl is_digit); [apply is_digit_phone_char|apply all_keep]).
  assert (forall n, all is_phone_char (take n d) = true) as Ht
    by (intros n; by apply all_take).
  assert (forall n, all is_phone_char (drop n d) = true) as Hdr
    by (intros n; by apply all_drop).
  assert (forall n m, all is_phone_char (take n (drop m d)) = true) as Htd
    by (intros n m; by apply all_take).
  unfold phone_layout.
  destruct (Nat.leb_spec (String.length d) 3); [split; [done|lia]|].
  destruct (Nat.leb_spec (String.length d) 6).
  - split.
    + rewrite !all_append, Ht, Hdr. done.
    + rewrite !length_append, length_take, length_drop.
      change (String.length "(") with 1. change (String.length ") ") with 2.
      lia.
  - split.
    + rewrite !all_append, Ht, Htd, Hdr. done.
    + rewrite !length_append, !length_take, !length_drop.
      change (String.length "(") with 1. change (String.length ") ") with 2.
      change (String.length "-") with 1. lia.
Qed.

End PhoneMore.

(** ** More on the currency handler *)

Module CurrencyMore.
Import JSString JSStringFacts.

Lemma string_of_uint_digits (d : Decimal.uint) :
  all is_digit (DecimalString.NilEmpty.string_of_uint d) = true.
Proof. induction d; simpl; done. Qed.

Lemma decimal_digits (n : Z) :
  all is_digit (JSNumber.decimal n) = true /\
  1 <= String.length (JSNumber.decimal n).
Proof.
  unfold JSNumber.decimal, DecimalString.NilZero.string_of_uint.
  destruct (N.to_uint (Z.to_N n)) eqn:E; simpl;
    (split; [try done; apply string_of_uint_digits|lia]).
Qed.

Lemma zeros_digits (n : nat) :
  all is_digit (String.concat "" (replicate n "0")) = true /\
  String.length (String.concat "" (replicate n "0")) = n.
Proof.
  induction n as [|n [IH1 IH2]]; [done|].
  destruct n as [|n]; [done|].
  change (String.concat "" (replicate (S (S n)) "0"))
    with ("0" +:+ "" +:+ String.concat "" (replicate (S n) "0")).
  rewrite !all_append, !length_append, IH1, IH2. done.
Qed.

Lemma starts_digit_append (a b : string) :
  all is_digit a = true -> 1 <= String.length a ->
  starts_like_number (a +:+ b) = true.
Proof.
  destruct a as [|c a]; simpl; [lia|].
  intros [Hc _]%andb_true_iff _. rewrite ?append_cons. simpl. by rewrite Hc.
Qed.

Lemma toFixed2_starts_like_number (neg : bool) (m : N) (e : Z) :
  starts_like_number (JSNumber.toFixed2 (JSNumber.Fin neg m e)) = true.
Proof.
  unfold JSNumber.toFixed2.
  destruct (JSNumber.ratio m e) as [num den].
  assert (forall t, (forall s, s = "" -> starts_like_number (s +:+ t) = true) ->
            starts_like_number
              ((if neg && negb (m =? 0)%N then "-" else "") +:+ t) = true)
    as Hsign.
  { intros t Ht. destruct (neg && negb (m =? 0)%N); [done|by apply Ht]. }
  destruct (10 ^ 21 * den <=? num)%Z.
  - apply Hsign. intros s ->. rewrite append_nil_l.
    unfold JSNumber.to_string_exponent.
    destruct (JSNumber.shortest_digits _ _ _ _) as [[s0 k] n].
    destruct (decimal_digits s0) as [Hd Hl].
    destruct (k =? 1)%Z.
    + by apply starts_digit_append.
    + apply starts_digit_append.
      * by apply all_take.
      * rewrite length_take. lia.
  - apply Hsign. intros s ->. rewrite append_nil_l.
    set (m0 := JSNumber.decimal _).
    assert (all is_digit m0 = true /\ 1 <= String.length m0) as [Hd Hl]
      by apply decimal_digits.
    set (m1 := if String.length m0 <=? 2 then _ else _).
    assert (all is_digit m1 = true /\ 3 <= String.length m1) as [Hm1 Hl1].
    { subst m1. destruct (Nat.leb_spec (String.length m0) 2) as [Hk|Hk];
        [|split; [done|lia]].
      destruct (zeros_digits (3 - String.length m0)) as [Hz1 Hz2].
      rewrite all_append, length_append, Hz1, Hz2, Hd. split; [done|lia]. }
    apply starts_digit_append.
    + by apply all_take.
    + rewrite length_take. lia.
Qed.

(** A finite number below [10^21] is printed as an optional minus sign,
    digits, a point and two digits. *)
Lemma toFixed2_shape (neg : bool) (m : N) (e : Z) :
  ((JSNumber.ratio m e).1 < 10 ^ 21 * (JSNumber.ratio m e).2)%Z ->
  exists sign a b,
    JSNumber.toFixed2 (JSNumber.Fin neg m e) = sign +:+ a +:+ "." +:+ b /\
    (sign = "" \/ sign = "-") /\
    all is_digit a = true /\ 1 <= String.length a /\
    all is_digit b = true /\ String.length b = 2.
Proof.
  intros H. unfold JSNumber.toFixed2.
  destruct (JSNumber.ratio m e) as [num den]. cbn [fst snd] in H.
  destruct (Z.leb_spec (10 ^ 21 * den) num) as [Hle|_]; [lia|].
  set (m0 := JSNumber.decimal _).
  assert (all is_digit m0 = true /\ 1 <= String.length m0) as [Hd Hl]
    by apply decimal_digits.
  set (m1 := if String.length m0 <=? 2 then _ else _).
  assert (all is_digit m1 = true /\ 3 <= String.length m1) as [Hm1 Hl1].
  { subst m1. destruct (Nat.leb_spec (String.length m0) 2) as [Hk|Hk];
      [|split; [done|lia]].
    destruct (zeros_digits (3 - String.length m0)) as [Hz1 Hz2].
    rewrite all_append, length_append, Hz1, Hz2, Hd. split; [done|lia]. }
  eexists _, _, _. split; [reflexivity|].
  split; [destruct (neg && negb (m =? 0)%N); auto|].
  split; [by apply all_take|]. split; [rewrite length_take; lia|].
  split; [by apply all_drop|]. rewrite length_drop. lia.
Qed.

(** X19. When the input parses to a finite number below [10^21], the
    currency handler stores an optional minus sign, at least one digit, a
    point and exactly two digits. *)
Theorem handleCurrencyChange_two_decimals (name value : string) (w : World)
    (neg : bool) (m : N) (e : Z) :
  JSNumber.parseFloat value = JSNumber.Fin neg m e ->
  ((JSNumber.ratio m e).1 < 10 ^ 21 * (JSNumber.ratio m e).2)%Z ->
  exists sign a b,
    Obj.get (replace_char "-" "_" name)
      (formData (state (Form.handleCurrencyChange name value w).2))
      = Some (sign +:+ a +:+ "." +:+ b) /\
    (sign = "" \/ sign = "-") /\
    all is_digit a = true /\ 1 <= String.length a /\
    all is_digit b = true /\ String.length b = 2.
Proof.
  intros Hp Hr. destruct (toFixed2_shape neg m e Hr) as (sign & a & b & Ht & H).
  exists sign, a, b. split; [|exact H].
  unfold Form.handleCurrencyChange. rewrite Hp, Ht. simpl.
  apply SplitJoinFacts.get_set.
Qed.

End CurrencyMore.

Module CurrencyNaN.
Import JSString JSStringFacts.

Lemma round_binary64_not_NaN (neg : bool) (num den : Z) :
  JSNumber.round_binary64 neg num den <> JSNumber.NaN.
Proof.
  unfold JSNumber.round_binary64.
  destruct (num =? 0)%Z; [done|].
  repeat match goal with
         | |- context [let '(_, _) := ?p in _] => destruct p
         | |- context [if ?b then _ else _] => destruct b
         end; done.
Qed.

Lemma span_digits_head (s : string) :
  JSNumber.span_digits s =
    match s with
    | String c r =>
        if is_digit c
        then (String c (JSNumber.span_digits r).1, (JSNumber.span_digits r).2)
        else ("", s)
    | EmptyString => ("", "")
    end.
Proof.
  destruct s as [|c r]; [done|]. cbn [JSNumber.span_digits].
  destruct (is_digit c); [|done]. by destruct (JSNumber.span_digits r).
Qed.

Lemma parseFloat_NaN_iff (input : string) :
  JSNumber.parseFloat input = JSNumber.NaN <->
  has_numeric_prefix input = false.
Proof.
  unfold JSNumber.parseFloat, has_numeric_prefix.
  destruct (JSNumber.split_sign (JSNumber.trim_start input)) as [neg s1].
  cbn [snd].
  destruct (String.prefix "Infinity" s1) eqn:Hinf; [done|]. cbn [orb].
  rewrite (span_digits_head s1).
  destruct s1 as [|c r]; [done|].
  destruct (is_digit c) eqn:Hc.
  - cbn [orb]. destruct (JSNumber.span_digits r).2 as [|c2 r2].
    + rewrite append_nil_r.
      destruct (0 <=? _)%Z; split; try done;
        intros H; by apply round_binary64_not_NaN in H.
    + destruct (match String c2 r2 with
                | String "."%char r0 => JSNumber.span_digits r0
                | _ => ("", String c2 r2)
                end) as [fp s3].
      rewrite append_cons.
      destruct (0 <=? _)%Z; split; try done;
        intros H; by apply round_binary64_not_NaN in H.
  - cbn [orb].
    destruct (Ascii.eqb_spec c ".") as [->|Hdot].
    + cbn [andb]. rewrite (span_digits_head r).
      destruct r as [|d r']; [done|].
      destruct (is_digit d); [|done].
      rewrite append_nil_l.
      destruct (0 <=? _)%Z; split; try done;
        intros H; by apply round_binary64_not_NaN in H.
    + cbn [andb].
      assert (match String c r with
              | String "."%char r0 => JSNumber.span_digits r0
              | _ => ("", String c r)
              end = ("", String c r)) as ->; [|done].
      destruct c as [[] [] [] [] [] [] [] []]; done.
Qed.

Lemma toFixed2_NaN_iff (x : JSNumber.t) :
  JSNumber.toFixed2 x = "NaN" <-> x = JSNumber.NaN.
Proof.
  destruct x as [|neg|neg m e]; [done|by destruct neg|].
  split; [|done]. intros H.
  pose proof (CurrencyMore.toFixed2_starts_like_number neg m e) as Hs.
  by rewrite H in Hs.
Qed.

(** X20. The currency handler stores the text ["NaN"] exactly for the
    inputs in which [parseFloat] finds no number: those that, after leading
    white space and an optional sign, start neither with [Infinity], nor
    with a digit, nor with a point and a digit. *)
Theorem handleCurrencyChange_NaN_iff (name value : string) (w : World) :
  Obj.get (replace_char "-" "_" name)
    (formData (state (Form.handleCurrencyChange name value w).2))
    = Some "NaN" <->
  has_numeric_prefix value = false.
Proof.
  unfold Form.handleCurrencyChange. simpl.
  rewrite SplitJoinFacts.get_set, <- parseFloat_NaN_iff, <- toFixed2_NaN_iff.
  split; [by intros [= ->]|by intros ->].
Qed.

End CurrencyNaN.

(** ** File fields *)

Module FilesMore.
Import Files.

Lemma images_chosen_cons (ev : Event) (events : list Event) :
  images_chosen (ev :: events) =
    (match ev with
     | FileChange _ (file :: _) =>
         if String.prefix "image/" (file_type file) then 1 else 0
     | _ => 0
     end) + images_chosen events.
Proof.
  unfold images_chosen. cbn [List.filter].
  destruct ev as [name [|file files]|i]; try done.
  by destruct (String.prefix "image/" (file_type file)).
Qed.

(** No handler revokes a URL: a run of events only adds the URLs it
    creates, numbered on from [next_url]. *)
Lemma run_live_urls (w : World) (events : list Event) :
  next_url (run w events) = next_url w + images_chosen events /\
  live_urls (run w events) =
    live_urls w ++ seq (next_url w) (images_chosen events).
Proof.
  revert w. induction events as [|ev events IH]; intros w.
  - unfold images_chosen. simpl. by rewrite Nat.add_0_r, app_nil_r.
  - cbn [run fold_left]. fold (run (step w ev) events).
    destruct (IH (step w ev)) as [-> ->]. rewrite images_chosen_cons.
    destruct ev as [name [|file files]|i]; cbn [step].
    + done.
    + unfold handleFileChange.
      destruct (String.prefix "image/" (file_type file)); cbn.
      * split; [lia|]. by rewrite <- app_assoc.
      * done.
    + unfold onloadend. by destruct (reading w !! i) as [[k f]|].
Qed.

(** X21. Object URLs are never released: every URL made for an image
    preview is still live after any run of file events and after the
    component unmounts, those of superseded previews included; the cleanup
    at unmount goes through the empty [filePreview] of the first render and
    revokes nothing. *)
Theorem object_urls_never_revoked (initialData : list (string * option string))
    (events : list Event) :
  let w := run (mount initialData) events in
  live_urls (unmount w) = seq 0 (images_chosen events) /\
  length (live_urls (unmount w)) = images_chosen events.
Proof.
  intros w. assert (unmount w = w) as -> by done.
  destruct (run_live_urls (mount initialData) events) as [_ H].
  fold w in H. rewrite H. simpl. by rewrite length_seq.
Qed.

Lemma files_get_replace {V : Type} (k : string) (v v0 : V)
    (o : list (string * V)) :
  get k o = Some v0 -> get k (replace k v o) = Some v.
Proof.
  induction o as [|[k' v'] o IH]; [done|]. cbn [get replace].
  destruct (String.eqb k' k) eqn:E; cbn [get].
  - by rewrite String.eqb_refl.
  - by rewrite E.
Qed.

Lemma files_get_insert_index {V : Type} (n : N) (k : string) (v : V)
    (o : list (string * V)) :
  get k o = None -> get k (insert_index n k v o) = Some v.
Proof.
  induction o as [|[k' v'] o IH]; cbn [insert_index get].
  - by rewrite String.eqb_refl.
  - destruct (String.eqb k' k) eqn:E; [done|]. intros Hk.
    destruct (Obj.array_index k') as [n'|]; [destruct (n' <? n)%N|];
      cbn [get]; rewrite ?String.eqb_refl, ?E; auto.
Qed.

Lemma files_get_app_new {V : Type} (k : string) (v : V)
    (o : list (string * V)) :
  get k o = None -> get k (o ++ [(k, v)]) = Some v.
Proof.
  induction o as [|[k' v'] o IH]; cbn [app get].
  - by rewrite String.eqb_refl.
  - destruct (String.eqb k' k); [done|]. exact IH.
Qed.

Lemma files_get_set {V : Type} (k : string) (v : V) (o : list (string * V)) :
  get k (set k v o) = Some v.
Proof.
  unfold set. destruct (get k o) as [v0|] eqn:Hk.
  - by eapply files_get_replace.
  - destruct (Obj.array_index k) as [n|].
    + by apply files_get_insert_index.
    + by apply files_get_app_new.
Qed.

(** X22. Nothing ties a reader to the latest choice.  When two files are
    chosen for one field one after the other, the field ends up with the
    data of the file whose reader ends last: the second file when the
    readers end in the order they started, the first file when they end the
    other way round, although the preview (both being images) is that of
    the second file either way. *)
Theorem file_readers_race (name : string) (f1 f2 : File)
    (more1 more2 : list File) (w : World) :
  reading w = [] ->
  let fieldKey := JSString.replace_char "-" "_" name in
  let chosen :=
    [FileChange name (f1 :: more1); FileChange name (f2 :: more2)] in
  let in_order := run w (chosen ++ [LoadEnd 0; LoadEnd 0]) in
  let reversed := run w (chosen ++ [LoadEnd 1; LoadEnd 0]) in
  get fieldKey (fileData in_order) = Some (read_result f2) /\
  get fieldKey (fileData reversed) = Some (read_result f1) /\
  reading in_order = [] /\ reading reversed = [] /\
  (String.prefix "image/" (file_type f1) = true ->
   String.prefix "image/" (file_type f2) = true ->
   get fieldKey (filePreview in_order) = Some (S (next_url w)) /\
   get fieldKey (filePreview reversed) = Some (S (next_url w))).
Proof.
  intros Hr fieldKey chosen in_order reversed.
  subst in_order reversed chosen. cbn [app run fold_left step].
  unfold handleFileChange. fold fieldKey.
  destruct (String.prefix "image/" (file_type f1)),
           (String.prefix "image/" (file_type f2));
    unfold onloadend; cbn; rewrite Hr; cbn; rewrite ?files_get_set;
    repeat apply conj; done.
Qed.

End FilesMore.

(** ** The top navigation *)

Module TopNavMore.
Import TopNav.

Lemma existsb_filtered (token : string) (l : list string) :
  existsb (String.eqb token)
    (List.filter (fun c => negb (String.eqb c token)) l) = false.
Proof.
  induction l as [|c l IH]; [done|]. cbn [List.filter].
  destruct (String.eqb_spec c token) as [->|Hne]; cbn [negb]; [done|].
  cbn [existsb]. rewrite IH.
  destruct (String.eqb_spec token c); [congruence|done].
Qed.

Lemma existsb_toggle (token : string) (l : list string) :
  existsb (String.eqb token) (toggle token l)
    = negb (existsb (String.eqb token) l).
Proof.
  unfold toggle. destruct (existsb (String.eqb token) l) eqn:E.
  - apply existsb_filtered.
  - rewrite existsb_app, E. simpl. by rewrite String.eqb_refl.
Qed.

Lemma elem_of_toggle (token c : string) (l : list string) :
  c <> token -> c ∈ toggle token l <-> c ∈ l.
Proof.
  intros Hne. unfold toggle. destruct (existsb (String.eqb token) l).
  - rewrite !list_elem_of_In, List.filter_In.
    destruct (String.eqb_spec c token); [done|].
    split; [by intros [Hin _]|by intros Hin].
  - rewrite elem_of_app, list_elem_of_singleton.
    split; [by intros [Hin|Heq]|by left].
Qed.

(** X23. As long as every click is handled by the latest render, the
    [isDarkMode] state and the [dark] class of the page stay in step, other
    classes are left alone, and a second click undoes the first.  A second
    call by the same render does not: the class is toggled back while the
    state stays, and the two are out of step. *)
Theorem dark_mode_in_step (w : World) :
  isDarkMode w = existsb (String.eqb "dark") (classList w) ->
  isDarkMode (click w) = existsb (String.eqb "dark") (classList (click w)) /\
  (forall c, c <> "dark" -> c ∈ classList (click w) <-> c ∈ classList w) /\
  isDarkMode (click (click w)) = isDarkMode w /\
  isDarkMode (toggleDarkMode (isDarkMode w) (click w))
    <> existsb (String.eqb "dark")
         (classList (toggleDarkMode (isDarkMode w) (click w))).
Proof.
  intros H. unfold click, toggleDarkMode. cbn [isDarkMode classList].
  rewrite !existsb_toggle, <- H.
  split; [done|]. split; [intros c Hc; by apply elem_of_toggle|].
  split; [apply negb_involutive|]. by destruct (isDarkMode w).
Qed.

End TopNavMore.

(** ** The multi-checkbox handler, one event at a time *)

Section CheckboxMore.
Import JSString JSStringFacts SplitJoinFacts.

Variable rules : list ValidationRule.
Variable js_syntax_error : string -> option JSValue.
Variable js_call : string -> string -> completion JSValue.

Local Abbreviation handleMultiCheckboxChange :=
  (Form.handleMultiCheckboxChange rules js_syntax_error js_call).

Lemma filter_out_app (v : string) (l : list string) :
  List.filter (fun x => negb (String.eqb x v)) (l ++ [v])
  = List.filter (fun x => negb (String.eqb x v)) l.
Proof.
  rewrite List.filter_app. cbn [List.filter].
  rewrite String.eqb_refl. cbn [negb]. apply app_nil_r.
Qed.

Lemma filter_out_absent (v : string) (l : list string) :
  v ∉ l -> List.filter (fun x => negb (String.eqb x v)) l = l.
Proof.
  induction l as [|x l IH]; [done|].
  intros [Hx Hl]%not_elem_of_cons. cbn [List.filter].
  destruct (String.eqb_spec x v); [congruence|]. cbn [negb]. by rewrite IH.
Qed.

(** X24. On a stored value that joins options without commas, for a field
    whose key is not the name of a member of [Object.prototype]: neither
    event throws; a "checked" event appends the option, also when it is
    stored already, so the handler by itself does not keep the options
    unique; an "unchecked" event removes every occurrence of the option;
    and checking an option that is not stored, then unchecking it, gives
    the stored value back. *)
Theorem checkbox_check_then_uncheck (name value : string) (l : list string)
    (w : World) :
  Obj.inherited (replace_char "-" "_" name) = false ->
  Forall (fun o => plain_option o = true) l ->
  plain_option value = true ->
  Form.stored name w = join "," l ->
  let first := handleMultiCheckboxChange name value true w in
  let second := handleMultiCheckboxChange name value false first.2 in
  first.1 = Normal tt /\
  second.1 = Normal tt /\
  Form.stored name first.2 = join "," (l ++ [value]) /\
  Form.stored name second.2
    = join "," (List.filter (fun x => negb (String.eqb x value)) l) /\
  (value ∉ l -> Form.stored name second.2 = Form.stored name w).
Proof.
  intros Hkey Hl Hv Hst first second.
  destruct (handleMultiCheckboxChange_stored rules js_syntax_error js_call
              name value true w) as [N1 H1];
    [by apply reads_prototype_own|].
  fold first in N1, H1. cbv zeta in H1.
  rewrite Hst, filter_split_join in H1 by done.
  destruct (handleMultiCheckboxChange_stored rules js_syntax_error js_call
              name value false first.2) as [N2 H2];
    [by apply reads_prototype_own|].
  fold second in N2, H2. cbv zeta in H2.
  rewrite H1, filter_split_join, filter_out_app in H2
    by (apply Forall_app; split; [done|by constructor]).
  split; [done|]. split; [done|]. split; [done|]. split; [done|].
  intros Hnot. by rewrite H2, Hst, filter_out_absent.
Qed.

End CheckboxMore.

(** ** Runs of the further properties on concrete inputs *)

Module MoreScenarios.
Import JSString Scenario.

Lemma validateField_unparsable_rule_witness :
  Form.validateField
    [SampleMore.unparsable_rule "nationality"; Sample.short_rule "nationality"]
    Sample.js_syntax_error Sample.js_call "Portugal" "nationality" None
  = (Normal "Invalid input",
     [ConsoleError "Validation creation error:"
        (VError "Unexpected token '}'")]).
Proof.
  apply (validateField_unparsable_rule
           [SampleMore.unparsable_rule "nationality";
            Sample.short_rule "nationality"]
           Sample.js_syntax_error Sample.js_call "Portugal" "nationality" None
           [] [Sample.short_rule "nationality"]
           (SampleMore.unparsable_rule "nationality")).
  - reflexivity.
  - constructor.
  - reflexivity.
Defined.

Lemma validateField_other_field_rule_witness :
  Form.validateField
    [Sample.required_rule "nationality"; Sample.short_rule "visa-type"]
    Sample.js_syntax_error Sample.js_call "Portugal" "nationality" None
  = Form.validateField [Sample.required_rule "nationality"]
      Sample.js_syntax_error Sample.js_call "Portugal" "nationality" None.
Proof.
  apply (validateField_other_field_rule Sample.js_syntax_error Sample.js_call
           [Sample.required_rule "nationality"] []
           (Sample.short_rule "visa-type")).
  discriminate.
Defined.

Lemma handleSubmit_onSubmit_throws_witness :
  exists w',
    Form.handleSubmit Form.validationRules_generated Sample.js_syntax_error
      Sample.js_call SampleMore.onSubmit_offline
      (state (Form.world (Form.mount values_B)))
      (Form.world (Form.mount values_B))
    = (Normal Form.Finished, w') /\
    status (state w') = {| type := StatusError; message := "offline" |} /\
    submissionInProgress w' = false /\
    submitted w' = [values_B].
Proof.
  destruct (handleSubmit_onSubmit_throws Form.validationRules_generated
              Sample.js_syntax_error Sample.js_call SampleMore.onSubmit_offline
              (state (Form.world (Form.mount values_B)))
              (Form.world (Form.mount values_B)) (VError "offline"))
    as (w' & H & Hst & _ & Hg & _ & _ & Hsub).
  - reflexivity.
  - intros entry _. reflexivity.
  - reflexivity.
  - exists w'. split; [exact H|]. split; [exact Hst|].
    split; [exact Hg|exact Hsub].
Defined.

Lemma retry_after_failure_witness :
  let w := Form.world (Form.mount values_B) in
  let w1 := (Form.handleSubmit Form.validationRules_generated
               Sample.js_syntax_error Sample.js_call Sample.onSubmit_throws
               (state w) w).2 in
  let w2 := (Form.handleSubmit_resume (Throw (VString "timeout")) w1).2 in
  status (state w2)
    = {| type := StatusError; message := "Failed to submit form" |} /\
  formData (state w2) = values_B /\
  exists w3,
    Form.handleSubmit Form.validationRules_generated Sample.js_syntax_error
      Sample.js_call Sample.onSubmit_throws (state w2) w2
    = (Normal Form.AwaitingSubmit, w3) /\
    submitted w3 = [values_B; values_B].
Proof.
  intros w w1 w2.
  destruct (retry_after_failure Form.validationRules_generated
              Sample.js_syntax_error Sample.js_call Sample.onSubmit_throws
              w (VString "timeout"))
    as (Hst & Hfd & _ & w3 & H3 & Hsub).
  - reflexivity.
  - intros entry _. reflexivity.
  - reflexivity.
  - split; [exact Hst|]. split; [exact Hfd|].
    exists w3. split; [exact H3|exact Hsub].
Defined.

Lemma success_then_reset_witness :
  let s := Form.step Form.validationRules_generated Sample.js_syntax_error
             Sample.js_call Sample.onSubmit_throws (Form.mount values_B)
             (Form.SubmitEvent (state (Form.world (Form.mount values_B)))) in
  let reset :=
    Form.run Form.validationRules_generated Sample.js_syntax_error
      Sample.js_call Sample.onSubmit_throws s
      [Form.SubmitSettled (Normal tt);
       Form.Commit;
       Form.ChangeEvent "full-name" "John Doe" "text";
       Form.TimerFired] in
  let final :=
    Form.run Form.validationRules_generated Sample.js_syntax_error
      Sample.js_call Sample.onSubmit_throws reset
      [Form.Commit; Form.TimerFired] in
  formData (state (Form.world reset)) = [] /\
  status (state (Form.world reset))
    = {| type := StatusSuccess; message := "Form submitted successfully!" |} /\
  status (state (Form.world final)) = {| type := StatusNone; message := "" |}.
Proof.
  intros s reset final.
  destruct (success_then_reset Form.validationRules_generated
              Sample.js_syntax_error Sample.js_call Sample.onSubmit_throws
              s [] [Form.ChangeEvent "full-name" "John Doe" "text"]
              [Form.Commit])
    as (_ & _ & (Hfd & Hst & _) & (Hfinal & _)).
  - simpl. lia.
  - reflexivity.
  - constructor.
  - repeat constructor.
  - repeat constructor.
  - split; [exact Hfd|]. split; [exact Hst|exact Hfinal].
Defined.

Lemma formatPhoneNumber_by_digits_alone_witness :
  Formatters.formatPhoneNumber "123-45"
  = Formatters.formatPhoneNumber "(123) 45".
Proof.
  apply PhoneMore.formatPhoneNumber_by_digits_alone.
  - simpl. lia.
  - reflexivity.
Defined.

Lemma formatPhoneNumber_typing_witness :
  Formatters.formatPhoneNumber (Formatters.formatPhoneNumber "1234" +:+ "5")
  = Formatters.formatPhoneNumber ("1234" +:+ "5").
Proof. apply PhoneMore.formatPhoneNumber_typing. simpl. lia. Defined.

Lemma formatPhoneNumber_shape_witness :
  all is_phone_char (Formatters.formatPhoneNumber "123.456.7890") = true /\
  String.length (Formatters.formatPhoneNumber "123.456.7890") <= 14.
Proof. apply PhoneMore.formatPhoneNumber_shape. simpl. lia. Defined.

Lemma handleCurrencyChange_two_decimals_witness :
  exists sign a b,
    Obj.get "amount"
      (formData (state (Form.handleCurrencyChange "amount" "12.5"
                          (Form.world (Form.mount []))).2))
      = Some (sign +:+ a +:+ "." +:+ b) /\
    (sign = "" \/ sign = "-") /\
    all is_digit a = true /\ 1 <= String.length a /\
    all is_digit b = true /\ String.length b = 2.
Proof.
  apply (CurrencyMore.handleCurrencyChange_two_decimals "amount" "12.5"
           (Form.world (Form.mount [])) false 7036874417766400%N (-49)%Z).
  - vm_compute. reflexivity.
  - vm_compute. reflexivity.
Defined.

Lemma file_readers_race_witness :
  let chosen := [Files.FileChange "additional-documents" [SampleMore.photo];
                 Files.FileChange "additional-documents" [SampleMore.scan]] in
  Files.get "additional_documents"
    (Files.fileData
       (Files.run (Files.mount [])
          (chosen ++ [Files.LoadEnd 1; Files.LoadEnd 0])))
  = Some (Files.read_result SampleMore.photo) /\
  Files.get "additional_documents"
    (Files.filePreview
       (Files.run (Files.mount [])
          (chosen ++ [Files.LoadEnd 1; Files.LoadEnd 0])))
  = Some 1.
Proof.
  intros chosen.
  destruct (FilesMore.file_readers_race "additional-documents"
              SampleMore.photo SampleMore.scan [] [] (Files.mount []))
    as (_ & Hdata & _ & _ & Hprev).
  - reflexivity.
  - split; [exact Hdata|]. exact (proj2 (Hprev eq_refl eq_refl)).
Defined.

Lemma dark_mode_in_step_witness :
  let w := {| TopNav.isDarkMode := false; TopNav.classList := ["h-full"] |} in
  TopNav.isDarkMode (TopNav.click w) = true /\
  TopNav.classList (TopNav.click w) = ["h-full"; "dark"] /\
  TopNav.isDarkMode (TopNav.click (TopNav.click w)) = false.
Proof.
  intros w.
  destruct (TopNavMore.dark_mode_in_step w) as (H1 & _ & H3 & _).
  - reflexivity.
  - split; [exact H1|]. split; [reflexivity|exact H3].
Defined.

Lemma checkbox_check_then_uncheck_witness :
  let w := Form.world (Form.mount [("travel_purposes", "Work,Study")]) in
  let w1 := (Form.handleMultiCheckboxChange Form.validationRules_generated
               Sample.js_syntax_error Sample.js_call
               "travel-purposes" "Study" true w).2 in
  let w2 := (Form.handleMultiCheckboxChange Form.validationRules_generated
               Sample.js_syntax_error Sample.js_call
               "travel-purposes" "Study" false w1).2 in
  Form.stored "travel-purposes" w1 = "Work,Study,Study" /\
  Form.stored "travel-purposes" w2 = "Work".
Proof.
  intros w w1 w2.
  destruct (checkbox_check_then_uncheck Form.validationRules_generated
              Sample.js_syntax_error Sample.js_call
              "travel-purposes" "Study" ["Work"; "Study"] w)
    as (_ & _ & H1 & H2 & _).
  - reflexivity.
  - repeat constructor.
  - reflexivity.
  - reflexivity.
  - split; [exact H1|exact H2].
Defined.

End MoreScenarios.
